(** * Open Responses proxy: the orchestrator, its persistence gateway and
      the request schema, embedded from the TypeScript sources.

    - [lib/openresponses/response.ts]: output items, usage, response object;
    - [lib/openresponses/schema.ts]: input items and [ResponsesRequestSchema];
    - [lib/db/schema.ts]: the [responses] table;
    - [lib/orchestrator]: [buildInputItems], [persistResponse],
      [persistPartialOutput], [streamResponse], the dispatch of [runResponse];
    - [app/v1/responses/[id]/cancel/route.ts]: the cancel endpoint.

    Conventions.  JavaScript counters ([sequence], [nextOutputIndex], token
    counts, epoch seconds) are [Z]; the request's fractional numbers
    ([temperature], [top_p], [max_output_tokens] before validation) are
    rationals [Q], which is exact for the comparisons with 0, 1 and 2 that the
    schema makes.  [null] and [undefined] are both [None], as every reader of
    those fields goes through [??] or a truthiness test.  Random identifiers
    are drawn from an arbitrary supply [uuid : nat -> string], the clock is an
    explicit argument. *)

From Stdlib Require Import ZArith QArith Ascii String List Bool Lia Sorted.
From stdpp Require Import base option list strings gmap fin_maps.
Import ListNotations.

#[local] Open Scope string_scope.
#[local] Open Scope Z_scope.
#[local] Open Scope list_scope.

(** ** JavaScript truthiness of the values the orchestrator tests *)

(** [if (s)] for a [string | null | undefined]: the empty string is falsy. *)
Definition truthy (s : option string) : bool :=
  match s with
  | Some s => negb (String.eqb s "")
  | None => false
  end.

(** ** lib/openresponses/response.ts *)

Inductive ItemStatus := ItemInProgress | ItemCompleted | ItemIncomplete.

(** [OutputTextPart]: [type] is always ["output_text"], [annotations] always
    the empty array. *)
Record OutputTextPart := { part_text : string }.

Inductive OutputItem :=
| MessageItem (id : string) (status : ItemStatus) (content : list OutputTextPart)
| FunctionCallItem (id call_id : string) (status : ItemStatus)
                   (name arguments : string)
| ReasoningItem (id : string) (summary_text : string).

Definition output_item_id (o : OutputItem) : string :=
  match o with
  | MessageItem id _ _ => id
  | FunctionCallItem id _ _ _ _ => id
  | ReasoningItem id _ => id
  end.

Record Usage := {
  input_tokens : Z;
  output_tokens : Z;
  total_tokens : Z;
  cached_tokens : option Z;
}.

Inductive Status :=
| Queued | InProgress | Completed | Failed | Cancelled | Incomplete.

#[global] Instance Status_eq_dec : EqDecision Status.
Proof. solve_decision. Defined.

#[global] Instance ItemStatus_eq_dec : EqDecision ItemStatus.
Proof. solve_decision. Defined.

(** The four statuses a response never leaves, per the data model. *)
Definition terminal (s : Status) : bool :=
  match s with
  | Completed | Failed | Cancelled | Incomplete => true
  | Queued | InProgress => false
  end.

(** ** lib/openresponses/schema.ts: input items *)

Inductive InputContentPart :=
| InputText (text : string)
| InputImage (image_url : option string) (detail : option string).

Inductive MessageContent :=
| ContentString (s : string)
| ContentParts (parts : list InputContentPart).

Inductive Role := User | Assistant | System | Developer.

Inductive InputItem :=
| InputMessage (role : Role) (content : MessageContent)
| FunctionCall (id : option string) (call_id name arguments : string)
| FunctionCallOutput (call_id output : string)
| ItemReference (id : string).

Inductive Input :=
| InputString (s : string)
| InputArray (items : list InputItem).

(** The assembled conversation is an [unknown[]]: request items and the
    output items of the previous response side by side. *)
Inductive Item :=
| FromInput (i : InputItem)
| FromOutput (o : OutputItem).

(** The [id] property that [inputItems.find] reads on an arbitrary item. *)
Definition item_id (i : Item) : option string :=
  match i with
  | FromInput (InputMessage _ _) => None
  | FromInput (FunctionCall id _ _ _) => id
  | FromInput (FunctionCallOutput _ _) => None
  | FromInput (ItemReference id) => Some id
  | FromOutput o => Some (output_item_id o)
  end.

Inductive Tool :=
| FunctionTool (name : string)
| BuiltinTool (type : string)
| McpTool (server_label server_url : string).

Inductive ToolChoice :=
| ChoiceAuto | ChoiceRequired | ChoiceNone
| ChoiceFunction (name : string)
| ChoiceAllowedTools (allowed : list string).

Inductive Truncation := TruncAuto | TruncDisabled.

Inductive TextFormat :=
| FormatText
| FormatJsonSchema (name : string)
| FormatJsonObject.

Inductive Effort := Low | Medium | High.

Record Reasoning := { effort : option Effort }.

(** [ResponsesRequest = z.infer<typeof ResponsesRequestSchema>]: the request
    after validation, defaults filled in. *)
Record ResponsesRequest := {
  model : string;
  input : Input;
  stream : bool;
  instructions : option string;
  previous_response_id : option string;
  tools : list Tool;
  tool_choice : ToolChoice;
  temperature : option Q;
  top_p : option Q;
  max_output_tokens : option Q;
  store : bool;
  background : bool;
  metadata : list (string * string);
  truncation : Truncation;
  parallel_tool_calls : bool;
  text : option TextFormat;
  reasoning : option Reasoning;
}.

(** ** lib/db/schema.ts: one row of the [responses] table

    The columns that [persistResponse], the only statement that inserts
    rows, always fills in ([store], [background], [truncation],
    [parallel_tool_calls], the tools) are not optional here; the JSON and
    timestamp columns that it may leave [null] are. *)

Inductive ErrorJson := ServerError (message : string).

Inductive IncompleteDetails := Interrupted.

Record Row := {
  row_status : Status;
  row_model : string;
  row_instructions : option string;
  inputItemsJson : option (list Item);
  outputItemsJson : option (list OutputItem);
  toolsJson : list Tool;
  toolChoiceJson : ToolChoice;
  usageJson : option Usage;
  row_metadata : list (string * string);
  row_store : bool;
  row_background : bool;
  previousResponseId : option string;
  row_truncation : Truncation;
  parallelToolCalls : bool;
  row_temperature : option Q;
  topP : option Q;
  maxOutputTokens : option Q;
  errorJson : option ErrorJson;
  incompleteDetailsJson : option IncompleteDetails;
  createdAt : Z;
  completedAt : option Z;
  cancelledAt : option Z;
}.

(** The table, keyed by its primary key [id]; the record holds the other
    columns. *)
Abbreviation DB := (gmap string Row).

(** ** lib/orchestrator: persistence helpers *)

(** [persistResponse]: [insert ... values ... onConflictDoUpdate { target:
    responses.id, set: {...} }].  [now] is [Math.floor(Date.now() / 1000)]. *)
Definition persistResponse (now : Z) (responseId : string)
    (request : ResponsesRequest) (inputItems : list Item) (status : Status)
    (outputItems : list OutputItem) (usage : option Usage) (created : Z)
    (error : option ErrorJson) (incompleteDetails : option IncompleteDetails)
    (db : DB) : DB :=
  let completed_at :=
    if decide (status = Completed) then Some now else None in
  match db !! responseId with
  | None =>
      <[responseId := {|
        row_status := status;
        row_model := model request;
        row_instructions := instructions request;
        inputItemsJson := Some inputItems;
        outputItemsJson := Some outputItems;
        toolsJson := tools request;
        toolChoiceJson := tool_choice request;
        usageJson := usage;
        row_metadata := metadata request;
        row_store := true;
        row_background := background request;
        previousResponseId := previous_response_id request;
        row_truncation := truncation request;
        parallelToolCalls := parallel_tool_calls request;
        row_temperature := temperature request;
        topP := top_p request;
        maxOutputTokens := max_output_tokens request;
        errorJson := error;
        incompleteDetailsJson := incompleteDetails;
        createdAt := created;
        completedAt := completed_at;
        cancelledAt := None;
      |}]> db
  | Some old =>
      <[responseId := {|
        row_status := status;
        row_model := row_model old;
        row_instructions := row_instructions old;
        inputItemsJson := inputItemsJson old;
        outputItemsJson := Some outputItems;
        toolsJson := toolsJson old;
        toolChoiceJson := toolChoiceJson old;
        usageJson := usage;
        row_metadata := row_metadata old;
        row_store := row_store old;
        row_background := row_background old;
        previousResponseId := previousResponseId old;
        row_truncation := row_truncation old;
        parallelToolCalls := parallelToolCalls old;
        row_temperature := row_temperature old;
        topP := topP old;
        maxOutputTokens := maxOutputTokens old;
        errorJson := error;
        incompleteDetailsJson := incompleteDetails;
        createdAt := createdAt old;
        completedAt := completed_at;
        cancelledAt := cancelledAt old;
      |}]> db
  end.

(** [db.update(responses).set(...).where(...)]: every row that satisfies the
    condition is rewritten, the others are kept. *)
Definition sql_update (cond : string -> Row -> bool) (set : Row -> Row)
    (db : DB) : DB :=
  map_imap (fun id r => Some (if cond id r then set r else r)) db.

Definition set_outputItemsJson (outputItems : list OutputItem) (r : Row) : Row :=
  {| row_status := row_status r;
     row_model := row_model r;
     row_instructions := row_instructions r;
     inputItemsJson := inputItemsJson r;
     outputItemsJson := Some outputItems;
     toolsJson := toolsJson r;
     toolChoiceJson := toolChoiceJson r;
     usageJson := usageJson r;
     row_metadata := row_metadata r;
     row_store := row_store r;
     row_background := row_background r;
     previousResponseId := previousResponseId r;
     row_truncation := row_truncation r;
     parallelToolCalls := parallelToolCalls r;
     row_temperature := row_temperature r;
     topP := topP r;
     maxOutputTokens := maxOutputTokens r;
     errorJson := errorJson r;
     incompleteDetailsJson := incompleteDetailsJson r;
     createdAt := createdAt r;
     completedAt := completedAt r;
     cancelledAt := cancelledAt r |}.

(** [persistPartialOutput]: [set({ outputItemsJson }).where(and(eq(id,
    responseId), eq(status, "in_progress")))]. *)
Definition persistPartialOutput (responseId : string)
    (outputItems : list OutputItem) (db : DB) : DB :=
  sql_update
    (fun id r => bool_decide (id = responseId)
                 && bool_decide (row_status r = InProgress))
    (set_outputItemsJson outputItems) db.

(** ** lib/openresponses/errors.ts *)

Inductive ErrorType :=
| invalid_request_error | unauthorized | not_found | conflict
| rate_limit_error | server_error | not_implemented.

(** An HTTP error response: status line and the [error] body. *)
Record ApiError := {
  http_status : Z;
  error_type : ErrorType;
  error_message : string;
  error_param : option string;
}.

Definition jsonError (status : Z) (type : ErrorType) (message : string)
    (param : option string) : ApiError :=
  {| http_status := status; error_type := type;
     error_message := message; error_param := param |}.

Definition notFoundError (message : string) : ApiError :=
  jsonError 404 not_found message None.

Definition conflictError (message : string) : ApiError :=
  jsonError 409 conflict message None.

(** A handler either answers with a body or with an error response. *)
Inductive Result (A : Type) :=
| Ok (a : A)
| Err (e : ApiError).
Arguments Ok {A} a.
Arguments Err {A} e.

(** ** The response object *)

Record ResponseObject := {
  resp_id : string;
  resp_created_at : Z;
  resp_status : Status;
  resp_model : string;
  resp_output : list OutputItem;
  resp_tool_choice : ToolChoice;
  resp_tools : list Tool;
  resp_parallel_tool_calls : bool;
  resp_instructions : option string;
  resp_previous_response_id : option string;
  resp_temperature : option Q;
  resp_top_p : option Q;
  resp_max_output_tokens : option Q;
  resp_truncation : Truncation;
  resp_metadata : list (string * string);
  resp_usage : option Usage;
  resp_error : option ErrorJson;
  resp_incomplete_details : option IncompleteDetails;
  resp_text : TextFormat;
  resp_reasoning : option Reasoning;
  resp_store : bool;
  resp_background : bool;
}.

Definition status_name (s : Status) : string :=
  match s with
  | Queued => "queued"
  | InProgress => "in_progress"
  | Completed => "completed"
  | Failed => "failed"
  | Cancelled => "cancelled"
  | Incomplete => "incomplete"
  end.

(** ** app/v1/responses/[id]/cancel/route.ts *)

Definition set_cancelled (now : Z) (r : Row) : Row :=
  {| row_status := Cancelled;
     row_model := row_model r;
     row_instructions := row_instructions r;
     inputItemsJson := inputItemsJson r;
     outputItemsJson := outputItemsJson r;
     toolsJson := toolsJson r;
     toolChoiceJson := toolChoiceJson r;
     usageJson := usageJson r;
     row_metadata := row_metadata r;
     row_store := row_store r;
     row_background := row_background r;
     previousResponseId := previousResponseId r;
     row_truncation := row_truncation r;
     parallelToolCalls := parallelToolCalls r;
     row_temperature := row_temperature r;
     topP := topP r;
     maxOutputTokens := maxOutputTokens r;
     errorJson := errorJson r;
     incompleteDetailsJson := incompleteDetailsJson r;
     createdAt := createdAt r;
     completedAt := completedAt r;
     cancelledAt := Some now |}.

Definition cancellableStatuses (s : Status) : bool :=
  match s with
  | Queued | InProgress => true
  | _ => false
  end.

(** [POST /v1/responses/{id}/cancel], after authentication: the answer and
    the table it leaves. *)
Definition cancel_POST (now : Z) (id : string) (db : DB)
    : Result ResponseObject * DB :=
  match db !! id with
  | None => (Err (notFoundError ("Response '" +:+ id +:+ "' not found.")), db)
  | Some row =>
      if negb (row_store row) then
        (Err (conflictError "Cannot cancel a response that was not stored."), db)
      else if negb (cancellableStatuses (row_status row)) then
        (Err (conflictError
                ("Response '" +:+ id +:+ "' has status '"
                 +:+ status_name (row_status row)
                 +:+ "' and cannot be cancelled.")), db)
      else
        let db' :=
          sql_update (fun k _ => bool_decide (k = id)) (set_cancelled now) db in
        (Ok {| resp_id := id;
               resp_created_at := createdAt row;
               resp_status := Cancelled;
               resp_model := row_model row;
               resp_output := default [] (outputItemsJson row);
               resp_tool_choice := toolChoiceJson row;
               resp_tools := toolsJson row;
               resp_parallel_tool_calls := parallelToolCalls row;
               resp_instructions := row_instructions row;
               resp_previous_response_id := previousResponseId row;
               resp_temperature := row_temperature row;
               resp_top_p := topP row;
               resp_max_output_tokens := maxOutputTokens row;
               resp_truncation := row_truncation row;
               resp_metadata := row_metadata row;
               resp_usage := usageJson row;
               resp_error := errorJson row;
               resp_incomplete_details := incompleteDetailsJson row;
               resp_text := FormatText;
               resp_reasoning := None;
               resp_store := row_store row;
               resp_background := row_background row |}, db')
  end.

(** ** lib/orchestrator: buildInputItems *)

Definition is_item_reference (i : InputItem) : bool :=
  match i with
  | ItemReference _ => true
  | _ => false
  end.

(** The body of [for (const rawItem of currentInput)]: an [item_reference]
    looks its id up in the items gathered so far and pushes nothing, whether
    the lookup succeeds or not; every other item is pushed. *)
Definition push_input_item (inputItems : list Item) (rawItem : InputItem)
    : list Item :=
  match rawItem with
  | ItemReference refId =>
      if truthy (Some refId) then
        let found :=
          List.find (fun i => bool_decide (item_id i = Some refId)) inputItems in
        match found with
        | Some _ => inputItems
        | None => inputItems
        end
      else inputItems
  | _ => inputItems ++ [FromInput rawItem]
  end.

Definition buildInputItems (db : DB) (request : ResponsesRequest)
    : Result (list Item) :=
  let seed : Result (list Item) :=
    if truthy (previous_response_id request) then
      let pid := default "" (previous_response_id request) in
      match db !! pid with
      | None =>
          Err (jsonError 404 not_found
                 ("Response '" +:+ pid +:+ "' not found.")
                 (Some "previous_response_id"))
      | Some prev =>
          if negb (row_store prev) then
            Err (jsonError 400 invalid_request_error
                   "Cannot reference a response that was not stored."
                   (Some "previous_response_id"))
          else
            let prevInput := default [] (inputItemsJson prev) in
            let prevOutput := default [] (outputItemsJson prev) in
            Ok (prevInput ++ (FromOutput <$> prevOutput))
      end
    else Ok [] in
  match seed with
  | Err e => Err e
  | Ok inputItems =>
      match input request with
      | InputString currentInput =>
          if negb (String.eqb currentInput "") then
            Ok (inputItems
                ++ [FromInput (InputMessage User (ContentString currentInput))])
          else Ok inputItems
      | InputArray currentInput =>
          Ok (fold_left push_input_item currentInput inputItems)
      end
  end.

(** ** lib/openresponses/schema.ts: ResponsesRequestSchema *)

(** The JSON body in the shape the schema's input type gives it: a key that
    is [.optional()] may be absent.  Ill-typed bodies (a string where a
    number is expected, an unknown item type) are outside this type. *)
Record RequestBody := {
  body_model : string;
  body_input : Input;
  body_stream : option bool;
  body_instructions : option string;
  body_previous_response_id : option string;
  body_tools : option (list Tool);
  body_tool_choice : option ToolChoice;
  body_temperature : option Q;
  body_top_p : option Q;
  body_max_output_tokens : option Q;
  body_store : option bool;
  body_background : option bool;
  body_metadata : option (list (string * string));
  body_truncation : option Truncation;
  body_parallel_tool_calls : option bool;
  body_text : option TextFormat;
  body_reasoning : option Reasoning;
}.

(** [z.number().min(lo).max(hi).nullable().optional()]: the issues raised,
    each named by the path of its key. *)
Definition check_min_max (path : string) (lo hi : Q) (v : option Q)
    : list string :=
  match v with
  | None => []
  | Some q =>
      (if Qle_bool lo q then [] else [path])
      ++ (if Qle_bool q hi then [] else [path])
  end.

(** [Number.isInteger] on a rational. *)
Definition is_integer (q : Q) : bool :=
  Z.eqb (Qnum q mod Z.pos (Qden q)) 0.

(** [z.number().int().positive().nullable().optional()]. *)
Definition check_int_positive (path : string) (v : option Q) : list string :=
  match v with
  | None => []
  | Some q =>
      (if is_integer q then [] else [path])
      ++ (if Qle_bool q 0 then [path] else [])
  end.

Inductive SafeParse :=
| ParseSuccess (data : ResponsesRequest)
| ParseFailure (issues : list string).

(** [ResponsesRequestSchema.safeParse(body)]: keys are checked in the order
    of the schema; defaults are filled in on success. *)
Definition safeParse (body : RequestBody) : SafeParse :=
  let issues :=
    check_min_max "temperature" 0 2 (body_temperature body)
    ++ check_min_max "top_p" 0 1 (body_top_p body)
    ++ check_int_positive "max_output_tokens" (body_max_output_tokens body) in
  match issues with
  | [] =>
      ParseSuccess {|
        model := body_model body;
        input := body_input body;
        stream := default false (body_stream body);
        instructions := body_instructions body;
        previous_response_id := body_previous_response_id body;
        tools := default [] (body_tools body);
        tool_choice := default ChoiceAuto (body_tool_choice body);
        temperature := body_temperature body;
        top_p := body_top_p body;
        max_output_tokens := body_max_output_tokens body;
        store := default true (body_store body);
        background := default false (body_background body);
        metadata := default [] (body_metadata body);
        truncation := default TruncDisabled (body_truncation body);
        parallel_tool_calls := default true (body_parallel_tool_calls body);
        text := body_text body;
        reasoning := body_reasoning body;
      |}
  | _ :: _ => ParseFailure issues
  end.

(** ** lib/orchestrator: the dispatch at the end of runResponse *)

Inductive Handler := BackgroundResponse | StreamResponse | NonStreamResponse.

(** Steps 6 and 7 of [runResponse]. *)
Definition runResponse_handler (request : ResponsesRequest) : Handler :=
  if background request && store request then BackgroundResponse
  else if stream request then StreamResponse
  else NonStreamResponse.

(** ** lib/providers/types.ts: the events an adapter yields *)

Record ProviderUsage := {
  inputTokens : Z;
  outputTokens : Z;
  cacheReadTokens : option Z;
}.

Inductive StopReason :=
| end_turn | tool_use | max_tokens | stop | cancelled.

Inductive ProviderEvent :=
| text_delta (delta : string)
| tool_call_start (callId name : string) (outputIndex : Z)
| tool_call_delta (callId argumentsDelta : string)
| tool_call_done (callId arguments : string) (outputIndex : Z)
| message_done (stopReason : StopReason) (usage : ProviderUsage)
| thinking_delta (delta : string)
| thinking_done (text : string).

(** What [for await (const event of adapter.chatStream(...))] can throw:
    one of the three abort errors that [isAbort] recognises, another [Error]
    with its message, or a value that is not an [Error]. *)
Inductive Thrown :=
| AbortError
| OtherError (message : string)
| NotAnError.

Definition isAbort (err : Thrown) : bool :=
  match err with
  | AbortError => true
  | _ => false
  end.

(** One turn of the event loop while the stream is being consumed: the
    adapter yields an event, the debounce timeout expires, or the cancel
    endpoint is called for this response by another request. *)
Inductive Step :=
| Yield (event : ProviderEvent)
| TimerFires
| CancelRequest (at_time : Z).

Inductive Outcome :=
| Returns
| Throws (err : Thrown).

Record ProviderRun := {
  steps : list Step;
  outcome : Outcome;
}.

(** ** lib/openresponses/sse.ts: what goes on the wire *)

Inductive Payload :=
| ResponseInProgress (sequence_number : Z) (response_id : string)
| OutputItemAdded (sequence_number output_index : Z) (item : OutputItem)
| ContentPartAdded (sequence_number : Z) (item_id : string)
                   (output_index content_index : Z) (part : OutputTextPart)
| OutputTextDelta (sequence_number : Z) (item_id : string)
                  (output_index content_index : Z) (delta : string)
| OutputTextDone (sequence_number : Z) (item_id : string)
                 (output_index content_index : Z) (text : string)
| ContentPartDone (sequence_number : Z) (item_id : string)
                  (output_index content_index : Z) (part : OutputTextPart)
| OutputItemDone (sequence_number output_index : Z) (item : OutputItem)
| ResponseCompleted (sequence_number : Z) (response : ResponseObject)
| ResponseFailed (sequence_number : Z) (response : ResponseObject)
| ErrorPayload (type : ErrorType) (message : string) (code : option string).

(** [sseEvent(eventType, data)] and [sseDone()]. *)
Inductive Sse :=
| sseEvent (eventType : string) (data : Payload)
| sseDone.

(** [sseErrorPayload(type, message)], [code] defaulting to [null]. *)
Definition sseErrorPayload (type : ErrorType) (message : string) : Payload :=
  ErrorPayload type message None.

(** ** lib/openresponses/response.ts: createResponseObject *)

Record CreateResponseObjectArgs := {
  arg_model : string;
  arg_output : option (list OutputItem);
  arg_instructions : option string;
  arg_previousResponseId : option string;
  arg_toolChoice : option ToolChoice;
  arg_tools : option (list Tool);
  arg_parallelToolCalls : option bool;
  arg_temperature : option Q;
  arg_topP : option Q;
  arg_maxOutputTokens : option Q;
  arg_truncation : option Truncation;
  arg_metadata : option (list (string * string));
  arg_usage : option Usage;
  arg_status : option Status;
  arg_error : option ErrorJson;
  arg_incompleteDetails : option IncompleteDetails;
  arg_text : option TextFormat;
  arg_reasoning : option Reasoning;
  arg_store : option bool;
  arg_background : option bool;
}.

(** The object literal of [createResponseObject], given the id it drew and
    the clock. *)
Definition response_of_args (id : string) (now : Z)
    (args : CreateResponseObjectArgs) : ResponseObject :=
  {| resp_id := id;
     resp_created_at := now;
     resp_status := default Completed (arg_status args);
     resp_model := arg_model args;
     resp_output := default [] (arg_output args);
     resp_tool_choice := default ChoiceAuto (arg_toolChoice args);
     resp_tools := default [] (arg_tools args);
     resp_parallel_tool_calls := default true (arg_parallelToolCalls args);
     resp_instructions := arg_instructions args;
     resp_previous_response_id := arg_previousResponseId args;
     resp_temperature := arg_temperature args;
     resp_top_p := arg_topP args;
     resp_max_output_tokens := arg_maxOutputTokens args;
     resp_truncation := default TruncDisabled (arg_truncation args);
     resp_metadata := default [] (arg_metadata args);
     resp_usage := arg_usage args;
     resp_error := arg_error args;
     resp_incomplete_details := arg_incompleteDetails args;
     resp_text := default FormatText (arg_text args);
     resp_reasoning := arg_reasoning args;
     resp_store := default true (arg_store args);
     resp_background := default false (arg_background args) |}.

(** [r.id = id; r.created_at = created; r.error = error] on a response
    object ([error] left alone when [None] is passed). *)
Definition override_response (id : string) (created : Z)
    (error : option ErrorJson) (r : ResponseObject) : ResponseObject :=
  {| resp_id := id;
     resp_created_at := created;
     resp_status := resp_status r;
     resp_model := resp_model r;
     resp_output := resp_output r;
     resp_tool_choice := resp_tool_choice r;
     resp_tools := resp_tools r;
     resp_parallel_tool_calls := resp_parallel_tool_calls r;
     resp_instructions := resp_instructions r;
     resp_previous_response_id := resp_previous_response_id r;
     resp_temperature := resp_temperature r;
     resp_top_p := resp_top_p r;
     resp_max_output_tokens := resp_max_output_tokens r;
     resp_truncation := resp_truncation r;
     resp_metadata := resp_metadata r;
     resp_usage := resp_usage r;
     resp_error := match error with Some e => Some e | None => resp_error r end;
     resp_incomplete_details := resp_incomplete_details r;
     resp_text := resp_text r;
     resp_reasoning := resp_reasoning r;
     resp_store := resp_store r;
     resp_background := resp_background r |}.

(** [{ ...msgItem, id }]. *)
Definition with_id (id : string) (o : OutputItem) : OutputItem :=
  match o with
  | MessageItem _ status content => MessageItem id status content
  | FunctionCallItem _ call_id status name arguments =>
      FunctionCallItem id call_id status name arguments
  | ReasoningItem _ summary => ReasoningItem id summary
  end.

(** ** lib/orchestrator: streamResponse *)

(** An entry of the [functionCalls] array. *)
Record FunctionCallEntry := {
  fc_id : string;
  fc_callId : string;
  fc_name : string;
  fc_arguments : string;
  fc_outputIndex : Z;
  fc_done : bool;
}.

(** The variables that the [start] callback closes over and mutates, the
    chunks it has enqueued on the controller (oldest first), the table, and
    the number of identifiers drawn so far. *)
Record StreamState := mkState {
  sequence : Z;
  accumulatedText : string;
  accumulatedThinking : string;
  functionCalls : list FunctionCallEntry;
  nextOutputIndex : Z;
  responseUsage : option Usage;
  textItemOpened : bool;
  messageOutputIndex : Z;
  partialUpdateTimer : bool;
  wire : list Sse;
  database : DB;
  drawn : nat;
}.

Definition set_sequence (v : Z) '(mkState _ b c d e f g h i j k l) :=
  mkState v b c d e f g h i j k l.
Definition set_accumulatedText (v : string) '(mkState a _ c d e f g h i j k l) :=
  mkState a v c d e f g h i j k l.
Definition set_accumulatedThinking (v : string)
    '(mkState a b _ d e f g h i j k l) :=
  mkState a b v d e f g h i j k l.
Definition set_functionCalls (v : list FunctionCallEntry)
    '(mkState a b c _ e f g h i j k l) :=
  mkState a b c v e f g h i j k l.
Definition set_nextOutputIndex (v : Z) '(mkState a b c d _ f g h i j k l) :=
  mkState a b c d v f g h i j k l.
Definition set_responseUsage (v : option Usage)
    '(mkState a b c d e _ g h i j k l) :=
  mkState a b c d e v g h i j k l.
Definition set_textItemOpened (v : bool) '(mkState a b c d e f _ h i j k l) :=
  mkState a b c d e f v h i j k l.
Definition set_messageOutputIndex (v : Z) '(mkState a b c d e f g _ i j k l) :=
  mkState a b c d e f g v i j k l.
Definition set_partialUpdateTimer (v : bool)
    '(mkState a b c d e f g h _ j k l) :=
  mkState a b c d e f g h v j k l.
Definition set_wire (v : list Sse) '(mkState a b c d e f g h i _ k l) :=
  mkState a b c d e f g h i v k l.
Definition set_database (v : DB) '(mkState a b c d e f g h i j _ l) :=
  mkState a b c d e f g h i j v l.
Definition set_drawn (v : nat) '(mkState a b c d e f g h i j k _) :=
  mkState a b c d e f g h i j k v.

(** Statements of the callback: a result and the state they leave. *)
Definition M (A : Type) : Type := StreamState -> A * StreamState.

Definition ret {A} (a : A) : M A := fun s => (a, s).

Definition bind {A B} (m : M A) (k : A -> M B) : M B :=
  fun s => let '(a, s') := m s in k a s'.

Definition get {A} (f : StreamState -> A) : M A := fun s => (f s, s).

Definition modify (f : StreamState -> StreamState) : M unit :=
  fun s => (tt, f s).

Declare Scope stream_scope.
Delimit Scope stream_scope with stream.
Notation "x <~ m ;; k" := (bind m (fun x => k))
  (at level 100, m at next level, k at level 200, right associativity)
  : stream_scope.
Notation "m ;;; k" := (bind m (fun _ => k))
  (at level 100, k at level 200, right associativity) : stream_scope.
#[local] Open Scope stream_scope.

Fixpoint for_each {A} (f : A -> M unit) (l : list A) : M unit :=
  match l with
  | [] => ret tt
  | x :: l => f x ;;; for_each f l
  end.

Section Orchestrator.

(** [randomUUID().replace(/-/g, "")] for the n-th identifier drawn. *)
Variable uuid : nat -> string.

(** [newId(prefix)]. *)
Definition newId (prefix : string) : M string :=
  fun s => (prefix +:+ uuid (drawn s), set_drawn (S (drawn s)) s).

Definition createTextMessageItem (text : string) : M OutputItem :=
  id <~ newId "msg_" ;;
  ret (MessageItem id ItemCompleted [ {| part_text := text |} ]).

(** [Math.floor(Date.now() / 1000)], taken as constant over one stream. *)
Variable now : Z.

Definition createResponseObject (args : CreateResponseObjectArgs)
    : M ResponseObject :=
  id <~ newId "resp_" ;;
  ret (response_of_args id now args).

Section Stream.

Variable request : ResponsesRequest.
Variable inputItems : list Item.
Variable created : Z.
Variables responseId messageId : string.

Definition nextSeq : M Z :=
  fun s => let n := sequence s + 1 in (n, set_sequence n s).

(** [controller.enqueue(data)].  The wire records what the callback
    enqueues; once the client has gone the controller drops the chunk and
    [write] swallows the exception, which changes nothing for the callback. *)
Definition write (data : Sse) : M unit :=
  modify (fun s => set_wire (wire s ++ [data]) s).

Definition function_call_item (fc : FunctionCallEntry) : OutputItem :=
  FunctionCallItem (fc_id fc) (fc_callId fc)
    (if fc_done fc then ItemCompleted else ItemIncomplete)
    (fc_name fc) (fc_arguments fc).

Definition collectOutputItems : M (list OutputItem) :=
  opened <~ get textItemOpened ;;
  items <~ (if opened then
              text <~ get accumulatedText ;;
              msgItem <~ createTextMessageItem text ;;
              ret [with_id messageId msgItem]
            else ret []) ;;
  fcs <~ get functionCalls ;;
  let items := items ++ (function_call_item <$> fcs) in
  thinking <~ get accumulatedThinking ;;
  if truthy (Some thinking) then
    rs <~ newId "rs_" ;;
    ret (ReasoningItem rs thinking :: items)
  else ret items.

Definition persist (status : Status) (outputItems : list OutputItem)
    (usage : option Usage) (error : option ErrorJson)
    (incompleteDetails : option IncompleteDetails) : M unit :=
  modify (fun s =>
    set_database
      (persistResponse now responseId request inputItems status outputItems
         usage created error incompleteDetails (database s)) s).

(** The [setTimeout] callback of [schedulePartialUpdate], run when the
    timeout expires; nothing happens if no timeout is armed. *)
Definition timer_callback : M unit :=
  armed <~ get partialUpdateTimer ;;
  if armed then
    modify (set_partialUpdateTimer false) ;;;
    items <~ collectOutputItems ;;
    modify (fun s =>
      set_database (persistPartialOutput responseId items (database s)) s)
  else ret tt.

(** [clearTimeout] of the armed timeout, if any, then [setTimeout]. *)
Definition schedulePartialUpdate : M unit :=
  if store request then modify (set_partialUpdateTimer true) else ret tt.

Definition cancelPartialUpdate : M unit :=
  armed <~ get partialUpdateTimer ;;
  if armed then modify (set_partialUpdateTimer false) else ret tt.

Definition ensureTextItemOpened : M unit :=
  opened <~ get textItemOpened ;;
  if opened then ret tt
  else
    modify (set_textItemOpened true) ;;;
    index <~ get nextOutputIndex ;;
    modify (set_messageOutputIndex index) ;;;
    modify (set_nextOutputIndex (index + 1)) ;;;
    n <~ nextSeq ;;
    output_index <~ get messageOutputIndex ;;
    write (sseEvent "response.output_item.added"
             (OutputItemAdded n output_index
                (MessageItem messageId ItemInProgress []))) ;;;
    n <~ nextSeq ;;
    output_index <~ get messageOutputIndex ;;
    write (sseEvent "response.content_part.added"
             (ContentPartAdded n messageId output_index 0
                {| part_text := "" |})).

Definition buildResponseObject (status : Status) : M ResponseObject :=
  output <~ collectOutputItems ;;
  usage <~ get responseUsage ;;
  createResponseObject
    {| arg_model := model request;
       arg_output := Some output;
       arg_instructions := instructions request;
       arg_previousResponseId := previous_response_id request;
       arg_toolChoice := Some (tool_choice request);
       arg_tools := Some (tools request);
       arg_parallelToolCalls := Some (parallel_tool_calls request);
       arg_temperature := temperature request;
       arg_topP := top_p request;
       arg_maxOutputTokens := max_output_tokens request;
       arg_truncation := Some (truncation request);
       arg_metadata := Some (metadata request);
       arg_usage := usage;
       arg_status := Some status;
       arg_error := None;
       arg_incompleteDetails := None;
       arg_text := text request;
       arg_reasoning := reasoning request;
       arg_store := Some (store request);
       arg_background := Some (background request) |}.

(** [functionCalls.find((f) => f.callId === callId)] followed by a mutation
    of the entry found: the first match is updated in place. *)
Fixpoint update_first (callId : string)
    (f : FunctionCallEntry -> FunctionCallEntry)
    (fcs : list FunctionCallEntry) : list FunctionCallEntry :=
  match fcs with
  | [] => []
  | fc :: fcs =>
      if String.eqb (fc_callId fc) callId then f fc :: fcs
      else fc :: update_first callId f fcs
  end.

Definition find_call (callId : string) (fcs : list FunctionCallEntry)
    : option FunctionCallEntry :=
  List.find (fun f => String.eqb (fc_callId f) callId) fcs.

Definition append_arguments (argumentsDelta : string) (fc : FunctionCallEntry)
    : FunctionCallEntry :=
  {| fc_id := fc_id fc; fc_callId := fc_callId fc; fc_name := fc_name fc;
     fc_arguments := fc_arguments fc +:+ argumentsDelta;
     fc_outputIndex := fc_outputIndex fc; fc_done := fc_done fc |}.

Definition finish_call (arguments : string) (fc : FunctionCallEntry)
    : FunctionCallEntry :=
  {| fc_id := fc_id fc; fc_callId := fc_callId fc; fc_name := fc_name fc;
     fc_arguments := arguments;
     fc_outputIndex := fc_outputIndex fc; fc_done := true |}.

Definition usage_of (u : ProviderUsage) : Usage :=
  {| input_tokens := inputTokens u;
     output_tokens := outputTokens u;
     total_tokens := inputTokens u + outputTokens u;
     cached_tokens := cacheReadTokens u |}.

(** The [switch (event.type)] in the body of the [for await] loop. *)
Definition on_event (event : ProviderEvent) : M unit :=
  match event with
  | text_delta delta =>
      ensureTextItemOpened ;;;
      modify (fun s => set_accumulatedText (accumulatedText s +:+ delta) s) ;;;
      n <~ nextSeq ;;
      output_index <~ get messageOutputIndex ;;
      write (sseEvent "response.output_text.delta"
               (OutputTextDelta n messageId output_index 0 delta)) ;;;
      schedulePartialUpdate
  | tool_call_start callId name _ =>
      fcId <~ newId "fc_" ;;
      fcOutputIndex <~ get nextOutputIndex ;;
      modify (set_nextOutputIndex (fcOutputIndex + 1)) ;;;
      modify (fun s =>
        set_functionCalls
          (functionCalls s
           ++ [ {| fc_id := fcId; fc_callId := callId; fc_name := name;
                   fc_arguments := ""; fc_outputIndex := fcOutputIndex;
                   fc_done := false |} ]) s) ;;;
      n <~ nextSeq ;;
      write (sseEvent "response.output_item.added"
               (OutputItemAdded n fcOutputIndex
                  (FunctionCallItem fcId callId ItemInProgress name "")))
  | tool_call_delta callId argumentsDelta =>
      modify (fun s =>
        set_functionCalls
          (update_first callId (append_arguments argumentsDelta)
             (functionCalls s)) s)
  | tool_call_done callId arguments _ =>
      found <~ get (fun s => find_call callId (functionCalls s)) ;;
      match found with
      | Some fc =>
          modify (fun s =>
            set_functionCalls
              (update_first callId (finish_call arguments)
                 (functionCalls s)) s) ;;;
          n <~ nextSeq ;;
          write (sseEvent "response.output_item.done"
                   (OutputItemDone n (fc_outputIndex fc)
                      (FunctionCallItem (fc_id fc) (fc_callId fc)
                         ItemCompleted (fc_name fc) arguments)))
      | None => ret tt
      end
  | thinking_delta delta =>
      modify (fun s =>
        set_accumulatedThinking (accumulatedThinking s +:+ delta) s)
  | thinking_done text =>
      modify (set_accumulatedThinking text)
  | message_done _ usage =>
      modify (set_responseUsage (Some (usage_of usage))) ;;;
      opened <~ get textItemOpened ;;
      (if opened then
         n <~ nextSeq ;;
         output_index <~ get messageOutputIndex ;;
         text <~ get accumulatedText ;;
         write (sseEvent "response.output_text.done"
                  (OutputTextDone n messageId output_index 0 text)) ;;;
         n <~ nextSeq ;;
         write (sseEvent "response.content_part.done"
                  (ContentPartDone n messageId output_index 0
                     {| part_text := text |})) ;;;
         n <~ nextSeq ;;
         write (sseEvent "response.output_item.done"
                  (OutputItemDone n output_index
                     (MessageItem messageId ItemCompleted
                        [ {| part_text := text |} ])))
       else ret tt) ;;;
      completedResponse <~ buildResponseObject Completed ;;
      let completedResponse :=
        override_response responseId created None completedResponse in
      n <~ nextSeq ;;
      write (sseEvent "response.completed"
               (ResponseCompleted n completedResponse))
  end.

(** The cancel endpoint, called for this response while it streams. *)
Definition cancel_request (at_time : Z) : M unit :=
  modify (fun s =>
    set_database (snd (cancel_POST at_time responseId (database s))) s).

Definition on_step (step : Step) : M unit :=
  match step with
  | Yield event => on_event event
  | TimerFires => timer_callback
  | CancelRequest at_time => cancel_request at_time
  end.

(** After the loop: the statements that follow [for await] in the [try]. *)
Definition on_return : M unit :=
  cancelPartialUpdate ;;;
  write sseDone ;;;
  if store request then
    finalResponse <~ buildResponseObject Completed ;;
    let finalResponse :=
      override_response responseId created None finalResponse in
    usage <~ get responseUsage ;;
    persist Completed (resp_output finalResponse) usage None None
  else ret tt.

(** The [catch (err)] block. *)
Definition on_throw (err : Thrown) : M unit :=
  cancelPartialUpdate ;;;
  if isAbort err then
    (if store request then
       items <~ collectOutputItems ;;
       usage <~ get responseUsage ;;
       persist Incomplete items usage None (Some Interrupted)
     else ret tt) ;;;
    write sseDone
  else
    let errorMessage :=
      match err with
      | OtherError message => message
      | _ => "Internal server error"
      end in
    write (sseEvent "error" (sseErrorPayload server_error errorMessage)) ;;;
    failedResponse <~ buildResponseObject Failed ;;
    let failedResponse :=
      override_response responseId created
        (Some (ServerError errorMessage)) failedResponse in
    n <~ nextSeq ;;
    write (sseEvent "response.failed" (ResponseFailed n failedResponse)) ;;;
    write sseDone ;;;
    if store request then
      persist Failed [] None (Some (ServerError errorMessage)) None
    else ret tt.

Definition on_outcome (o : Outcome) : M unit :=
  match o with
  | Returns => on_return
  | Throws err => on_throw err
  end.

(** The first statement of the [try]. *)
Definition emit_in_progress : M unit :=
  n <~ nextSeq ;;
  write (sseEvent "response.in_progress" (ResponseInProgress n responseId)).

(** The [start(controller)] callback, up to and including the loop over the
    events in [steps]. *)
Definition consume (steps : list Step) : M unit :=
  emit_in_progress ;;; for_each on_step steps.

Definition start (run : ProviderRun) : M unit :=
  consume (steps run) ;;; on_outcome (outcome run).

(** The variables of the callback as declared, on a given table. *)
Definition initial_state (db : DB) (n : nat) : StreamState :=
  {| sequence := 0;
     accumulatedText := "";
     accumulatedThinking := "";
     functionCalls := [];
     nextOutputIndex := 0;
     responseUsage := None;
     textItemOpened := false;
     messageOutputIndex := -1;
     partialUpdateTimer := false;
     wire := [];
     database := db;
     drawn := n |}.

End Stream.

(** The table after step 0 of [streamResponse]: the initial row. *)
Definition initial_row (request : ResponsesRequest) (inputItems : list Item)
    (created : Z) (db : DB) : DB :=
  if store request then
    persistResponse now ("resp_" +:+ uuid 0) request inputItems InProgress []
      None created None None db
  else db.

(** The state in which the stream is while the adapter still yields, after
    [steps]. *)
Definition streaming (request : ResponsesRequest) (inputItems : list Item)
    (created : Z) (steps : list Step) (db : DB) : StreamState :=
  snd (consume request created ("resp_" +:+ uuid 0) ("msg_" +:+ uuid 1) steps
         (initial_state (initial_row request inputItems created db) 2)).

(** [streamResponse]: the two identifiers are drawn, the initial row is
    written when [store] is set, and the stream runs to its end.  The result
    is the final state: the chunks sent and the table. *)
Definition streamResponse (request : ResponsesRequest)
    (inputItems : list Item) (created : Z) (run : ProviderRun) (db : DB)
    : StreamState :=
  snd (on_outcome request inputItems created ("resp_" +:+ uuid 0)
         ("msg_" +:+ uuid 1) (outcome run)
         (streaming request inputItems created (steps run) db)).

End Orchestrator.

(** * Observations on the model, in the words of the specification *)

(** ** Conversation assembly *)

(** What the current request's input contributes to the item list: a
    non-empty string is one user message, an array contributes its items
    other than item references. *)
Definition current_input_items (i : Input) : list Item :=
  match i with
  | InputString s =>
      if String.eqb s "" then []
      else [FromInput (InputMessage User (ContentString s))]
  | InputArray items =>
      FromInput <$> filter (fun i => is_item_reference i = false) items
  end.

Definition with_input (i : Input) (r : ResponsesRequest) : ResponsesRequest :=
  {| model := model r;
     input := i;
     stream := stream r;
     instructions := instructions r;
     previous_response_id := previous_response_id r;
     tools := tools r;
     tool_choice := tool_choice r;
     temperature := temperature r;
     top_p := top_p r;
     max_output_tokens := max_output_tokens r;
     store := store r;
     background := background r;
     metadata := metadata r;
     truncation := truncation r;
     parallel_tool_calls := parallel_tool_calls r;
     text := text r;
     reasoning := reasoning r |}.

(** ** Request validation *)

(** The numeric bounds of the Request entity. *)
Definition bounds_hold (body : RequestBody) : Prop :=
  (forall q, body_temperature body = Some q -> (0 <= q)%Q /\ (q <= 2)%Q)
  /\ (forall q, body_top_p body = Some q -> (0 <= q)%Q /\ (q <= 1)%Q)
  /\ (forall q, body_max_output_tokens body = Some q ->
        is_integer q = true /\ (0 < q)%Q).

(** ** The wire *)

Definition payload_sequence_number (p : Payload) : option Z :=
  match p with
  | ResponseInProgress n _ => Some n
  | OutputItemAdded n _ _ => Some n
  | ContentPartAdded n _ _ _ _ => Some n
  | OutputTextDelta n _ _ _ _ => Some n
  | OutputTextDone n _ _ _ _ => Some n
  | ContentPartDone n _ _ _ _ => Some n
  | OutputItemDone n _ _ => Some n
  | ResponseCompleted n _ => Some n
  | ResponseFailed n _ => Some n
  | ErrorPayload _ _ _ => None
  end.

(** The [sequence_number] field of a chunk, if it is a typed event that has
    one. *)
Definition sse_sequence_number (c : Sse) : option Z :=
  match c with
  | sseEvent _ data => payload_sequence_number data
  | sseDone => None
  end.

(** The sequence numbers on the wire, in the order sent. *)
Definition sequence_numbers (w : list Sse) : list Z :=
  omap sse_sequence_number w.

Definition is_error_event (c : Sse) : bool :=
  match c with
  | sseEvent _ (ErrorPayload _ _ _) => true
  | _ => false
  end.

Definition is_typed (c : Sse) : bool :=
  match c with
  | sseEvent _ _ => true
  | sseDone => false
  end.

Inductive ItemKind := KindMessage | KindFunctionCall | KindReasoning.

#[global] Instance ItemKind_eq_dec : EqDecision ItemKind.
Proof. solve_decision. Defined.

Definition item_kind (o : OutputItem) : ItemKind :=
  match o with
  | MessageItem _ _ _ => KindMessage
  | FunctionCallItem _ _ _ _ _ => KindFunctionCall
  | ReasoningItem _ _ => KindReasoning
  end.

(** The [output_index] and the kind of item of an [output_item.added]. *)
Definition added (c : Sse) : option (Z * ItemKind) :=
  match c with
  | sseEvent _ (OutputItemAdded _ output_index item) =>
      Some (output_index, item_kind item)
  | _ => None
  end.

(** The items announced on the wire, in the order announced. *)
Definition added_items (w : list Sse) : list (Z * ItemKind) :=
  omap added w.

(** The [output_index] under which the first item of a kind was announced. *)
Definition index_of (k : ItemKind) (w : list Sse) : option Z :=
  fst <$> head (filter (fun p => snd p = k) (added_items w)).

(** The events that concern the message item: its [output_item.added] and
    [output_item.done], and every [content_part.*] and [output_text.*]. *)
Definition message_event (c : Sse) : bool :=
  match c with
  | sseEvent _ (OutputItemAdded _ _ (MessageItem _ _ _)) => true
  | sseEvent _ (OutputItemDone _ _ (MessageItem _ _ _)) => true
  | sseEvent _ (ContentPartAdded _ _ _ _ _) => true
  | sseEvent _ (ContentPartDone _ _ _ _ _) => true
  | sseEvent _ (OutputTextDelta _ _ _ _ _) => true
  | sseEvent _ (OutputTextDone _ _ _ _ _) => true
  | _ => false
  end.

Definition is_text_delta (s : Step) : bool :=
  match s with
  | Yield (text_delta _) => true
  | _ => false
  end.

Definition is_tool_call_start (s : Step) : bool :=
  match s with
  | Yield (tool_call_start _ _ _) => true
  | _ => false
  end.

(** The order in which items first appear in the provider's events: the
    message at the first [text_delta] (none once it is open), a function
    call at each [tool_call_start]. *)
Fixpoint first_appearances (opened : bool) (steps : list Step)
    : list ItemKind :=
  match steps with
  | [] => []
  | Yield (text_delta _) :: steps =>
      if opened then first_appearances true steps
      else KindMessage :: first_appearances true steps
  | Yield (tool_call_start _ _ _) :: steps =>
      KindFunctionCall :: first_appearances opened steps
  | _ :: steps => first_appearances opened steps
  end.

(** Items numbered from [start] in the order given. *)
Definition numbered (start : Z) (kinds : list ItemKind)
    : list (Z * ItemKind) :=
  imap (fun i k => (start + Z.of_nat i, k)) kinds.

(** The text the provider has streamed: its deltas, concatenated. *)
Fixpoint streamed_text (steps : list Step) : string :=
  match steps with
  | [] => ""
  | Yield (text_delta delta) :: steps => delta +:+ streamed_text steps
  | _ :: steps => streamed_text steps
  end.

(** The status of the message item among persisted output items, if any. *)
Definition message_status (items : list OutputItem) : option ItemStatus :=
  match List.find (fun o => bool_decide (item_kind o = KindMessage)) items with
  | Some (MessageItem _ status _) => Some status
  | _ => None
  end.

(** ** Concrete inputs used in the examples *)

Fixpoint hex (n : nat) : string :=
  match n with
  | O => "0"
  | S n => "f" +:+ hex n
  end.

Definition example_request (store_flag : bool) : ResponsesRequest :=
  {| model := "claude-opus-4-6-responses";
     input := InputString "Hi";
     stream := true;
     instructions := None;
     previous_response_id := None;
     tools := [];
     tool_choice := ChoiceAuto;
     temperature := None;
     top_p := None;
     max_output_tokens := None;
     store := store_flag;
     background := false;
     metadata := [];
     truncation := TruncDisabled;
     parallel_tool_calls := true;
     text := None;
     reasoning := None |}.

Definition example_body (store_flag background_flag : option bool)
    : RequestBody :=
  {| body_model := "claude-opus-4-6-responses";
     body_input := InputString "Hi";
     body_stream := None;
     body_instructions := None;
     body_previous_response_id := None;
     body_tools := None;
     body_tool_choice := None;
     body_temperature := Some (1 # 2)%Q;
     body_top_p := None;
     body_max_output_tokens := Some (256 # 1)%Q;
     body_store := store_flag;
     body_background := background_flag;
     body_metadata := None;
     body_truncation := None;
     body_parallel_tool_calls := None;
     body_text := None;
     body_reasoning := None |}.

Definition example_usage : ProviderUsage :=
  {| inputTokens := 10; outputTokens := 5; cacheReadTokens := None |}.

(** A stored row as an interrupted stream leaves it. *)
Definition example_row (status : Status) (stored : bool) : Row :=
  {| row_status := status;
     row_model := "claude-opus-4-6-responses";
     row_instructions := None;
     inputItemsJson :=
       Some [FromInput (InputMessage User (ContentString "Tell me a story"))];
     outputItemsJson :=
       Some [MessageItem "msg_1" ItemCompleted [ {| part_text := "Once" |} ]];
     toolsJson := [];
     toolChoiceJson := ChoiceAuto;
     usageJson := None;
     row_metadata := [];
     row_store := stored;
     row_background := false;
     previousResponseId := None;
     row_truncation := TruncDisabled;
     parallelToolCalls := true;
     row_temperature := None;
     topP := None;
     maxOutputTokens := None;
     errorJson := None;
     incompleteDetailsJson := None;
     createdAt := 1700000000;
     completedAt := None;
     cancelledAt := None |}.

(** A follow-up request that names a previous response. *)
Definition example_followup (pid : option string) (i : Input)
    : ResponsesRequest :=
  {| model := "claude-opus-4-6-responses";
     input := i;
     stream := false;
     instructions := None;
     previous_response_id := pid;
     tools := [];
     tool_choice := ChoiceAuto;
     temperature := None;
     top_p := None;
     max_output_tokens := None;
     store := true;
     background := false;
     metadata := [];
     truncation := TruncDisabled;
     parallel_tool_calls := true;
     text := None;
     reasoning := None |}.

(** A stream during which the cancel endpoint is called, and which the
    provider then finishes. *)
Definition cancelled_mid_stream : list Step :=
  [Yield (text_delta "Hello"); CancelRequest 1700000005].

Definition finished_after_cancel : ProviderRun :=
  {| steps :=
       cancelled_mid_stream ++ [Yield (message_done end_turn example_usage)];
     outcome := Returns |}.

(** Scenario S4: two text deltas, then the adapter throws an abort error. *)
Definition aborted_mid_text : ProviderRun :=
  {| steps := [Yield (text_delta "Hello"); Yield (text_delta " partial")];
     outcome := Throws AbortError |}.

(** A stream whose adapter fails with an ordinary error. *)
Definition failed_mid_text : ProviderRun :=
  {| steps := [Yield (text_delta "Hello")];
     outcome := Throws (OtherError "upstream unavailable") |}.

(** Scenario S2: a pure tool call. *)
Definition pure_tool_call : ProviderRun :=
  {| steps :=
       [Yield (tool_call_start "call_abc" "get_weather" 0);
        Yield (tool_call_delta "call_abc" "{}");
        Yield (tool_call_done "call_abc" "{}" 0);
        Yield (message_done tool_use example_usage)];
     outcome := Returns |}.

(** Scenario S3: text first, then a tool call. *)
Definition text_then_tool_call : ProviderRun :=
  {| steps :=
       [] ++ Yield (text_delta "Let me check.")
          :: [] ++ Yield (tool_call_start "call_abc" "get_weather" 0)
          :: [Yield (tool_call_done "call_abc" "{}" 0);
              Yield (message_done tool_use example_usage)];
     outcome := Returns |}.

(** A text item opened by an empty delta, as an adapter that does not
    filter empty deltas would yield it. *)
Definition empty_delta : list Step := [Yield (text_delta "")].

(** The name on the [event:] line of a chunk; the sentinel has none. *)
Definition event_name (c : Sse) : string :=
  match c with
  | sseEvent eventType _ => eventType
  | sseDone => "[DONE]"
  end.

(** * The other handlers *)

(** ** app/v1/responses/[id]/route.ts: retrieve and delete *)

(** [rowToResponseObject(row)]; the row's [id] is the key it is stored
    under. *)
Definition rowToResponseObject (id : string) (row : Row) : ResponseObject :=
  {| resp_id := id;
     resp_created_at := createdAt row;
     resp_status := row_status row;
     resp_model := row_model row;
     resp_output := default [] (outputItemsJson row);
     resp_tool_choice := toolChoiceJson row;
     resp_tools := toolsJson row;
     resp_parallel_tool_calls := parallelToolCalls row;
     resp_instructions := row_instructions row;
     resp_previous_response_id := previousResponseId row;
     resp_temperature := row_temperature row;
     resp_top_p := topP row;
     resp_max_output_tokens := maxOutputTokens row;
     resp_truncation := row_truncation row;
     resp_metadata := row_metadata row;
     resp_usage := usageJson row;
     resp_error := errorJson row;
     resp_incomplete_details := incompleteDetailsJson row;
     resp_text := FormatText;
     resp_reasoning := None;
     resp_store := row_store row;
     resp_background := row_background row |}.

(** [GET /v1/responses/{id}], after authentication. *)
Definition GET_response (id : string) (db : DB) : Result ResponseObject :=
  match db !! id with
  | None => Err (notFoundError ("Response '" +:+ id +:+ "' not found."))
  | Some row => Ok (rowToResponseObject id row)
  end.

(** The body [{ id, object: "response", deleted: true }]. *)
Record DeletedBody := { deleted_id : string; deleted : bool }.

(** [DELETE /v1/responses/{id}], after authentication. *)
Definition DELETE_response (id : string) (db : DB)
    : Result DeletedBody * DB :=
  match db !! id with
  | None => (Err (notFoundError ("Response '" +:+ id +:+ "' not found.")), db)
  | Some _ => (Ok {| deleted_id := id; deleted := true |}, delete id db)
  end.

(** ** lib/providers/types.ts: the result of a one-shot call *)

Inductive ProviderOutputItem :=
| OutText (text : string)
| OutToolUse (callId name arguments : string)
| OutImage (data mediaType : string)
| OutThinking (text : string).

Record ProviderFinalResult := {
  result_messages : list ProviderOutputItem;
  result_stopReason : StopReason;
  result_usage : ProviderUsage;
}.

(** How [await adapter.chat(providerReq)] ends: with a result, with an
    [Error] (an abort error is one) and its message, or with a thrown value
    that is not an [Error]. *)
Inductive ChatOutcome :=
| ChatResolves (result : ProviderFinalResult)
| ChatRejects (message : string)
| ChatRejectsOther.

(** What a handler hands back to the route: a JSON body, or the exception
    it lets through. *)
Inductive Reply :=
| Replied (body : ResponseObject)
| Threw.

Section Handlers.

Variable uuid : nat -> string.
Variable now : Z.

(** [createFunctionCallItem(name, args, callId)] of
    lib/openresponses/response.ts. *)
Definition createFunctionCallItem (name args : string)
    (callId : option string) : M OutputItem :=
  id <~ newId uuid "fc_" ;;
  call_id <~ match callId with
             | Some c => ret c
             | None => newId uuid "fc_"
             end ;;
  ret (FunctionCallItem id call_id ItemCompleted name args).

(** The body of [for (const msg of result.messages)] in
    [nonStreamResponse]: text and tool calls are pushed, thinking is
    unshifted, anything else is left out. *)
Definition push_result (outputItems : list OutputItem)
    (msg : ProviderOutputItem) : M (list OutputItem) :=
  match msg with
  | OutText text =>
      item <~ createTextMessageItem uuid text ;;
      ret (outputItems ++ [item])
  | OutToolUse callId name arguments =>
      item <~ createFunctionCallItem name arguments (Some callId) ;;
      ret (outputItems ++ [item])
  | OutThinking text =>
      rs <~ newId uuid "rs_" ;;
      ret (ReasoningItem rs text :: outputItems)
  | OutImage _ _ => ret outputItems
  end.

(** The same loop in the deferred task of [backgroundResponse], which has no
    branch for thinking. *)
Definition push_background_result (outputItems : list OutputItem)
    (msg : ProviderOutputItem) : M (list OutputItem) :=
  match msg with
  | OutText text =>
      item <~ createTextMessageItem uuid text ;;
      ret (outputItems ++ [item])
  | OutToolUse callId name arguments =>
      item <~ createFunctionCallItem name arguments (Some callId) ;;
      ret (outputItems ++ [item])
  | _ => ret outputItems
  end.

Fixpoint fold_items {A B} (f : B -> A -> M B) (l : list A) (acc : B) : M B :=
  match l with
  | [] => ret acc
  | x :: l => acc <~ f acc x ;; fold_items f l acc
  end.

Section Request.

Variable request : ResponsesRequest.
Variable inputItems : list Item.
Variable created : Z.

(** The arguments that the three handlers pass to [createResponseObject]. *)
Definition response_args (output : list OutputItem) (usage : option Usage)
    (status : Status) (background_flag : bool) : CreateResponseObjectArgs :=
  {| arg_model := model request;
     arg_output := Some output;
     arg_instructions := instructions request;
     arg_previousResponseId := previous_response_id request;
     arg_toolChoice := Some (tool_choice request);
     arg_tools := Some (tools request);
     arg_parallelToolCalls := Some (parallel_tool_calls request);
     arg_temperature := temperature request;
     arg_topP := top_p request;
     arg_maxOutputTokens := max_output_tokens request;
     arg_truncation := Some (truncation request);
     arg_metadata := Some (metadata request);
     arg_usage := usage;
     arg_status := Some status;
     arg_error := None;
     arg_incompleteDetails := None;
     arg_text := text request;
     arg_reasoning := reasoning request;
     arg_store := Some (store request);
     arg_background := Some background_flag |}.

(** [nonStreamResponse], given how the adapter's call ends. *)
Definition nonStreamResponse (chat : ChatOutcome) : M Reply :=
  match chat with
  | ChatResolves result =>
      outputItems <~ fold_items push_result (result_messages result) [] ;;
      let usage := usage_of (result_usage result) in
      responseObj <~
        createResponseObject uuid now
          (response_args outputItems (Some usage) Completed
             (background request)) ;;
      (if store request then
         modify (fun s =>
           set_database
             (persistResponse now (resp_id responseObj) request inputItems
                Completed outputItems (Some usage) created None None
                (database s)) s)
       else ret tt) ;;;
      ret (Replied responseObj)
  | _ => ret Threw
  end.

(** [backgroundResponse] up to [return Response.json(inProgressObj)]. *)
Definition backgroundResponse : M ResponseObject :=
  responseId <~ newId uuid "resp_" ;;
  modify (fun s =>
    set_database
      (persistResponse now responseId request inputItems InProgress [] None
         created None None (database s)) s) ;;;
  inProgressObj <~
    createResponseObject uuid now (response_args [] None InProgress true) ;;
  ret (override_response responseId created None inProgressObj).

(** The callback that [backgroundResponse] hands to [after], run once the
    HTTP response has been sent. *)
Definition background_task (responseId : string) (chat : ChatOutcome)
    : M unit :=
  match chat with
  | ChatResolves result =>
      outputItems <~
        fold_items push_background_result (result_messages result) [] ;;
      let usage := usage_of (result_usage result) in
      modify (fun s =>
        set_database
          (persistResponse now responseId request inputItems Completed
             outputItems (Some usage) created None None (database s)) s)
  | ChatRejects message =>
      modify (fun s =>
        set_database
          (persistResponse now responseId request inputItems Failed [] None
             created (Some (ServerError message)) None (database s)) s)
  | ChatRejectsOther =>
      modify (fun s =>
        set_database
          (persistResponse now responseId request inputItems Failed [] None
             created (Some (ServerError "Background task failed")) None
             (database s)) s)
  end.

End Request.

End Handlers.

(** * Conversion to provider messages *)

(** ** lib/providers/types.ts: the normalised messages *)

Inductive ProviderRole := RoleUser | RoleAssistant | RoleSystem.

#[global] Instance ProviderRole_eq_dec : EqDecision ProviderRole.
Proof. solve_decision. Defined.

(** ** Strings as the regular expression of [convertContentToParts] sees
    them

    A string is the sequence of the UTF-8 bytes of the JavaScript string;
    the characters the expression singles out ([;], the line terminators)
    are found at the same places in both. *)

(** [s] without the prefix [p], if it starts with it. *)
Fixpoint strip_prefix (p s : string) : option string :=
  match p, s with
  | EmptyString, _ => Some s
  | String a p, String b s => if Ascii.eqb a b then strip_prefix p s else None
  | String _ _, EmptyString => None
  end.

(** The characters before the first [;] and those after it. *)
Fixpoint split_at_semicolon (s : string) : option (string * string) :=
  match s with
  | EmptyString => None
  | String a s =>
      if Ascii.eqb a ";"%char then Some (EmptyString, s)
      else match split_at_semicolon s with
           | Some (before, after) => Some (String a before, after)
           | None => None
           end
  end.

(** Whether a string holds one of the characters that [.] does not match:
    LF, CR, U+2028 or U+2029 (in UTF-8: E2 80 A8 and E2 80 A9). *)
Fixpoint has_line_terminator (s : string) : bool :=
  match s with
  | EmptyString => false
  | String a s' =>
      Ascii.eqb a "010"%char || Ascii.eqb a "013"%char
      || match a, s' with
         | "226"%char, String "128"%char (String c _) =>
             Ascii.eqb c "168"%char || Ascii.eqb c "169"%char
         | _, _ => false
         end
      || has_line_terminator s'
  end.

(** [imageUrl.match(/^data:([^;]+);base64,(.+)$/)]: the two groups. *)
Definition match_data_url (imageUrl : string) : option (string * string) :=
  match strip_prefix "data:" imageUrl with
  | None => None
  | Some rest =>
      match split_at_semicolon rest with
      | None => None
      | Some (mediaType, after) =>
          match strip_prefix "base64," after with
          | None => None
          | Some data =>
              if String.eqb mediaType "" || String.eqb data ""
                 || has_line_terminator data
              then None
              else Some (mediaType, data)
          end
      end
  end.

(** [l.join(sep)]. *)
Fixpoint join (sep : string) (l : list string) : string :=
  match l with
  | [] => ""
  | [s] => s
  | s :: l => s +:+ sep +:+ join sep l
  end.

(** The line feed that joins the parts of the system prompt. *)
Definition LF : string := String "010"%char EmptyString.

(** ** The [content] of a message item, as the conversion reads it *)

Inductive RawPart :=
| RawInputText (text : string)
| RawOutputText (text : string)
| RawInputImage (image_url : option string).

Inductive RawContent :=
| RawString (s : string)
| RawArray (parts : list RawPart).

Definition raw_part (p : InputContentPart) : RawPart :=
  match p with
  | InputText text => RawInputText text
  | InputImage image_url _ => RawInputImage image_url
  end.

Definition raw_content (c : MessageContent) : RawContent :=
  match c with
  | ContentString s => RawString s
  | ContentParts parts => RawArray (raw_part <$> parts)
  end.

(** ** lib/orchestrator: extractTextFromContent *)

Definition extractTextFromContent (content : RawContent) : string :=
  match content with
  | RawString s => s
  | RawArray parts =>
      join LF
        (List.filter (fun t => negb (String.eqb t ""))
           ((fun part =>
               match part with
               | RawInputText text | RawOutputText text => text
               | RawInputImage _ => ""
               end) <$> parts))
  end.

Section Conversion.

(** JavaScript values as [JSON.parse] returns them, the parser itself, and
    a string taken as such a value. *)
Variable J : Type.
Variable JSON_parse : string -> option J.
Variable of_string : string -> J.

Inductive ProviderContentPart :=
| PartText (text : string)
| PartImageUrl (url : string)
| PartImageBase64 (mediaType data : string)
| PartToolUse (callId name : string) (input : J)
| PartToolResult (callId content : string).

Record ProviderMessage := {
  msg_role : ProviderRole;
  msg_content : list ProviderContentPart;
}.

(** ** lib/orchestrator: convertContentToParts *)

(** What one element of a content array pushes onto [parts]. *)
Definition convert_part (part : RawPart) : list ProviderContentPart :=
  match part with
  | RawInputText text | RawOutputText text => [PartText text]
  | RawInputImage imageUrl =>
      if truthy imageUrl then
        let imageUrl := default "" imageUrl in
        if String.prefix "data:" imageUrl then
          match match_data_url imageUrl with
          | Some (mediaType, data) => [PartImageBase64 mediaType data]
          | None => []
          end
        else [PartImageUrl imageUrl]
      else []
  end.

Definition convertContentToParts (content : RawContent)
    : list ProviderContentPart :=
  match content with
  | RawString s => if negb (String.eqb s "") then [PartText s] else []
  | RawArray parts => concat (convert_part <$> parts)
  end.

(** ** lib/orchestrator: convertToProviderMessages *)

(** [messages[messages.length - 1]] is tested; if the test [merge] accepts
    it, the message is extended in place, otherwise [fresh] is pushed. *)
Fixpoint merge_or_push (merge : ProviderMessage -> option ProviderMessage)
    (fresh : ProviderMessage) (messages : list ProviderMessage)
    : list ProviderMessage :=
  match messages with
  | [] => [fresh]
  | m :: rest =>
      match rest with
      | [] => match merge m with
              | Some m' => [m']
              | None => [m; fresh]
              end
      | _ :: _ => m :: merge_or_push merge fresh rest
      end
  end.

Definition is_tool_result (p : ProviderContentPart) : bool :=
  match p with
  | PartToolResult _ _ => true
  | _ => false
  end.

Definition push_tool_use (callId name args : string)
    (messages : list ProviderMessage) : list ProviderMessage :=
  let parsedInput := default (of_string args) (JSON_parse args) in
  let part := PartToolUse callId name parsedInput in
  merge_or_push
    (fun last =>
       if decide (msg_role last = RoleAssistant) then
         Some {| msg_role := msg_role last;
                 msg_content := msg_content last ++ [part] |}
       else None)
    {| msg_role := RoleAssistant; msg_content := [part] |}
    messages.

Definition push_tool_result (callId output : string)
    (messages : list ProviderMessage) : list ProviderMessage :=
  let part := PartToolResult callId output in
  merge_or_push
    (fun last =>
       if bool_decide (msg_role last = RoleUser)
          && existsb is_tool_result (msg_content last) then
         Some {| msg_role := msg_role last;
                 msg_content := msg_content last ++ [part] |}
       else None)
    {| msg_role := RoleUser; msg_content := [part] |}
    messages.

(** The conversation and the system prompt built so far. *)
Record Conversation := {
  messages : list ProviderMessage;
  system : option string;
}.

(** A [message] item with its role and content. *)
Definition push_message (role : Role) (content : RawContent)
    (c : Conversation) : Conversation :=
  match role with
  | System | Developer =>
      let text := extractTextFromContent content in
      {| messages := messages c;
         system := if truthy (system c)
                   then Some (default "" (system c) +:+ LF +:+ text)
                   else Some text |}
  | _ =>
      let parts := convertContentToParts content in
      {| messages :=
           match parts with
           | [] => messages c
           | _ :: _ =>
               messages c
               ++ [ {| msg_role := match role with
                                   | Assistant => RoleAssistant
                                   | _ => RoleUser
                                   end;
                       msg_content := parts |} ]
           end;
         system := system c |}
  end.

(** The body of the loop over [inputItems]. *)
Definition convert_item (c : Conversation) (item : Item) : Conversation :=
  match item with
  | FromInput (InputMessage role content) =>
      push_message role (raw_content content) c
  | FromOutput (MessageItem _ _ content) =>
      push_message Assistant
        (RawArray ((fun p => RawOutputText (part_text p)) <$> content)) c
  | FromInput (FunctionCall _ call_id name arguments)
  | FromOutput (FunctionCallItem _ call_id _ name arguments) =>
      {| messages := push_tool_use call_id name arguments (messages c);
         system := system c |}
  | FromInput (FunctionCallOutput call_id output) =>
      {| messages := push_tool_result call_id output (messages c);
         system := system c |}
  | FromInput (ItemReference _) => c
  | FromOutput (ReasoningItem _ _) => c
  end.

Definition convertToProviderMessages (inputItems : list Item)
    (instructions : option string) : Conversation :=
  fold_left convert_item inputItems
    {| messages := [];
       system := if truthy instructions then instructions else None |}.

(** The part a function call becomes, and the part a tool result
    becomes. *)
Definition tool_use_part (fc : FunctionCallEntry) : ProviderContentPart :=
  PartToolUse (fc_callId fc) (fc_name fc)
    (default (of_string (fc_arguments fc)) (JSON_parse (fc_arguments fc))).

Definition tool_result_part (r : string * string) : ProviderContentPart :=
  PartToolResult r.1 r.2.

End Conversion.

(** ** lib/orchestrator: convertToolChoice and the reasoning budget *)

Inductive ProviderToolChoice :=
| ToolChoiceAuto | ToolChoiceRequired | ToolChoiceNone
| ToolChoiceFunction (name : string).

Definition convertToolChoice (tc : ToolChoice) : ProviderToolChoice :=
  match tc with
  | ChoiceAuto => ToolChoiceAuto
  | ChoiceRequired => ToolChoiceRequired
  | ChoiceNone => ToolChoiceNone
  | ChoiceFunction name => ToolChoiceFunction name
  | ChoiceAllowedTools _ => ToolChoiceAuto
  end.

(** * Further observations on the wire *)

(** The [type] field of a payload. *)
Definition payload_type (p : Payload) : string :=
  match p with
  | ResponseInProgress _ _ => "response.in_progress"
  | OutputItemAdded _ _ _ => "response.output_item.added"
  | ContentPartAdded _ _ _ _ _ => "response.content_part.added"
  | OutputTextDelta _ _ _ _ _ => "response.output_text.delta"
  | OutputTextDone _ _ _ _ _ => "response.output_text.done"
  | ContentPartDone _ _ _ _ _ => "response.content_part.done"
  | OutputItemDone _ _ _ => "response.output_item.done"
  | ResponseCompleted _ _ => "response.completed"
  | ResponseFailed _ _ => "response.failed"
  | ErrorPayload _ _ _ => "error"
  end.

(** A typed event whose [event:] line names the [type] of its payload. *)
Definition named_by_type (c : Sse) : Prop :=
  match c with
  | sseEvent eventType data => eventType = payload_type data
  | sseDone => True
  end.

(** A chunk that refers to the response by [responseId] and to the message
    item by [messageId], if it refers to them at all. *)
Definition refers_to (responseId messageId : string) (c : Sse) : Prop :=
  match c with
  | sseEvent _ (ResponseInProgress _ id) => id = responseId
  | sseEvent _ (ResponseCompleted _ r) => resp_id r = responseId
  | sseEvent _ (ResponseFailed _ r) => resp_id r = responseId
  | sseEvent _ (OutputItemAdded _ _ (MessageItem id _ _)) => id = messageId
  | sseEvent _ (OutputItemDone _ _ (MessageItem id _ _)) => id = messageId
  | sseEvent _ (ContentPartAdded _ id _ _ _) => id = messageId
  | sseEvent _ (ContentPartDone _ id _ _ _) => id = messageId
  | sseEvent _ (OutputTextDelta _ id _ _ _) => id = messageId
  | sseEvent _ (OutputTextDone _ id _ _ _) => id = messageId
  | _ => True
  end.

Definition is_response_completed (c : Sse) : bool :=
  match c with
  | sseEvent _ (ResponseCompleted _ _) => true
  | _ => false
  end.

Definition is_message_done (s : Step) : bool :=
  match s with
  | Yield (message_done _ _) => true
  | _ => false
  end.

Definition is_cancel_request (s : Step) : bool :=
  match s with
  | CancelRequest _ => true
  | _ => false
  end.

(** The usage totals add up. *)
Definition usage_adds_up (u : option Usage) : Prop :=
  match u with
  | Some u => total_tokens u = input_tokens u + output_tokens u
  | None => True
  end.

(** The arguments a tool call has received: its deltas, concatenated. *)
Definition delta_steps (callId : string) (deltas : list string) : list Step :=
  (fun d => Yield (tool_call_delta callId d)) <$> deltas.

Fixpoint concat_strings (l : list string) : string :=
  match l with
  | [] => ""
  | s :: l => s +:+ concat_strings l
  end.

(** * Observations on output items *)

Definition is_reasoning (o : OutputItem) : bool :=
  match o with
  | ReasoningItem _ _ => true
  | _ => false
  end.

(** The texts of the reasoning items of an output, in order. *)
Definition reasoning_texts (items : list OutputItem) : list string :=
  omap (fun o => match o with
                 | ReasoningItem _ text => Some text
                 | _ => None
                 end) items.

(** What a message or function-call item says, its item id and status set
    aside. *)
Inductive ItemBody :=
| MessageBody (text : list string)
| CallBody (call_id name arguments : string).

Definition item_bodies (items : list OutputItem) : list ItemBody :=
  omap (fun o => match o with
                 | MessageItem _ _ content =>
                     Some (MessageBody (part_text <$> content))
                 | FunctionCallItem _ call_id _ name arguments =>
                     Some (CallBody call_id name arguments)
                 | ReasoningItem _ _ => None
                 end) items.

(** The thinking texts of a provider result, in order. *)
Definition thinking_texts (msgs : list ProviderOutputItem) : list string :=
  omap (fun m => match m with
                 | OutThinking text => Some text
                 | _ => None
                 end) msgs.

(** The text and tool-call parts of a provider result, in order. *)
Definition result_bodies (msgs : list ProviderOutputItem) : list ItemBody :=
  omap (fun m => match m with
                 | OutText text => Some (MessageBody [text])
                 | OutToolUse callId name arguments =>
                     Some (CallBody callId name arguments)
                 | _ => None
                 end) msgs.

(** Reasoning items first, then the others. *)
Definition reasoning_first (items : list OutputItem) : Prop :=
  items
  = List.filter is_reasoning items
    ++ List.filter (fun o => negb (is_reasoning o)) items.

Arguments PartText {J} text.
Arguments PartImageUrl {J} url.
Arguments PartImageBase64 {J} mediaType data.
Arguments PartToolUse {J} callId name input.
Arguments PartToolResult {J} callId content.
Arguments msg_role {J} p.
Arguments msg_content {J} p.
Arguments messages {J} c.
Arguments system {J} c.

(** * Observations on the conversion *)

(** The texts of the [system] and [developer] messages among the items, in
    order. *)
Definition system_texts (items : list Item) : list string :=
  omap (fun i => match i with
                 | FromInput (InputMessage System content)
                 | FromInput (InputMessage Developer content) =>
                     Some (extractTextFromContent (raw_content content))
                 | _ => None
                 end) items.

(** The items that have no branch in the conversion: item references and
    reasoning items. *)
Definition is_silent (i : Item) : bool :=
  match i with
  | FromInput (ItemReference _) => true
  | FromOutput (ReasoningItem _ _) => true
  | _ => false
  end.

Fixpoint has_semicolon (s : string) : bool :=
  match s with
  | EmptyString => false
  | String a s => Ascii.eqb a ";"%char || has_semicolon s
  end.

(** A tool result as a request item. *)
Definition result_item (r : string * string) : Item :=
  FromInput (FunctionCallOutput r.1 r.2).

(** A list of texts without the empty ones it starts with. *)
Fixpoint drop_leading_empty (l : list string) : list string :=
  match l with
  | [] => []
  | t :: l' => if String.eqb t "" then drop_leading_empty l' else l
  end.

(** * Properties *)

(** ** The persistence gateway *)

Lemma sql_update_lookup (cond : string -> Row -> bool) (set : Row -> Row)
    (db : DB) (id : string) :
  sql_update cond set db !! id
  = (fun r => if cond id r then set r else r) <$> db !! id.
Proof.
  unfold sql_update. rewrite map_lookup_imap.
  destruct (db !! id); reflexivity.
Qed.

Lemma persistPartialOutput_lookup (responseId id : string)
    (outputItems : list OutputItem) (db : DB) :
  persistPartialOutput responseId outputItems db !! id
  = (fun r =>
       if bool_decide (id = responseId)
          && bool_decide (row_status r = InProgress)
       then set_outputItemsJson outputItems r else r) <$> db !! id.
Proof. apply sql_update_lookup. Qed.

(** The status column is not touched by a partial update. *)
Lemma persistPartialOutput_status (responseId id : string)
    (outputItems : list OutputItem) (db : DB) :
  row_status <$> persistPartialOutput responseId outputItems db !! id
  = row_status <$> db !! id.
Proof.
  rewrite persistPartialOutput_lookup.
  destruct (db !! id) as [r|]; simpl; [|reflexivity].
  destruct (_ && _); reflexivity.
Qed.

(** The upsert leaves the status it is given, whatever the row held. *)
Lemma persistResponse_status (now : Z) (responseId : string)
    (request : ResponsesRequest) (inputItems : list Item) (status : Status)
    (outputItems : list OutputItem) (usage : option Usage) (created : Z)
    (error : option ErrorJson) (details : option IncompleteDetails) (db : DB) :
  row_status <$>
    persistResponse now responseId request inputItems status outputItems
      usage created error details db !! responseId
  = Some status.
Proof.
  unfold persistResponse.
  destruct (db !! responseId); rewrite lookup_insert_eq; reflexivity.
Qed.

(** The cancel endpoint leaves a terminal row as it is and answers 409. *)
Lemma cancel_POST_terminal (now : Z) (id : string) (db : DB) (row : Row) :
  db !! id = Some row -> terminal (row_status row) = true ->
  snd (cancel_POST now id db) = db
  /\ exists e, fst (cancel_POST now id db) = Err e /\ http_status e = 409.
Proof.
  intros Hrow Hterm. unfold cancel_POST. rewrite Hrow.
  destruct (row_store row); simpl.
  - destruct (row_status row); try discriminate Hterm; simpl; eauto.
  - eauto.
Qed.

(** C6.  A partial-output update of a row whose status is not
    [in_progress] leaves that row, and the whole table, unchanged. *)
Theorem C6_partial_update_is_noop (db : DB) (responseId : string)
    (outputItems : list OutputItem) (row : Row) :
  db !! responseId = Some row ->
  row_status row <> InProgress ->
  persistPartialOutput responseId outputItems db !! responseId = Some row
  /\ persistPartialOutput responseId outputItems db = db.
Proof.
  intros Hrow Hstatus.
  assert (Hsame : persistPartialOutput responseId outputItems db = db).
  { apply map_eq. intros id. rewrite persistPartialOutput_lookup.
    destruct (db !! id) as [r|] eqn:Hr; simpl; [|reflexivity].
    destruct (bool_decide (id = responseId)) eqn:Hid; simpl; [|reflexivity].
    apply bool_decide_eq_true in Hid. subst id.
    rewrite Hrow in Hr. injection Hr as <-.
    rewrite bool_decide_eq_false_2 by exact Hstatus. reflexivity. }
  rewrite Hsame. split; [exact Hrow | reflexivity].
Qed.

Lemma C6_partial_update_is_noop_witness :
  persistPartialOutput "resp_1" []
    ({[ "resp_1" := example_row Cancelled true ]} : DB) !! "resp_1"
  = Some (example_row Cancelled true)
  /\ persistPartialOutput "resp_1" []
       ({[ "resp_1" := example_row Cancelled true ]} : DB)
     = {[ "resp_1" := example_row Cancelled true ]}.
Proof.
  apply (C6_partial_update_is_noop {[ "resp_1" := example_row Cancelled true ]}
           "resp_1" [] (example_row Cancelled true)).
  - apply lookup_singleton_eq.
  - discriminate.
Defined.

(** ** Conversation assembly *)

Lemma push_input_item_spec (inputItems : list Item) (rawItem : InputItem) :
  push_input_item inputItems rawItem
  = inputItems
    ++ (if is_item_reference rawItem then [] else [FromInput rawItem]).
Proof.
  destruct rawItem; simpl; try reflexivity.
  rewrite app_nil_r.
  destruct (negb _); [|reflexivity].
  destruct (List.find _ _); reflexivity.
Qed.

Lemma fold_push_input_item (items : list InputItem) (seed : list Item) :
  fold_left push_input_item items seed
  = seed ++ current_input_items (InputArray items).
Proof.
  revert seed. induction items as [|i items IH]; intros seed; simpl.
  - rewrite app_nil_r. reflexivity.
  - rewrite IH, push_input_item_spec. simpl.
    rewrite filter_cons.
    destruct (is_item_reference i) eqn:Hi; simpl.
    + rewrite app_nil_r. reflexivity.
    + rewrite <- app_assoc. reflexivity.
Qed.

(** C7 as stated fails for the empty string: [previous_response_id] is
    present on the request, no row has that id, and assembly succeeds
    without a lookup instead of failing with [not_found]. *)
Lemma C7_empty_id_is_not_looked_up :
  previous_response_id (example_followup (Some "") (InputString "Hi"))
  = Some ""
  /\ (∅ : DB) !! "" = None
  /\ buildInputItems ∅ (example_followup (Some "") (InputString "Hi"))
     = Ok [FromInput (InputMessage User (ContentString "Hi"))].
Proof. repeat split. Qed.

(** C7, amended.  For a request whose [previous_response_id] is a non-empty
    string: assembly fails with [not_found] (404) when no row has that id,
    with [invalid_request_error] (400) when the row has [store = false], and
    otherwise succeeds, whatever the row's status, with the stored input
    items, then the stored output items, then the current input. *)
Theorem C7_previous_response_seeds_items (db : DB)
    (request : ResponsesRequest) (pid : string) :
  previous_response_id request = Some pid ->
  pid <> "" ->
  (db !! pid = None ->
   exists e, buildInputItems db request = Err e
             /\ http_status e = 404 /\ error_type e = not_found)
  /\ (forall prev, db !! pid = Some prev -> row_store prev = false ->
      exists e, buildInputItems db request = Err e
                /\ http_status e = 400
                /\ error_type e = invalid_request_error)
  /\ (forall prev, db !! pid = Some prev -> row_store prev = true ->
      buildInputItems db request
      = Ok (default [] (inputItemsJson prev)
            ++ (FromOutput <$> default [] (outputItemsJson prev))
            ++ current_input_items (input request))).
Proof.
  intros Hpid Hne.
  assert (Htruthy : truthy (previous_response_id request) = true).
  { rewrite Hpid. simpl. apply negb_true_iff, String.eqb_neq. exact Hne. }
  unfold buildInputItems. rewrite Htruthy, Hpid. simpl.
  repeat split.
  - intros ->. eexists. repeat split.
  - intros prev -> ->. simpl. eexists. repeat split.
  - intros prev -> ->. simpl.
    destruct (input request) as [s|items]; simpl.
    + destruct (String.eqb s ""); simpl;
        rewrite ?app_nil_r, <- ?app_assoc; reflexivity.
    + rewrite fold_push_input_item, <- app_assoc. reflexivity.
Qed.

Lemma C7_previous_response_seeds_items_witness :
  buildInputItems {[ "resp_1" := example_row Incomplete true ]}
    (example_followup (Some "resp_1") (InputString "Go on"))
  = Ok [FromInput (InputMessage User (ContentString "Tell me a story"));
        FromOutput (MessageItem "msg_1" ItemCompleted [ {| part_text := "Once" |} ]);
        FromInput (InputMessage User (ContentString "Go on"))].
Proof.
  apply (proj2 (proj2
    (C7_previous_response_seeds_items
       {[ "resp_1" := example_row Incomplete true ]}
       (example_followup (Some "resp_1") (InputString "Go on")) "resp_1"
       eq_refl ltac:(discriminate)))
    (example_row Incomplete true)).
  - apply lookup_singleton_eq.
  - reflexivity.
Defined.

Lemma filter_not_reference_idemp (items : list InputItem) :
  filter (fun i => is_item_reference i = false)
    (filter (fun i => is_item_reference i = false) items)
  = filter (fun i => is_item_reference i = false) items.
Proof.
  induction items as [|i items IH]; [reflexivity|].
  rewrite filter_cons. case_decide as Hi; [|exact IH].
  rewrite filter_cons, decide_True by exact Hi. rewrite IH. reflexivity.
Qed.

(** C10.  For an array input, [buildInputItems] returns what it returns on
    the same request with every [item_reference] entry deleted, on every
    table, so whether or not the referenced id is among the items loaded
    from the previous response. *)
Theorem C10_item_references_contribute_nothing (db : DB)
    (request : ResponsesRequest) (items : list InputItem) :
  buildInputItems db (with_input (InputArray items) request)
  = buildInputItems db
      (with_input
         (InputArray (filter (fun i => is_item_reference i = false) items))
         request).
Proof.
  unfold buildInputItems. simpl.
  match goal with
  | |- match ?r with _ => _ end = _ => destruct r as [seed|e]
  end; [|reflexivity].
  rewrite !fold_push_input_item. simpl.
  rewrite filter_not_reference_idemp. reflexivity.
Qed.

(** A reference to an item of the previous response and a reference to an
    unknown item are dropped alike. *)
Example item_reference_found_or_not :
  let db : DB := {[ "resp_1" := example_row Completed true ]} in
  buildInputItems db
    (example_followup (Some "resp_1")
       (InputArray [ItemReference "msg_1"; ItemReference "msg_unknown";
                    FunctionCallOutput "call_1" "42"]))
  = Ok [FromInput (InputMessage User (ContentString "Tell me a story"));
        FromOutput (MessageItem "msg_1" ItemCompleted [ {| part_text := "Once" |} ]);
        FromInput (FunctionCallOutput "call_1" "42")].
Proof. reflexivity. Qed.

(** ** Request validation *)

Lemma check_min_max_nil (path : string) (lo hi : Q) (v : option Q) :
  check_min_max path lo hi v = []
  <-> forall q, v = Some q -> (lo <= q)%Q /\ (q <= hi)%Q.
Proof.
  destruct v as [q|]; simpl.
  - destruct (Qle_bool lo q) eqn:Hlo, (Qle_bool q hi) eqn:Hhi; simpl;
      split; try discriminate; try reflexivity.
    + intros _ q' [= <-]. split; apply Qle_bool_iff; assumption.
    + intros H. destruct (H q eq_refl) as [_ H2].
      apply Qle_bool_iff in H2. congruence.
    + intros H. destruct (H q eq_refl) as [H1 _].
      apply Qle_bool_iff in H1. congruence.
    + intros H. destruct (H q eq_refl) as [H1 _].
      apply Qle_bool_iff in H1. congruence.
  - split; [discriminate | reflexivity].
Qed.

Lemma check_int_positive_nil (path : string) (v : option Q) :
  check_int_positive path v = []
  <-> forall q, v = Some q -> is_integer q = true /\ (0 < q)%Q.
Proof.
  destruct v as [q|]; simpl.
  - destruct (is_integer q) eqn:Hint, (Qle_bool q 0) eqn:Hpos; simpl;
      split; try discriminate; try reflexivity.
    + intros H. destruct (H q eq_refl) as [_ H2].
      apply Qle_bool_iff in Hpos. apply Qlt_not_le in H2. contradiction.
    + intros _ q' [= <-]. split; [assumption|].
      apply Qnot_le_lt. intros Hle. apply Qle_bool_iff in Hle. congruence.
    + intros H. destruct (H q eq_refl) as [H1 _]. congruence.
    + intros H. destruct (H q eq_refl) as [H1 _]. congruence.
  - split; [discriminate | reflexivity].
Qed.

(** C8 as stated fails: a body with [background = true] and [store = false]
    passes validation as it is. *)
Lemma C8_background_without_store_is_accepted :
  exists data,
    safeParse (example_body (Some false) (Some true)) = ParseSuccess data
    /\ background data = true /\ store data = false.
Proof. eexists. repeat split. Qed.

(** C8, amended.  Validation accepts a request exactly when its
    [temperature], [top_p] and [max_output_tokens] are within their bounds;
    it passes [background] and [store] through unrelated, and an accepted
    request with [background] set and [store] unset is served by the
    streaming or the non-streaming handler, not in the background. *)
Theorem C8_validation_enforces_numeric_bounds_only (body : RequestBody) :
  ((exists data, safeParse body = ParseSuccess data) <-> bounds_hold body)
  /\ (forall data, safeParse body = ParseSuccess data ->
      background data = default false (body_background body)
      /\ store data = default true (body_store body)
      /\ (background data = true -> store data = false ->
          runResponse_handler data
          = if stream data then StreamResponse else NonStreamResponse)).
Proof.
  split.
  - unfold safeParse, bounds_hold.
    rewrite <- check_min_max_nil with (path := "temperature").
    rewrite <- check_min_max_nil with (path := "top_p").
    rewrite <- check_int_positive_nil with (path := "max_output_tokens").
    destruct (check_min_max "temperature" 0 2 (body_temperature body));
      destruct (check_min_max "top_p" 0 1 (body_top_p body));
      destruct (check_int_positive "max_output_tokens"
                  (body_max_output_tokens body)); simpl;
      split; try (intros [data H]; discriminate H);
      try (intros (H1 & H2 & H3); discriminate); eauto.
  - unfold safeParse. intros data.
    destruct (_ ++ _); [|discriminate].
    intros [= <-]. simpl. repeat split.
    unfold runResponse_handler. simpl. intros -> ->. reflexivity.
Qed.

(** ** The streaming path *)

#[local] Arguments persistResponse : simpl never.
#[local] Arguments persistPartialOutput : simpl never.
#[local] Arguments cancel_POST : simpl never.

(** Unfold the statements of the callback down to functions on the state. *)
Ltac unfold_stream :=
  unfold on_step, on_event, on_outcome, on_return, on_throw, timer_callback,
    cancel_request, emit_in_progress, buildResponseObject,
    createResponseObject, collectOutputItems, createTextMessageItem, persist,
    ensureTextItemOpened, schedulePartialUpdate, cancelPartialUpdate,
    newId, nextSeq, write, modify, get, bind, ret.

(** Decide every test that the code makes on the state or the request. *)
Ltac split_ifs :=
  repeat match goal with
  | |- context [if ?b then _ else _] => destruct b eqn:?; cbn
  | |- context [match ?x with Some _ => _ | None => _ end] =>
      destruct x eqn:?; cbn
  end.

(** An explicit list of at most five numbers is a run of consecutive ones. *)
Ltac consecutive :=
  match goal with
  | |- _ = seqZ ?m ?n =>
      first [ replace n with 0 by lia | replace n with 1 by lia
            | replace n with 2 by lia | replace n with 3 by lia
            | replace n with 4 by lia | replace n with 5 by lia ]
  end;
  cbn; repeat (apply (f_equal2 cons); [lia|]); reflexivity.

Lemma append_empty_r (s : string) : s +:+ "" = s.
Proof.
  induction s as [|a s IH]; [reflexivity|].
  unfold String.append; fold String.append. rewrite IH. reflexivity.
Qed.

Lemma append_assoc (s1 s2 s3 : string) :
  (s1 +:+ s2) +:+ s3 = s1 +:+ s2 +:+ s3.
Proof.
  induction s1 as [|a s1 IH]; [reflexivity|].
  unfold String.append; fold String.append. rewrite IH. reflexivity.
Qed.

Lemma streamed_text_app (l1 l2 : list Step) :
  streamed_text (l1 ++ l2) = streamed_text l1 +:+ streamed_text l2.
Proof.
  induction l1 as [|x l1 IH]; [reflexivity|].
  destruct x as [[]| |]; cbn; rewrite IH, ?append_assoc; reflexivity.
Qed.

Lemma first_appearances_app (opened : bool) (l1 l2 : list Step) :
  first_appearances opened (l1 ++ l2)
  = first_appearances opened l1
    ++ first_appearances (opened || existsb is_text_delta l1) l2.
Proof.
  revert opened. induction l1 as [|x l1 IH]; intros opened.
  - cbn. rewrite orb_false_r. reflexivity.
  - destruct x as [[]| |]; cbn; try apply IH.
    + destruct opened; cbn; rewrite IH; reflexivity.
    + rewrite IH. reflexivity.
Qed.

Lemma numbered_app (start : Z) (l1 l2 : list ItemKind) :
  numbered start (l1 ++ l2)
  = numbered start l1 ++ numbered (start + Z.of_nat (length l1)) l2.
Proof.
  unfold numbered. rewrite imap_app. f_equal.
  apply imap_ext. intros i k _. cbn. f_equal. lia.
Qed.

Lemma first_appearances_opened_no_start (l : list Step) :
  existsb is_tool_call_start l = false -> first_appearances true l = [].
Proof.
  induction l as [|x l IH]; [reflexivity|].
  destruct x as [[]| |]; cbn; try exact IH. discriminate.
Qed.

Lemma first_appearances_closed_no_start (l : list Step) :
  existsb is_tool_call_start l = false ->
  first_appearances false l
  = if existsb is_text_delta l then [KindMessage] else [].
Proof.
  induction l as [|x l IH]; [reflexivity|].
  destruct x as [[]| |]; cbn; try exact IH; try discriminate.
  intros H. rewrite first_appearances_opened_no_start by exact H. reflexivity.
Qed.

Lemma first_call_without_text (opened : bool) (l : list Step) :
  existsb is_text_delta l = false ->
  existsb is_tool_call_start l = true ->
  exists rest, first_appearances opened l = KindFunctionCall :: rest.
Proof.
  induction l as [|x l IH]; [discriminate|].
  destruct x as [[]| |]; cbn; try exact IH; try discriminate.
  intros _ _. eexists. reflexivity.
Qed.

Lemma no_message_without_text (opened : bool) (l : list Step) :
  existsb is_text_delta l = false ->
  KindMessage ∉ first_appearances opened l.
Proof.
  induction l as [|x l IH]; cbn; [intros _; apply not_elem_of_nil|].
  destruct x as [[]| |]; cbn; try exact IH; try discriminate.
  intros H. apply not_elem_of_cons. split; [discriminate | exact (IH H)].
Qed.

Lemma message_then_call (pre mid post : list Step)
    (delta callId name : string) (outputIndex : Z) :
  existsb is_tool_call_start pre = false ->
  existsb is_tool_call_start mid = false ->
  exists rest,
    first_appearances false
      (pre ++ Yield (text_delta delta)
           :: mid ++ Yield (tool_call_start callId name outputIndex) :: post)
    = KindMessage :: KindFunctionCall :: rest.
Proof.
  intros Hpre Hmid. exists (first_appearances true post).
  rewrite first_appearances_app,
    (first_appearances_closed_no_start pre Hpre). cbn.
  destruct (existsb is_text_delta pre); cbn;
    rewrite first_appearances_app,
      (first_appearances_opened_no_start mid Hmid); reflexivity.
Qed.

Lemma seqZ_sorted (n : nat) (m : Z) :
  StronglySorted Z.lt (seqZ m (Z.of_nat n)).
Proof.
  revert m. induction n as [|n IH]; intros m.
  - constructor.
  - rewrite seqZ_cons by lia. constructor.
    + replace (Z.pred (Z.of_nat (S n))) with (Z.of_nat n) by lia. apply IH.
    + apply Forall_forall. intros x Hx. apply elem_of_seqZ in Hx. lia.
Qed.

Lemma for_each_app {A} (f : A -> M unit) (l1 l2 : list A) (s : StreamState) :
  for_each f (l1 ++ l2) s = for_each f l2 (snd (for_each f l1 s)).
Proof.
  revert s. induction l1 as [|x l1 IH]; intros s; [reflexivity|].
  cbn. unfold bind. destruct (f x s) as [[] s']. apply IH.
Qed.

Lemma persistResponse_written (now : Z) (responseId : string)
    (request : ResponsesRequest) (inputItems : list Item) (status : Status)
    (outputItems : list OutputItem) (usage : option Usage) (created : Z)
    (error : option ErrorJson) (details : option IncompleteDetails) (db : DB) :
  exists row,
    persistResponse now responseId request inputItems status outputItems
      usage created error details db !! responseId = Some row
    /\ row_status row = status
    /\ outputItemsJson row = Some outputItems
    /\ usageJson row = usage
    /\ errorJson row = error
    /\ incompleteDetailsJson row = details.
Proof.
  unfold persistResponse.
  destruct (db !! responseId); rewrite lookup_insert_eq;
    eexists; repeat split.
Qed.

Section OneStep.

Variable uuid : nat -> string.
Variable now : Z.
Variable request : ResponsesRequest.
Variable inputItems : list Item.
Variable created : Z.
Variables responseId messageId : string.

(** What one turn of the loop does to the wire and to the counters. *)
Lemma on_step_effect (x : Step) (s : StreamState) :
  exists ext,
    wire (snd (on_step uuid now request created responseId messageId x s))
    = wire s ++ ext
    /\ sequence_numbers ext
       = seqZ (sequence s + 1)
           (sequence
              (snd (on_step uuid now request created responseId messageId x s))
            - sequence s)
    /\ sequence s
       <= sequence
            (snd (on_step uuid now request created responseId messageId x s))
    /\ added_items ext
       = numbered (nextOutputIndex s)
           (first_appearances (textItemOpened s) [x])
    /\ nextOutputIndex
         (snd (on_step uuid now request created responseId messageId x s))
       = nextOutputIndex s
         + Z.of_nat (length (first_appearances (textItemOpened s) [x]))
    /\ textItemOpened
         (snd (on_step uuid now request created responseId messageId x s))
       = textItemOpened s || is_text_delta x
    /\ (textItemOpened
          (snd (on_step uuid now request created responseId messageId x s))
        = false ->
        filter (fun c => message_event c = true) ext = [])
    /\ accumulatedText
         (snd (on_step uuid now request created responseId messageId x s))
       = accumulatedText s +:+ streamed_text [x].
Proof.
  destruct s as [sq at_ ath fcs noi ru tio moi put w db dr].
  destruct x as [ev| |t]; [destruct ev|..]; unfold_stream; cbn; split_ifs.
  all: eexists; split;
    [first [rewrite <- ?app_assoc; reflexivity | symmetry; apply app_nil_r]|].
  all: split; [consecutive|].
  all: split; [lia|].
  all: split; [cbn; rewrite ?Z.add_0_r; reflexivity|].
  all: split; [cbn; lia|].
  all: split; [rewrite ?orb_false_r, ?orb_true_r; reflexivity|].
  all: split; [first [discriminate | reflexivity]|].
  all: cbn; rewrite ?append_empty_r; reflexivity.
Qed.

(** What the end of the stream adds to the wire: no item is announced, no
    message event is sent, and the last chunk is the sentinel. *)
Lemma on_outcome_effect (o : Outcome) (s : StreamState) :
  exists ext,
    wire (snd (on_outcome uuid now request inputItems created responseId
                 messageId o s))
    = wire s ++ ext
    /\ sequence_numbers ext
       = seqZ (sequence s + 1)
           (sequence
              (snd (on_outcome uuid now request inputItems created responseId
                      messageId o s))
            - sequence s)
    /\ sequence s
       <= sequence
            (snd (on_outcome uuid now request inputItems created responseId
                    messageId o s))
    /\ added_items ext = []
    /\ filter (fun c => message_event c = true) ext = []
    /\ last ext = Some sseDone.
Proof.
  destruct s as [sq at_ ath fcs noi ru tio moi put w db dr].
  destruct o as [|[]]; unfold_stream; cbn; split_ifs.
  all: eexists; split;
    [first [rewrite <- ?app_assoc; reflexivity | symmetry; apply app_nil_r]|].
  all: split; [consecutive|].
  all: split; [lia|].
  all: repeat split; reflexivity.
Qed.

(** The message item that [collectOutputItems] builds always carries the
    status [completed] of [createTextMessageItem]. *)
Lemma collected_message_is_completed (s : StreamState) :
  textItemOpened s = true ->
  message_status (fst (collectOutputItems uuid messageId s))
  = Some ItemCompleted.
Proof.
  destruct s as [sq at_ ath fcs noi ru tio moi put w db dr].
  cbn. intros ->. unfold_stream; cbn. split_ifs; reflexivity.
Qed.

End OneStep.

Section Streaming.

Variable uuid : nat -> string.
Variable now : Z.
Variable request : ResponsesRequest.
Variable inputItems : list Item.
Variable created : Z.
Variable db : DB.

Local Abbreviation responseId := ("resp_" +:+ uuid 0).
Local Abbreviation messageId := ("msg_" +:+ uuid 1).
Local Abbreviation state_after trace :=
  (streaming uuid now request inputItems created trace db).
Local Abbreviation final_state run :=
  (streamResponse uuid now request inputItems created run db).

Lemma streaming_snoc (trace : list Step) (x : Step) :
  state_after (trace ++ [x])
  = snd (on_step uuid now request created responseId messageId x
           (state_after trace)).
Proof.
  unfold streaming, consume, bind.
  destruct (emit_in_progress _ _) as [[] s0].
  rewrite for_each_app. cbn. unfold bind.
  destruct (on_step _ _ _ _ _ _ _ _) as [[] s1]. reflexivity.
Qed.

(** What holds of the state while the adapter still yields. *)
Lemma streaming_invariant (trace : list Step) :
  (exists rest,
     wire (state_after trace)
     = sseEvent "response.in_progress" (ResponseInProgress 1 responseId)
       :: rest)
  /\ sequence_numbers (wire (state_after trace))
     = seqZ 1 (sequence (state_after trace))
  /\ 1 <= sequence (state_after trace)
  /\ added_items (wire (state_after trace))
     = numbered 0 (first_appearances false trace)
  /\ nextOutputIndex (state_after trace)
     = Z.of_nat (length (first_appearances false trace))
  /\ textItemOpened (state_after trace) = existsb is_text_delta trace
  /\ (textItemOpened (state_after trace) = false ->
      filter (fun c => message_event c = true) (wire (state_after trace)) = [])
  /\ accumulatedText (state_after trace) = streamed_text trace.
Proof.
  induction trace as [|x trace IH] using rev_ind.
  - cbn. repeat split; try reflexivity; try lia. eexists. reflexivity.
  - rewrite streaming_snoc.
    set (s := state_after trace) in *.
    destruct IH as ([rest Hfirst] & Hseq & Hpos & Hadded & Hnext & Hopened
                    & Hmsg & Htext).
    destruct (on_step_effect uuid now request created responseId messageId x s)
      as (ext & Hwire & Hseq' & Hle & Hadded' & Hnext' & Hopened' & Hmsg'
          & Htext').
    rewrite Hwire.
    split; [rewrite Hfirst; eexists; reflexivity|].
    split.
    { unfold sequence_numbers in *. rewrite omap_app, Hseq, Hseq'.
      replace (sequence s + 1) with (1 + sequence s) by lia.
      rewrite <- seqZ_app by lia. f_equal. lia. }
    split; [lia|].
    split.
    { unfold added_items in *. rewrite omap_app, Hadded, Hadded'.
      rewrite first_appearances_app, numbered_app. cbn.
      rewrite Hnext, Hopened. reflexivity. }
    split.
    { rewrite Hnext', Hnext, first_appearances_app, length_app, Hopened.
      cbn. lia. }
    split.
    { rewrite Hopened', Hopened, existsb_app. cbn.
      rewrite orb_false_r. reflexivity. }
    split.
    { intros Hclosed. rewrite filter_app, Hmsg' by exact Hclosed.
      rewrite Hmsg; [reflexivity|].
      rewrite Hopened' in Hclosed. apply orb_false_iff in Hclosed. tauto. }
    rewrite Htext', Htext, streamed_text_app. reflexivity.
Qed.

Lemma added_items_streamResponse (run : ProviderRun) :
  added_items (wire (final_state run))
  = numbered 0 (first_appearances false (steps run)).
Proof.
  unfold streamResponse.
  destruct (streaming_invariant (steps run)) as (_ & _ & _ & Hadded & _).
  destruct (on_outcome_effect uuid now request inputItems created responseId
              messageId (outcome run) (state_after (steps run)))
    as (ext & Hwire & _ & _ & Hnone & _).
  rewrite Hwire. unfold added_items in *.
  rewrite omap_app, Hadded, Hnone, app_nil_r. reflexivity.
Qed.

(** C2.  The items announced on the wire are numbered 0, 1, 2, ... in the
    order in which they first appear in the provider's events.  The message
    item is opened by the first [text_delta], which sends
    [output_item.added], then [content_part.added], then the delta, and
    nothing about the message is sent before.  Without any [text_delta] no
    message item, [content_part.*], [output_text.*] or message
    [output_item.done] is sent and the first function call has index 0; with
    a [text_delta] before the first [tool_call_start] the message has index
    0 and the first function call index 1. *)
Theorem C2_output_index_order (run : ProviderRun) :
  added_items (wire (final_state run))
  = numbered 0 (first_appearances false (steps run))
  /\ (forall pre delta post,
        steps run = pre ++ Yield (text_delta delta) :: post ->
        existsb is_text_delta pre = false ->
        filter (fun c => message_event c = true) (wire (state_after pre)) = []
        /\ wire (state_after (pre ++ [Yield (text_delta delta)]))
           = wire (state_after pre)
             ++ [sseEvent "response.output_item.added"
                   (OutputItemAdded (sequence (state_after pre) + 1)
                      (nextOutputIndex (state_after pre))
                      (MessageItem messageId ItemInProgress []));
                 sseEvent "response.content_part.added"
                   (ContentPartAdded (sequence (state_after pre) + 2)
                      messageId (nextOutputIndex (state_after pre)) 0
                      {| part_text := "" |});
                 sseEvent "response.output_text.delta"
                   (OutputTextDelta (sequence (state_after pre) + 3)
                      messageId (nextOutputIndex (state_after pre)) 0 delta)])
  /\ (existsb is_text_delta (steps run) = false ->
      filter (fun c => message_event c = true) (wire (final_state run)) = []
      /\ index_of KindMessage (wire (final_state run)) = None
      /\ (existsb is_tool_call_start (steps run) = true ->
          index_of KindFunctionCall (wire (final_state run)) = Some 0))
  /\ (forall pre delta mid callId name outputIndex post,
        steps run
        = pre ++ Yield (text_delta delta)
              :: mid ++ Yield (tool_call_start callId name outputIndex)
              :: post ->
        existsb is_tool_call_start pre = false ->
        existsb is_tool_call_start mid = false ->
        index_of KindMessage (wire (final_state run)) = Some 0
        /\ index_of KindFunctionCall (wire (final_state run)) = Some 1).
Proof.
  split; [apply added_items_streamResponse|]. split; [|split].
  - intros pre delta post _ Hpre.
    destruct (streaming_invariant pre)
      as (_ & _ & _ & _ & _ & Hopened & Hmsg & _).
    rewrite Hpre in Hopened. split; [exact (Hmsg Hopened)|].
    rewrite streaming_snoc.
    destruct (state_after pre)
      as [sq at_ ath fcs noi ru tio moi put w db' dr].
    cbn in Hopened. subst tio.
    unfold_stream; cbn. destruct (store request); cbn;
      rewrite <- !app_assoc; cbn;
      replace (sq + 1 + 1) with (sq + 2) by lia;
      replace (sq + 2 + 1) with (sq + 3) by lia; reflexivity.
  - intros Htext.
    unfold index_of. rewrite added_items_streamResponse.
    split; [|split].
    + unfold streamResponse.
      destruct (streaming_invariant (steps run))
        as (_ & _ & _ & _ & _ & Hopened & Hmsg & _).
      rewrite Htext in Hopened.
      destruct (on_outcome_effect uuid now request inputItems created
                  responseId messageId (outcome run)
                  (state_after (steps run)))
        as (ext & Hwire & _ & _ & _ & Hnone & _).
      rewrite Hwire, filter_app, Hnone, (Hmsg Hopened). reflexivity.
    + pose proof (no_message_without_text false (steps run) Htext) as Hno.
      destruct (filter _ _) as [|[i k] l] eqn:Hf; [reflexivity|].
      exfalso.
      assert (Hin : (i, k) ∈ filter (fun p : Z * ItemKind => p.2 = KindMessage)
                 (numbered 0 (first_appearances false (steps run)))).
      { rewrite Hf. apply list_elem_of_here. }
      apply list_elem_of_filter in Hin as [Hk Hin]. cbn in Hk. subst k.
      unfold numbered in Hin.
      apply elem_of_lookup_imap in Hin as (j & k & Heq & Hj).
      injection Heq as _ <-. apply Hno.
      eapply list_elem_of_lookup_2. exact Hj.
    + intros Hstart.
      destruct (first_call_without_text false (steps run) Htext Hstart)
        as [rest ->].
      reflexivity.
  - intros pre delta mid callId name outputIndex post Hsteps Hpre Hmid.
    unfold index_of. rewrite added_items_streamResponse, Hsteps.
    destruct (message_then_call pre mid post delta callId name outputIndex
                Hpre Hmid) as [rest ->].
    split; reflexivity.
Qed.


(** C5, amended.  The first chunk of every stream is [response.in_progress]
    with [sequence_number] 1; the sequence numbers on the wire, in the order
    sent, are 1, 2, 3, ... and so strictly increasing; every typed event
    other than the [error] event carries one. *)
Theorem C5_sequence_numbers_increase (run : ProviderRun) :
  (exists rest,
     wire (final_state run)
     = sseEvent "response.in_progress" (ResponseInProgress 1 responseId)
       :: rest)
  /\ (exists n, sequence_numbers (wire (final_state run)) = seqZ 1 n)
  /\ StronglySorted Z.lt (sequence_numbers (wire (final_state run)))
  /\ (forall c, c ∈ wire (final_state run) ->
      is_typed c = true -> is_error_event c = false ->
      exists n, sse_sequence_number c = Some n).
Proof.
  unfold streamResponse.
  destruct (streaming_invariant (steps run))
    as ([rest Hfirst] & Hseq & Hpos & _).
  set (s := state_after (steps run)) in *.
  destruct (on_outcome_effect uuid now request inputItems created responseId
              messageId (outcome run) s)
    as (ext & Hwire & Hseq' & Hle & _).
  rewrite Hwire.
  assert (Hall : sequence_numbers (wire s ++ ext)
                 = seqZ 1 (sequence
                     (snd (on_outcome uuid now request inputItems created
                             responseId messageId (outcome run) s)))).
  { unfold sequence_numbers in *. rewrite omap_app, Hseq, Hseq'.
    replace (sequence s + 1) with (1 + sequence s) by lia.
    rewrite <- seqZ_app by lia. f_equal. lia. }
  split; [rewrite Hfirst; eexists; reflexivity|].
  split; [eexists; exact Hall|].
  split.
  { rewrite Hall.
    match goal with |- context [seqZ 1 ?n] =>
      replace n with (Z.of_nat (Z.to_nat n)) by lia end.
    apply seqZ_sorted. }
  intros [ty data|] _ Htyped Herr; [|discriminate].
  destruct data; cbn in *; try discriminate; eauto.
Qed.

(** C9.  When the text item is open and [message_done] arrives, the next
    chunk on the wire is [output_text.done] with the accumulated text, which
    is the concatenation of the deltas received, empty if they all were. *)
Theorem C9_text_done_carries_accumulated_text (trace : list Step)
    (stopReason : StopReason) (usage : ProviderUsage) :
  textItemOpened (state_after trace) = true ->
  accumulatedText (state_after trace) = streamed_text trace
  /\ exists rest,
       wire (state_after (trace ++ [Yield (message_done stopReason usage)]))
       = wire (state_after trace)
         ++ sseEvent "response.output_text.done"
              (OutputTextDone (sequence (state_after trace) + 1) messageId
                 (messageOutputIndex (state_after trace)) 0
                 (accumulatedText (state_after trace)))
            :: rest.
Proof.
  intros Hopened.
  destruct (streaming_invariant trace) as (_ & _ & _ & _ & _ & _ & _ & Htext).
  split; [exact Htext|].
  rewrite streaming_snoc.
  destruct (state_after trace)
    as [sq at_ ath fcs noi ru tio moi put w db' dr].
  cbn in Hopened. subst tio.
  unfold_stream; cbn. split_ifs; rewrite <- !app_assoc; cbn;
    eexists; reflexivity.
Qed.

End Streaming.

(** ** The scenarios of the specification, evaluated *)

Example S1_text_streaming :
  event_name <$>
    wire (streamResponse hex 1700000009 (example_request false) [] 1700000000
            {| steps := [Yield (text_delta "Hello");
                         Yield (text_delta " world");
                         Yield (message_done end_turn example_usage)];
               outcome := Returns |} ∅)
  = ["response.in_progress"; "response.output_item.added";
     "response.content_part.added"; "response.output_text.delta";
     "response.output_text.delta"; "response.output_text.done";
     "response.content_part.done"; "response.output_item.done";
     "response.completed"; "[DONE]"].
Proof. vm_compute. reflexivity. Qed.

Example S2_pure_tool_call :
  event_name <$>
    wire (streamResponse hex 1700000009 (example_request false) [] 1700000000
            pure_tool_call ∅)
  = ["response.in_progress"; "response.output_item.added";
     "response.output_item.done"; "response.completed"; "[DONE]"].
Proof. vm_compute. reflexivity. Qed.

Example S4_abort_sends_only_the_sentinel :
  event_name <$>
    wire (streamResponse hex 1700000009 (example_request true) [] 1700000000
            aborted_mid_text ∅)
  = ["response.in_progress"; "response.output_item.added";
     "response.content_part.added"; "response.output_text.delta";
     "response.output_text.delta"; "[DONE]"].
Proof. vm_compute. reflexivity. Qed.

Lemma C2_output_index_order_witness :
  (index_of KindMessage
     (wire (streamResponse hex 1700000009 (example_request false) []
              1700000000 text_then_tool_call ∅)) = Some 0
   /\ index_of KindFunctionCall
        (wire (streamResponse hex 1700000009 (example_request false) []
                 1700000000 text_then_tool_call ∅)) = Some 1)
  /\ index_of KindFunctionCall
       (wire (streamResponse hex 1700000009 (example_request false) []
                1700000000 pure_tool_call ∅)) = Some 0.
Proof.
  split.
  - apply (proj2 (proj2 (proj2
      (C2_output_index_order hex 1700000009 (example_request false) []
         1700000000 ∅ text_then_tool_call)))
      [] "Let me check." [] "call_abc" "get_weather" 0
      [Yield (tool_call_done "call_abc" "{}" 0);
       Yield (message_done tool_use example_usage)]
      eq_refl eq_refl eq_refl).
  - apply (proj1 (proj2 (proj2
      (C2_output_index_order hex 1700000009 (example_request false) []
         1700000000 ∅ pure_tool_call))) eq_refl).
    reflexivity.
Defined.


(** C5 as stated fails on a stream that ends in an ordinary error: the
    fifth chunk is the typed [error] event, which has no [sequence_number]
    field. *)
Lemma C5_error_event_has_no_sequence_number :
  wire (streamResponse hex 1700000009 (example_request false) [] 1700000000
          failed_mid_text ∅) !! 4%nat
  = Some (sseEvent "error"
            (ErrorPayload server_error "upstream unavailable" None))
  /\ is_typed
       (sseEvent "error"
          (ErrorPayload server_error "upstream unavailable" None)) = true
  /\ sse_sequence_number
       (sseEvent "error"
          (ErrorPayload server_error "upstream unavailable" None)) = None.
Proof. repeat split. Qed.

Lemma C9_text_done_carries_accumulated_text_witness :
  accumulatedText
    (streaming hex 1700000009 (example_request false) [] 1700000000
       empty_delta ∅)
  = streamed_text empty_delta
  /\ exists rest,
       wire (streaming hex 1700000009 (example_request false) [] 1700000000
               (empty_delta ++ [Yield (message_done end_turn example_usage)])
               ∅)
       = wire (streaming hex 1700000009 (example_request false) []
                 1700000000 empty_delta ∅)
         ++ sseEvent "response.output_text.done"
              (OutputTextDone 5 "msg_f0" 0 0 "")
            :: rest.
Proof.
  apply (C9_text_done_carries_accumulated_text hex 1700000009
           (example_request false) [] 1700000000 ∅ empty_delta end_turn
           example_usage eq_refl).
Defined.

(** C1 fails on the code.  A stream with [store] set is cancelled through
    the cancel endpoint while it runs, so that its row is [cancelled]; the
    provider then finishes, and the final [persistResponse] leaves the row
    [completed]. *)
Theorem C1_completion_overwrites_cancelled :
  row_status <$>
    database (streaming hex 1700000009 (example_request true) [] 1700000000
                cancelled_mid_stream ∅) !! "resp_0"
  = Some Cancelled
  /\ row_status <$>
       database (streamResponse hex 1700000009 (example_request true) []
                   1700000000 finished_after_cancel ∅) !! "resp_0"
     = Some Completed.
Proof. split; vm_compute; reflexivity. Qed.

(** C4 fails on the code.  In scenario S4 the message whose text was cut
    short by the abort is persisted, in a row of status [incomplete], with
    the item status [completed]. *)
Theorem C4_partial_message_persisted_as_completed :
  row_status <$>
    database (streamResponse hex 1700000009 (example_request true) []
                1700000000 aborted_mid_text ∅) !! "resp_0"
  = Some Incomplete
  /\ outputItemsJson <$>
       database (streamResponse hex 1700000009 (example_request true) []
                   1700000000 aborted_mid_text ∅) !! "resp_0"
     = Some (Some [MessageItem "msg_f0" ItemCompleted
                     [ {| part_text := "Hello partial" |} ]]).
Proof. split; vm_compute; reflexivity. Qed.

(** * Further properties of the code *)

(** ** The persistence gateway and the endpoints on a stored response *)

Lemma persistResponse_other (now : Z) (responseId id : string)
    (request : ResponsesRequest) (inputItems : list Item) (status : Status)
    (outputItems : list OutputItem) (usage : option Usage) (created : Z)
    (error : option ErrorJson) (details : option IncompleteDetails) (db : DB) :
  id <> responseId ->
  persistResponse now responseId request inputItems status outputItems
    usage created error details db !! id = db !! id.
Proof.
  intros Hne. unfold persistResponse.
  destruct (db !! responseId); apply lookup_insert_ne; congruence.
Qed.

Lemma persistPartialOutput_other (responseId id : string)
    (outputItems : list OutputItem) (db : DB) :
  id <> responseId ->
  persistPartialOutput responseId outputItems db !! id = db !! id.
Proof.
  intros Hne. rewrite persistPartialOutput_lookup.
  rewrite bool_decide_eq_false_2 by exact Hne.
  destruct (db !! id); reflexivity.
Qed.

Lemma cancel_POST_lookup (now : Z) (id k : string) (db : DB) :
  snd (cancel_POST now id db) !! k
  = match db !! id with
    | Some row =>
        if row_store row && cancellableStatuses (row_status row)
           && bool_decide (k = id)
        then Some (set_cancelled now row)
        else db !! k
    | None => db !! k
    end.
Proof.
  unfold cancel_POST. destruct (db !! id) as [row|] eqn:Hrow; [|reflexivity].
  destruct (row_store row); cbn; [|reflexivity].
  destruct (cancellableStatuses (row_status row)); cbn; [|reflexivity].
  rewrite sql_update_lookup.
  destruct (bool_decide (k = id)) eqn:Hk.
  - apply bool_decide_eq_true in Hk. subst k. rewrite Hrow. reflexivity.
  - destruct (db !! k); reflexivity.
Qed.

Lemma cancel_POST_other (now : Z) (id k : string) (db : DB) :
  k <> id -> snd (cancel_POST now id db) !! k = db !! k.
Proof.
  intros Hne. rewrite cancel_POST_lookup.
  rewrite bool_decide_eq_false_2 by exact Hne.
  destruct (db !! id); [rewrite andb_false_r|]; reflexivity.
Qed.

(** X1.  On a conflict [persistResponse] rewrites the status, the output
    items, the usage, the error, the incomplete details and [completed_at]
    and nothing else: the stored input items, the request's columns,
    [created_at] and [cancelled_at] stay as first written, and no other row
    changes. *)
Theorem X1_upsert_keeps_what_was_inserted (now : Z) (responseId : string)
    (request : ResponsesRequest) (inputItems : list Item) (status : Status)
    (outputItems : list OutputItem) (usage : option Usage) (created : Z)
    (error : option ErrorJson) (details : option IncompleteDetails)
    (db : DB) (old : Row) :
  db !! responseId = Some old ->
  (exists row,
     persistResponse now responseId request inputItems status outputItems
       usage created error details db !! responseId = Some row
     /\ row_status row = status
     /\ outputItemsJson row = Some outputItems
     /\ usageJson row = usage
     /\ errorJson row = error
     /\ incompleteDetailsJson row = details
     /\ completedAt row = (if decide (status = Completed) then Some now
                           else None)
     /\ inputItemsJson row = inputItemsJson old
     /\ row_model row = row_model old
     /\ row_instructions row = row_instructions old
     /\ toolsJson row = toolsJson old
     /\ row_metadata row = row_metadata old
     /\ previousResponseId row = previousResponseId old
     /\ row_store row = row_store old
     /\ row_background row = row_background old
     /\ createdAt row = createdAt old
     /\ cancelledAt row = cancelledAt old)
  /\ forall id, id <> responseId ->
       persistResponse now responseId request inputItems status outputItems
         usage created error details db !! id = db !! id.
Proof.
  intros Hold. split; [|intros id; apply persistResponse_other].
  unfold persistResponse. rewrite Hold, lookup_insert_eq.
  eexists. split; [reflexivity|]. cbn. repeat split.
Qed.

Lemma X1_upsert_keeps_what_was_inserted_witness :
  (exists row,
     persistResponse 1700000009 "resp_1" (example_request true) [] Completed
       [] None 1700000005 None None
       ({[ "resp_1" := example_row Cancelled true ]} : DB) !! "resp_1"
     = Some row
     /\ row_status row = Completed
     /\ outputItemsJson row = Some []
     /\ usageJson row = None
     /\ errorJson row = None
     /\ incompleteDetailsJson row = None
     /\ completedAt row = (if decide (Completed = Completed)
                           then Some 1700000009 else None)
     /\ inputItemsJson row = inputItemsJson (example_row Cancelled true)
     /\ row_model row = row_model (example_row Cancelled true)
     /\ row_instructions row = row_instructions (example_row Cancelled true)
     /\ toolsJson row = toolsJson (example_row Cancelled true)
     /\ row_metadata row = row_metadata (example_row Cancelled true)
     /\ previousResponseId row
        = previousResponseId (example_row Cancelled true)
     /\ row_store row = row_store (example_row Cancelled true)
     /\ row_background row = row_background (example_row Cancelled true)
     /\ createdAt row = createdAt (example_row Cancelled true)
     /\ cancelledAt row = cancelledAt (example_row Cancelled true))
  /\ forall id, id <> "resp_1" ->
       persistResponse 1700000009 "resp_1" (example_request true) [] Completed
         [] None 1700000005 None None
         ({[ "resp_1" := example_row Cancelled true ]} : DB) !! id
       = ({[ "resp_1" := example_row Cancelled true ]} : DB) !! id.
Proof.
  apply (X1_upsert_keeps_what_was_inserted 1700000009 "resp_1"
           (example_request true) [] Completed [] None 1700000005 None None
           {[ "resp_1" := example_row Cancelled true ]}
           (example_row Cancelled true)).
  apply lookup_singleton_eq.
Defined.

(** X2.  What [persistResponse] writes is what [GET /v1/responses/{id}]
    then returns: the same id, status, output, usage, error and incomplete
    details, and, when the row is new, the request's model and metadata and
    the given creation time.  The object returned always has the text format
    [text] and no reasoning settings, whatever the request asked for. *)
Theorem X2_get_returns_what_was_persisted (now : Z) (responseId : string)
    (request : ResponsesRequest) (inputItems : list Item) (status : Status)
    (outputItems : list OutputItem) (usage : option Usage) (created : Z)
    (error : option ErrorJson) (details : option IncompleteDetails)
    (db : DB) :
  exists body,
    GET_response responseId
      (persistResponse now responseId request inputItems status outputItems
         usage created error details db) = Ok body
    /\ resp_id body = responseId
    /\ resp_status body = status
    /\ resp_output body = outputItems
    /\ resp_usage body = usage
    /\ resp_error body = error
    /\ resp_incomplete_details body = details
    /\ resp_text body = FormatText
    /\ resp_reasoning body = None
    /\ (db !! responseId = None ->
        resp_model body = model request
        /\ resp_metadata body = metadata request
        /\ resp_created_at body = created
        /\ resp_store body = true
        /\ resp_background body = background request).
Proof.
  unfold GET_response, persistResponse.
  destruct (db !! responseId) as [old|] eqn:Hold; rewrite lookup_insert_eq;
    eexists; (split; [reflexivity|]); cbn; repeat split; discriminate.
Qed.

(** X3.  [DELETE /v1/responses/{id}] answers 404 and changes nothing when
    the id is unknown; otherwise it removes that row and no other, after
    which [GET] on the id answers 404. *)
Theorem X3_delete_removes_one_row (id : string) (db : DB) :
  (db !! id = None ->
   snd (DELETE_response id db) = db
   /\ exists e, fst (DELETE_response id db) = Err e /\ http_status e = 404)
  /\ (is_Some (db !! id) ->
      fst (DELETE_response id db) = Ok {| deleted_id := id; deleted := true |}
      /\ (exists e, GET_response id (snd (DELETE_response id db)) = Err e
                    /\ http_status e = 404)
      /\ forall k, k <> id -> snd (DELETE_response id db) !! k = db !! k).
Proof.
  unfold DELETE_response, GET_response. split.
  - intros ->. cbn. eauto.
  - intros [row ->]. cbn. rewrite lookup_delete_eq.
    repeat split; eauto using lookup_delete_ne.
    intros k Hk. apply lookup_delete_ne. congruence.
Qed.

(** X4.  The cancel endpoint, on a stored row that is [queued] or
    [in_progress], answers with the response object in status [cancelled];
    the row then has status [cancelled] and [cancelled_at = now], its other
    columns are as before, and no other row changes. *)
Theorem X4_cancel_marks_the_row (now : Z) (id : string) (db : DB) (row : Row) :
  db !! id = Some row ->
  row_store row = true ->
  cancellableStatuses (row_status row) = true ->
  (exists body,
     fst (cancel_POST now id db) = Ok body
     /\ resp_id body = id
     /\ resp_status body = Cancelled
     /\ resp_output body = default [] (outputItemsJson row))
  /\ snd (cancel_POST now id db) !! id = Some (set_cancelled now row)
  /\ GET_response id (snd (cancel_POST now id db))
     = Ok (rowToResponseObject id (set_cancelled now row))
  /\ forall k, k <> id -> snd (cancel_POST now id db) !! k = db !! k.
Proof.
  intros Hrow Hstore Hstatus. split; [|split; [|split]].
  - unfold cancel_POST. rewrite Hrow, Hstore, Hstatus. cbn.
    eexists. repeat split.
  - rewrite cancel_POST_lookup, Hrow, Hstore, Hstatus.
    rewrite bool_decide_eq_true_2 by reflexivity. reflexivity.
  - unfold GET_response.
    rewrite cancel_POST_lookup, Hrow, Hstore, Hstatus.
    rewrite bool_decide_eq_true_2 by reflexivity. reflexivity.
  - intros k Hk. apply cancel_POST_other. exact Hk.
Qed.

Lemma X4_cancel_marks_the_row_witness :
  (exists body,
     fst (cancel_POST 1700000009 "resp_1"
            {[ "resp_1" := example_row InProgress true ]}) = Ok body
     /\ resp_id body = "resp_1"
     /\ resp_status body = Cancelled
     /\ resp_output body
        = default [] (outputItemsJson (example_row InProgress true)))
  /\ snd (cancel_POST 1700000009 "resp_1"
            {[ "resp_1" := example_row InProgress true ]}) !! "resp_1"
     = Some (set_cancelled 1700000009 (example_row InProgress true))
  /\ GET_response "resp_1"
       (snd (cancel_POST 1700000009 "resp_1"
               {[ "resp_1" := example_row InProgress true ]}))
     = Ok (rowToResponseObject "resp_1"
             (set_cancelled 1700000009 (example_row InProgress true)))
  /\ forall k, k <> "resp_1" ->
       snd (cancel_POST 1700000009 "resp_1"
              {[ "resp_1" := example_row InProgress true ]}) !! k
       = ({[ "resp_1" := example_row InProgress true ]} : DB) !! k.
Proof.
  apply (X4_cancel_marks_the_row 1700000009 "resp_1"
           {[ "resp_1" := example_row InProgress true ]}
           (example_row InProgress true)).
  - apply lookup_singleton_eq.
  - reflexivity.
  - reflexivity.
Defined.

(** X5.  Whenever the cancel endpoint answers with an error it has changed
    nothing, and the error is 404 exactly when no row has the id and 409
    otherwise (the row was not stored, or is in a status that cannot be
    cancelled). *)
Theorem X5_refused_cancel_changes_nothing (now : Z) (id : string) (db : DB)
    (e : ApiError) :
  fst (cancel_POST now id db) = Err e ->
  snd (cancel_POST now id db) = db
  /\ (db !! id = None -> http_status e = 404 /\ error_type e = not_found)
  /\ (forall row, db !! id = Some row ->
      http_status e = 409 /\ error_type e = conflict
      /\ (row_store row = false
          \/ cancellableStatuses (row_status row) = false)).
Proof.
  unfold cancel_POST. destruct (db !! id) as [row|].
  - destruct (row_store row) eqn:Hstore; cbn.
    + destruct (cancellableStatuses (row_status row)) eqn:Hstatus; cbn.
      * discriminate.
      * intros [= <-]. split; [reflexivity|]. split; [discriminate|].
        intros r [= <-]. cbn. auto.
    + intros [= <-]. split; [reflexivity|]. split; [discriminate|].
      intros r [= <-]. cbn. auto.
  - cbn. intros [= <-]. split; [reflexivity|]. split; [auto|discriminate].
Qed.

Lemma X5_refused_cancel_changes_nothing_witness :
  snd (cancel_POST 1700000009 "resp_1"
         {[ "resp_1" := example_row Completed true ]})
  = {[ "resp_1" := example_row Completed true ]}
  /\ (({[ "resp_1" := example_row Completed true ]} : DB) !! "resp_1" = None ->
      http_status
        (conflictError
           "Response 'resp_1' has status 'completed' and cannot be cancelled.")
      = 404
      /\ error_type
           (conflictError
              "Response 'resp_1' has status 'completed' and cannot be cancelled.")
         = not_found)
  /\ (forall row,
        ({[ "resp_1" := example_row Completed true ]} : DB) !! "resp_1"
        = Some row ->
        http_status
          (conflictError
             "Response 'resp_1' has status 'completed' and cannot be cancelled.")
        = 409
        /\ error_type
             (conflictError
                "Response 'resp_1' has status 'completed' and cannot be cancelled.")
           = conflict
        /\ (row_store row = false
            \/ cancellableStatuses (row_status row) = false)).
Proof.
  apply (X5_refused_cancel_changes_nothing 1700000009 "resp_1"
           {[ "resp_1" := example_row Completed true ]}
           (conflictError
              "Response 'resp_1' has status 'completed' and cannot be cancelled.")).
  vm_compute. reflexivity.
Defined.

(** X6.  Once the cancel endpoint has cancelled a row, a second call
    answers 409 and a partial-output update writes nothing: the table stays
    as the first call left it. *)
Theorem X6_cancel_is_final_for_guarded_writers (now : Z) (id : string)
    (db : DB) (row : Row) :
  db !! id = Some row ->
  row_store row = true ->
  cancellableStatuses (row_status row) = true ->
  (forall later,
     snd (cancel_POST later id (snd (cancel_POST now id db)))
     = snd (cancel_POST now id db)
     /\ exists e,
          fst (cancel_POST later id (snd (cancel_POST now id db))) = Err e
          /\ http_status e = 409)
  /\ forall outputItems,
       persistPartialOutput id outputItems (snd (cancel_POST now id db))
       = snd (cancel_POST now id db).
Proof.
  intros Hrow Hstore Hstatus.
  assert (Hnew : snd (cancel_POST now id db) !! id
                 = Some (set_cancelled now row)).
  { rewrite cancel_POST_lookup, Hrow, Hstore, Hstatus.
    rewrite bool_decide_eq_true_2 by reflexivity. reflexivity. }
  split.
  - intros later. apply (cancel_POST_terminal later id _ _ Hnew). reflexivity.
  - intros outputItems. apply map_eq. intros k.
    rewrite persistPartialOutput_lookup.
    destruct (snd (cancel_POST now id db) !! k) as [r|] eqn:Hk;
      [|reflexivity].
    cbn. destruct (bool_decide (k = id)) eqn:Hid; [|reflexivity].
    apply bool_decide_eq_true in Hid. subst k.
    rewrite Hnew in Hk. injection Hk as <-. reflexivity.
Qed.

Lemma X6_cancel_is_final_for_guarded_writers_witness :
  (forall later,
     snd (cancel_POST later "resp_1"
            (snd (cancel_POST 1700000009 "resp_1"
                    {[ "resp_1" := example_row InProgress true ]})))
     = snd (cancel_POST 1700000009 "resp_1"
              {[ "resp_1" := example_row InProgress true ]})
     /\ exists e,
          fst (cancel_POST later "resp_1"
                 (snd (cancel_POST 1700000009 "resp_1"
                         {[ "resp_1" := example_row InProgress true ]})))
          = Err e
          /\ http_status e = 409)
  /\ forall outputItems,
       persistPartialOutput "resp_1" outputItems
         (snd (cancel_POST 1700000009 "resp_1"
                 {[ "resp_1" := example_row InProgress true ]}))
       = snd (cancel_POST 1700000009 "resp_1"
                {[ "resp_1" := example_row InProgress true ]}).
Proof.
  apply (X6_cancel_is_final_for_guarded_writers 1700000009 "resp_1"
           {[ "resp_1" := example_row InProgress true ]}
           (example_row InProgress true)).
  - apply lookup_singleton_eq.
  - reflexivity.
  - reflexivity.
Defined.

(** X7.  A partial-output update of a row that is [in_progress] replaces its
    output items and nothing else, in that row only; a [GET] then shows the
    response still [in_progress] with the new output. *)
Theorem X7_checkpoint_writes_output_only (id : string)
    (outputItems : list OutputItem) (db : DB) (row : Row) :
  db !! id = Some row ->
  row_status row = InProgress ->
  persistPartialOutput id outputItems db !! id
  = Some (set_outputItemsJson outputItems row)
  /\ (exists body,
        GET_response id (persistPartialOutput id outputItems db) = Ok body
        /\ resp_status body = InProgress
        /\ resp_output body = outputItems
        /\ resp_usage body = usageJson row)
  /\ forall k, k <> id ->
       persistPartialOutput id outputItems db !! k = db !! k.
Proof.
  intros Hrow Hstatus.
  assert (Hnew : persistPartialOutput id outputItems db !! id
                 = Some (set_outputItemsJson outputItems row)).
  { rewrite persistPartialOutput_lookup, Hrow. cbn.
    rewrite !bool_decide_eq_true_2 by (reflexivity || assumption).
    reflexivity. }
  split; [exact Hnew|]. split.
  - unfold GET_response. rewrite Hnew. eexists. split; [reflexivity|].
    cbn. repeat split. exact Hstatus.
  - intros k Hk. apply persistPartialOutput_other. exact Hk.
Qed.

Lemma X7_checkpoint_writes_output_only_witness :
  persistPartialOutput "resp_1" []
    ({[ "resp_1" := example_row InProgress true ]} : DB) !! "resp_1"
  = Some (set_outputItemsJson [] (example_row InProgress true))
  /\ (exists body,
        GET_response "resp_1"
          (persistPartialOutput "resp_1" []
             ({[ "resp_1" := example_row InProgress true ]} : DB)) = Ok body
        /\ resp_status body = InProgress
        /\ resp_output body = []
        /\ resp_usage body = usageJson (example_row InProgress true))
  /\ forall k, k <> "resp_1" ->
       persistPartialOutput "resp_1" []
         ({[ "resp_1" := example_row InProgress true ]} : DB) !! k
       = ({[ "resp_1" := example_row InProgress true ]} : DB) !! k.
Proof.
  apply (X7_checkpoint_writes_output_only "resp_1" []
           {[ "resp_1" := example_row InProgress true ]}
           (example_row InProgress true)).
  - apply lookup_singleton_eq.
  - reflexivity.
Defined.

(** X8.  A response persisted under a new, non-empty id can be continued:
    a request that names it as [previous_response_id] is assembled from the
    input items persisted with it, then its persisted output items, then
    the new input, whatever status it was persisted with. *)
Theorem X8_persisted_response_can_be_continued (now : Z) (responseId : string)
    (request : ResponsesRequest) (inputItems : list Item) (status : Status)
    (outputItems : list OutputItem) (usage : option Usage) (created : Z)
    (error : option ErrorJson) (details : option IncompleteDetails)
    (db : DB) (followup : ResponsesRequest) :
  responseId <> "" ->
  db !! responseId = None ->
  previous_response_id followup = Some responseId ->
  buildInputItems
    (persistResponse now responseId request inputItems status outputItems
       usage created error details db) followup
  = Ok (inputItems ++ (FromOutput <$> outputItems)
        ++ current_input_items (input followup)).
Proof.
  intros Hne Hfresh Hprev.
  unfold buildInputItems. rewrite Hprev. cbn.
  rewrite (proj2 (String.eqb_neq _ _) Hne). cbn.
  unfold persistResponse. rewrite Hfresh, lookup_insert_eq. cbn.
  destruct (input followup) as [s|items]; cbn.
  - destruct (String.eqb s ""); cbn;
      rewrite ?app_nil_r, <- ?app_assoc; reflexivity.
  - rewrite fold_push_input_item, <- app_assoc. reflexivity.
Qed.

Lemma X8_persisted_response_can_be_continued_witness :
  buildInputItems
    (persistResponse 1700000009 "resp_1" (example_request true)
       [FromInput (InputMessage User (ContentString "Hi"))] Incomplete
       [MessageItem "msg_1" ItemCompleted [ {| part_text := "Hel" |} ]]
       None 1700000005 None (Some Interrupted) ∅)
    (example_followup (Some "resp_1") (InputString "Go on"))
  = Ok ([FromInput (InputMessage User (ContentString "Hi"))]
        ++ (FromOutput <$>
              [MessageItem "msg_1" ItemCompleted [ {| part_text := "Hel" |} ]])
        ++ current_input_items
             (input (example_followup (Some "resp_1") (InputString "Go on")))).
Proof.
  apply (X8_persisted_response_can_be_continued 1700000009 "resp_1"
           (example_request true)
           [FromInput (InputMessage User (ContentString "Hi"))] Incomplete
           [MessageItem "msg_1" ItemCompleted [ {| part_text := "Hel" |} ]]
           None 1700000005 None (Some Interrupted) ∅
           (example_followup (Some "resp_1") (InputString "Go on"))).
  - discriminate.
  - apply lookup_empty.
  - reflexivity.
Defined.

(** X9.  Without a [previous_response_id] (absent or empty) assembly reads
    no row and cannot fail: on every table the result is the current input
    alone, a non-empty string as one user message and an array without its
    item references. *)
Theorem X9_assembly_without_previous_response (db : DB)
    (request : ResponsesRequest) :
  truthy (previous_response_id request) = false ->
  buildInputItems db request = Ok (current_input_items (input request)).
Proof.
  intros Hnone. unfold buildInputItems. rewrite Hnone.
  destruct (input request) as [s|items]; cbn.
  - destruct (String.eqb s ""); reflexivity.
  - rewrite fold_push_input_item. reflexivity.
Qed.

Lemma X9_assembly_without_previous_response_witness :
  buildInputItems {[ "resp_1" := example_row Completed true ]}
    (example_followup None
       (InputArray [ItemReference "msg_1"; FunctionCallOutput "call_1" "42"]))
  = Ok (current_input_items
          (input (example_followup None
                    (InputArray [ItemReference "msg_1";
                                 FunctionCallOutput "call_1" "42"])))).
Proof.
  apply (X9_assembly_without_previous_response
           {[ "resp_1" := example_row Completed true ]}
           (example_followup None
              (InputArray [ItemReference "msg_1";
                           FunctionCallOutput "call_1" "42"]))).
  reflexivity.
Defined.


Lemma update_first_absent (callId : string)
    (f : FunctionCallEntry -> FunctionCallEntry)
    (fcs : list FunctionCallEntry) :
  find_call callId fcs = None -> update_first callId f fcs = fcs.
Proof.
  unfold find_call. induction fcs as [|fc fcs IH]; cbn; [reflexivity|].
  destruct (String.eqb (fc_callId fc) callId); [discriminate|].
  intros H. rewrite IH by exact H. reflexivity.
Qed.

Lemma update_first_last (callId : string)
    (f : FunctionCallEntry -> FunctionCallEntry)
    (fcs : list FunctionCallEntry) (fc : FunctionCallEntry) :
  find_call callId fcs = None ->
  fc_callId fc = callId ->
  update_first callId f (fcs ++ [fc]) = fcs ++ [f fc].
Proof.
  unfold find_call. intros Hnone Hfc.
  induction fcs as [|fc' fcs IH]; cbn in *.
  - rewrite Hfc, String.eqb_refl. reflexivity.
  - destruct (String.eqb (fc_callId fc') callId); [discriminate|].
    rewrite IH by exact Hnone. reflexivity.
Qed.

Lemma find_call_last (callId : string) (fcs : list FunctionCallEntry)
    (fc : FunctionCallEntry) :
  find_call callId fcs = None ->
  fc_callId fc = callId ->
  find_call callId (fcs ++ [fc]) = Some fc.
Proof.
  unfold find_call. intros Hnone Hfc.
  induction fcs as [|fc' fcs IH]; cbn in *.
  - rewrite Hfc, String.eqb_refl. reflexivity.
  - destruct (String.eqb (fc_callId fc') callId); [discriminate|].
    apply IH. exact Hnone.
Qed.

(** ** The streaming path, continued *)

Lemma cancel_POST_absent (now : Z) (id : string) (db : DB) :
  db !! id = None -> snd (cancel_POST now id db) = db.
Proof. intros H. unfold cancel_POST. rewrite H. reflexivity. Qed.

Lemma cancel_POST_status_of_others (now : Z) (id k : string) (db : DB)
    (row : Row) :
  snd (cancel_POST now id db) !! k = Some row ->
  exists old, db !! k = Some old
              /\ usageJson row = usageJson old
              /\ outputItemsJson row = outputItemsJson old.
Proof.
  rewrite cancel_POST_lookup.
  destruct (db !! id) as [r|] eqn:Hr; [|eauto].
  destruct (row_store r && cancellableStatuses (row_status r)
            && bool_decide (k = id)) eqn:Hc; [|eauto].
  apply andb_true_iff in Hc as [_ Hk]. apply bool_decide_eq_true in Hk.
  subst k. intros [= <-]. exists r. repeat split. exact Hr.
Qed.

Lemma persistPartialOutput_usage (responseId k : string)
    (outputItems : list OutputItem) (db : DB) (row : Row) :
  persistPartialOutput responseId outputItems db !! k = Some row ->
  exists old, db !! k = Some old /\ usageJson row = usageJson old.
Proof.
  rewrite persistPartialOutput_lookup.
  destruct (db !! k) as [old|]; [|discriminate]. cbn.
  destruct (_ && _); intros [= <-]; eauto.
Qed.

Section StreamingMore.

Variable uuid : nat -> string.
Variable now : Z.
Variable request : ResponsesRequest.
Variable inputItems : list Item.
Variable created : Z.
Variable db : DB.

Local Abbreviation responseId := ("resp_" +:+ uuid 0).
Local Abbreviation messageId := ("msg_" +:+ uuid 1).
Local Abbreviation state_after trace :=
  (streaming uuid now request inputItems created trace db).
Local Abbreviation final_state run :=
  (streamResponse uuid now request inputItems created run db).
Local Abbreviation step x s :=
  (snd (on_step uuid now request created responseId messageId x s)).
Local Abbreviation finish o s :=
  (snd (on_outcome uuid now request inputItems created responseId messageId
          o s)).

(** What holds when the stream starts and is kept by every turn of the loop
    holds while the adapter yields. *)
Lemma streaming_ind (P : StreamState -> Prop) :
  P (state_after []) ->
  (forall x s, P s -> P (step x s)) ->
  forall trace, P (state_after trace).
Proof.
  intros Hstart Hstep trace.
  induction trace as [|x trace IH] using rev_ind; [exact Hstart|].
  rewrite streaming_snoc. apply Hstep. exact IH.
Qed.

Lemma state_after_nil :
  state_after []
  = set_wire [sseEvent "response.in_progress"
                (ResponseInProgress 1 responseId)]
      (set_sequence 1
         (initial_state (initial_row uuid now request inputItems created db)
            2)).
Proof. reflexivity. Qed.

(** X10.  A stream reads and writes no row but its own: every other row of
    the table is, at the end, as it was at the start. *)
Theorem X10_stream_touches_only_its_row (run : ProviderRun) (id : string) :
  id <> responseId ->
  database (final_state run) !! id = db !! id.
Proof.
  intros Hne. unfold streamResponse.
  assert (Hloop : database (state_after (steps run)) !! id = db !! id).
  { apply (streaming_ind (fun s => database s !! id = db !! id)).
    - cbn. unfold initial_row. destruct (store request); [|reflexivity].
      apply persistResponse_other. exact Hne.
    - intros x s Hs.
      destruct s as [sq at_ ath fcs noi ru tio moi put w db' dr].
      cbn in Hs.
      destruct x as [ev| |t]; [destruct ev|..]; unfold_stream; cbn;
        split_ifs;
        rewrite ?persistPartialOutput_other, ?cancel_POST_other by exact Hne;
        exact Hs. }
  destruct (state_after (steps run))
    as [sq at_ ath fcs noi ru tio moi put w db' dr].
  cbn in Hloop.
  destruct (outcome run) as [|[]]; unfold_stream; cbn; split_ifs;
    rewrite ?persistResponse_other by exact Hne; exact Hloop.
Qed.

(** X11.  With [store = false] a stream writes nothing: no debounce timeout
    is ever armed and, the response id being new, the table at the end is
    the table at the start, also when timeouts expire or the cancel
    endpoint is called meanwhile. *)
Theorem X11_unstored_stream_writes_nothing (run : ProviderRun) :
  store request = false ->
  db !! responseId = None ->
  database (final_state run) = db
  /\ partialUpdateTimer (final_state run) = false
  /\ forall trace, partialUpdateTimer (state_after trace) = false.
Proof.
  intros Hstore Hfresh.
  assert (Hloop : forall trace,
            database (state_after trace) = db
            /\ partialUpdateTimer (state_after trace) = false).
  { apply (streaming_ind (fun s => database s = db
                                   /\ partialUpdateTimer s = false)).
    - cbn. unfold initial_row. rewrite Hstore. split; reflexivity.
    - intros x s [Hdb Htimer].
      destruct s as [sq at_ ath fcs noi ru tio moi put w db' dr].
      cbn in Hdb, Htimer. subst db' put.
      destruct x as [ev| |t]; [destruct ev|..]; unfold_stream;
        rewrite ?Hstore; cbn; split_ifs;
        rewrite ?cancel_POST_absent by exact Hfresh; split; reflexivity. }
  split; [|split]; [| |intros trace; apply Hloop].
  all: unfold streamResponse; destruct (Hloop (steps run)) as [Hdb Htimer];
    destruct (state_after (steps run))
      as [sq at_ ath fcs noi ru tio moi put w db' dr];
    cbn in Hdb, Htimer; subst db' put;
    destruct (outcome run) as [|[]]; unfold_stream; rewrite ?Hstore; cbn;
    split_ifs; reflexivity.
Qed.

(** Every chunk that a turn of the loop sends is a typed event named by its
    type that refers to the response and the message by their ids. *)
Lemma on_step_chunks (x : Step) (s : StreamState) :
  exists ext,
    wire (step x s) = wire s ++ ext
    /\ Forall (fun c => c <> sseDone /\ named_by_type c
                        /\ refers_to responseId messageId c) ext.
Proof.
  destruct s as [sq at_ ath fcs noi ru tio moi put w db' dr].
  destruct x as [ev| |t]; [destruct ev|..]; unfold_stream; cbn; split_ifs.
  all: eexists; split;
    [first [rewrite <- ?app_assoc; reflexivity | symmetry; apply app_nil_r]|].
  all: repeat (constructor;
               [repeat split; first [discriminate | reflexivity | exact I]|]).
  all: constructor.
Qed.

Lemma on_outcome_chunks (o : Outcome) (s : StreamState) :
  exists ext,
    wire (finish o s) = wire s ++ ext ++ [sseDone]
    /\ Forall (fun c => c <> sseDone /\ named_by_type c
                        /\ refers_to responseId messageId c) ext.
Proof.
  destruct s as [sq at_ ath fcs noi ru tio moi put w db' dr].
  destruct o as [|[]]; unfold_stream; cbn; split_ifs.
  all: first
    [ exists []; split; [reflexivity | constructor]
    | eexists [_; _]; split; [rewrite <- ?app_assoc; reflexivity|] ].
  all: repeat (constructor;
               [repeat split; first [discriminate | reflexivity | exact I]|]).
  all: constructor.
Qed.

Lemma streaming_chunks (trace : list Step) :
  Forall (fun c => c <> sseDone /\ named_by_type c
                   /\ refers_to responseId messageId c)
    (wire (state_after trace)).
Proof.
  apply (streaming_ind
           (fun s => Forall (fun c => c <> sseDone /\ named_by_type c
                                      /\ refers_to responseId messageId c)
                       (wire s))).
  - rewrite state_after_nil. cbn. constructor; [|constructor].
    repeat split. discriminate.
  - intros x s Hs. destruct (on_step_chunks x s) as (ext & -> & Hext).
    apply Forall_app. split; assumption.
Qed.

Lemma final_chunks (run : ProviderRun) :
  exists body,
    wire (final_state run) = body ++ [sseDone]
    /\ Forall (fun c => c <> sseDone /\ named_by_type c
                        /\ refers_to responseId messageId c) body.
Proof.
  unfold streamResponse.
  destruct (on_outcome_chunks (outcome run) (state_after (steps run)))
    as (ext & Hwire & Hext).
  exists (wire (state_after (steps run)) ++ ext). split.
  - rewrite Hwire, <- app_assoc. reflexivity.
  - apply Forall_app. split; [apply streaming_chunks | exact Hext].
Qed.

(** X12.  Every stream, however it ends, sends the [DONE] sentinel exactly
    once, as its last chunk. *)
Theorem X12_one_sentinel_sent_last (run : ProviderRun) :
  exists body,
    wire (final_state run) = body ++ [sseDone] /\ sseDone ∉ body.
Proof.
  destruct (final_chunks run) as (body & Hwire & Hbody).
  exists body. split; [exact Hwire|].
  intros Hin. rewrite Forall_forall in Hbody.
  destruct (Hbody _ Hin) as [Hne _]. congruence.
Qed.

(** X13.  The [event:] line of every typed event sent names the [type]
    field of its payload. *)
Theorem X13_event_line_names_the_type (run : ProviderRun) (eventType : string)
    (data : Payload) :
  sseEvent eventType data ∈ wire (final_state run) ->
  eventType = payload_type data.
Proof.
  destruct (final_chunks run) as (body & -> & Hbody).
  intros Hin. apply elem_of_app in Hin as [Hin|Hin].
  - rewrite Forall_forall in Hbody. destruct (Hbody _ Hin) as (_ & H & _).
    exact H.
  - apply list_elem_of_singleton in Hin. discriminate.
Qed.

(** X14.  One response id and one message id run through a stream: the id
    in [response.in_progress], [response.completed] and [response.failed]
    is the id drawn for the response, under which the row is stored when
    [store] is set, and every event about the message item carries the id
    drawn for the message. *)
Theorem X14_ids_are_stable (run : ProviderRun) :
  Forall (refers_to responseId messageId) (wire (final_state run))
  /\ (store request = true -> is_Some (database (final_state run) !! responseId)).
Proof.
  split.
  - destruct (final_chunks run) as (body & -> & Hbody).
    apply Forall_app. split.
    + eapply Forall_impl; [exact Hbody|]. cbn. tauto.
    + constructor; [exact I | constructor].
  - intros Hstore. unfold streamResponse.
    destruct (state_after (steps run))
      as [sq at_ ath fcs noi ru tio moi put w db' dr].
    destruct (outcome run) as [|[]]; unfold_stream; rewrite Hstore; cbn;
      split_ifs.
    all: match goal with
         | |- context [persistResponse ?a ?b ?c ?d ?e ?f ?g ?h ?i ?j ?k] =>
             destruct (persistResponse_written a b c d e f g h i j k)
               as (row & Hrow & _)
         end; rewrite Hrow; eauto.
Qed.

(** X15.  The usage stored with a streamed response adds up: whenever the
    row of a stream with [store] set holds a usage, its [total_tokens] is
    the sum of its [input_tokens] and [output_tokens]. *)
Theorem X15_stored_usage_adds_up (run : ProviderRun) (row : Row) :
  store request = true ->
  database (final_state run) !! responseId = Some row ->
  usage_adds_up (usageJson row).
Proof.
  intros Hstore.
  assert (Hloop :
            usage_adds_up (responseUsage (state_after (steps run)))
            /\ forall r, database (state_after (steps run)) !! responseId
                         = Some r -> usage_adds_up (usageJson r)).
  { apply (streaming_ind
             (fun s => usage_adds_up (responseUsage s)
                       /\ forall r, database s !! responseId = Some r ->
                                    usage_adds_up (usageJson r))).
    - rewrite state_after_nil. cbn. split; [exact I|].
      unfold initial_row. rewrite Hstore. intros r.
      destruct (persistResponse_written now responseId request inputItems
                  InProgress [] None created None None db)
        as (r' & -> & _ & _ & Husage & _).
      intros [= <-]. rewrite Husage. exact I.
    - intros x s [Hu Hrow].
      destruct s as [sq at_ ath fcs noi ru tio moi put w db' dr].
      cbn in Hu, Hrow.
      destruct x as [ev| |t]; [destruct ev|..]; unfold_stream; cbn;
        split_ifs; (split; [first [exact Hu | reflexivity]|]);
        try exact Hrow.
      all: intros r Hr.
      all: first
        [ apply persistPartialOutput_usage in Hr as (old & Hold & ->);
          exact (Hrow _ Hold)
        | apply cancel_POST_status_of_others in Hr as (old & Hold & -> & _);
          exact (Hrow _ Hold) ]. }
  destruct Hloop as [Hu Hrow]. unfold streamResponse.
  destruct (state_after (steps run))
    as [sq at_ ath fcs noi ru tio moi put w db' dr].
  cbn in Hu, Hrow.
  destruct (outcome run) as [|[]]; unfold_stream; rewrite Hstore; cbn;
    split_ifs.
  all: match goal with
       | |- context [persistResponse ?a ?b ?c ?d ?e ?f ?g ?h ?i ?j ?k] =>
           destruct (persistResponse_written a b c d e f g h i j k)
             as (r & -> & _ & _ & Husage & _)
       end; intros [= <-]; rewrite Husage; first [exact Hu | exact I].
Qed.

Lemma persistResponse_completed_at (n : Z) (id : string)
    (req : ResponsesRequest) (items : list Item) (status : Status)
    (outputItems : list OutputItem) (usage : option Usage) (c : Z)
    (error : option ErrorJson) (details : option IncompleteDetails)
    (d : DB) (row : Row) :
  persistResponse n id req items status outputItems usage c error details d
  !! id = Some row ->
  completedAt row = if decide (status = Completed) then Some n else None.
Proof.
  unfold persistResponse.
  destruct (d !! id); rewrite lookup_insert_eq; intros [= <-]; reflexivity.
Qed.

Lemma streaming_app (trace more : list Step) :
  state_after (trace ++ more)
  = snd (for_each (on_step uuid now request created responseId messageId)
           more (state_after trace)).
Proof.
  revert trace. induction more as [|x more IH]; intros trace.
  - rewrite app_nil_r. reflexivity.
  - replace (trace ++ x :: more) with ((trace ++ [x]) ++ more)
      by (rewrite <- app_assoc; reflexivity).
    rewrite IH, streaming_snoc. cbn. unfold bind.
    destruct (on_step _ _ _ _ _ _ _ _) as [[] s1]. reflexivity.
Qed.

(** Until [message_done] arrives no usage is known and no
    [response.completed] has been sent. *)
Lemma before_message_done (trace : list Step) :
  existsb is_message_done trace = false ->
  responseUsage (state_after trace) = None
  /\ Forall (fun c => is_response_completed c = false)
       (wire (state_after trace)).
Proof.
  induction trace as [|x trace IH] using rev_ind.
  - intros _. rewrite state_after_nil. cbn. split; [reflexivity|].
    repeat constructor.
  - rewrite existsb_app. intros H. apply orb_false_iff in H as [Htrace Hx].
    destruct (IH Htrace) as [Hu Hw]. rewrite streaming_snoc.
    destruct (state_after trace)
      as [sq at_ ath fcs noi ru tio moi put w db' dr].
    cbn in Hu, Hw. subst ru.
    destruct x as [ev| |t]; [destruct ev|..]; try discriminate Hx;
      unfold_stream; cbn; split_ifs; (split; [reflexivity|]);
      rewrite ?Forall_app; repeat split; try exact Hw;
      repeat constructor.
Qed.

(** X16.  When the adapter's stream returns and [store] is set, the row is
    written with status [completed], [completed_at = now], the output items
    collected and the usage reported by [message_done], after the sentinel
    has been sent.  This is so even if the adapter never yielded
    [message_done]: the row is then [completed] without usage although no
    [response.completed] event was sent. *)
Theorem X16_returned_stream_is_stored_completed (trace : list Step) :
  store request = true ->
  (exists row,
     database (final_state {| steps := trace; outcome := Returns |})
     !! responseId = Some row
     /\ row_status row = Completed
     /\ completedAt row = Some now
     /\ outputItemsJson row
        = Some (fst (collectOutputItems uuid messageId (state_after trace)))
     /\ usageJson row = responseUsage (state_after trace)
     /\ errorJson row = None
     /\ incompleteDetailsJson row = None)
  /\ wire (final_state {| steps := trace; outcome := Returns |})
     = wire (state_after trace) ++ [sseDone]
  /\ (existsb is_message_done trace = false ->
      responseUsage (state_after trace) = None
      /\ Forall (fun c => is_response_completed c = false)
           (wire (final_state {| steps := trace; outcome := Returns |}))).
Proof.
  intros Hstore.
  assert (Hwire : wire (final_state {| steps := trace; outcome := Returns |})
                  = wire (state_after trace) ++ [sseDone]).
  { unfold streamResponse. cbn [steps outcome].
    destruct (state_after trace)
      as [sq at_ ath fcs noi ru tio moi put w db' dr].
    unfold_stream. rewrite Hstore. cbn. split_ifs; reflexivity. }
  split; [|split; [exact Hwire|]].
  - unfold streamResponse. cbn [steps outcome].
    destruct (state_after trace)
      as [sq at_ ath fcs noi ru tio moi put w db' dr].
    unfold_stream. rewrite Hstore. cbn. split_ifs.
    all: match goal with
         | |- context [persistResponse ?a ?b ?c ?d ?e ?f ?g ?h ?i ?j ?k] =>
             destruct (persistResponse_written a b c d e f g h i j k)
               as (row & Hrow & Hstatus & Hout & Husage & Herr & Hdetails);
             pose proof (persistResponse_completed_at a b c d e f g h i j k
                           row Hrow) as Hat
         end; exists row; repeat split; assumption.
  - intros Hnone. destruct (before_message_done trace Hnone) as [Hu Hw].
    split; [exact Hu|]. rewrite Hwire. apply Forall_app. split; [exact Hw|].
    repeat constructor.
Qed.

(** X17.  When the adapter's stream throws an error that is not an abort,
    the wire receives an [error] event with the error's message (or
    "Internal server error" for a thrown value that is no [Error]), then
    [response.failed] with the next sequence number, whose response object
    has status [failed], the error, and the output collected so far, then
    the sentinel.  With [store] set the row is written with status
    [failed], the error, no usage and an empty output. *)
Theorem X17_failed_stream (trace : list Step) (err : Thrown) :
  isAbort err = false ->
  (exists response,
     wire (final_state {| steps := trace; outcome := Throws err |})
     = wire (state_after trace)
       ++ [sseEvent "error"
             (ErrorPayload server_error
                match err with
                | OtherError message => message
                | _ => "Internal server error"
                end None);
           sseEvent "response.failed"
             (ResponseFailed (sequence (state_after trace) + 1) response);
           sseDone]
     /\ resp_id response = responseId
     /\ resp_status response = Failed
     /\ resp_error response
        = Some (ServerError
                  match err with
                  | OtherError message => message
                  | _ => "Internal server error"
                  end)
     /\ resp_output response
        = fst (collectOutputItems uuid messageId (state_after trace)))
  /\ (store request = true ->
      exists row,
        database (final_state {| steps := trace; outcome := Throws err |})
        !! responseId = Some row
        /\ row_status row = Failed
        /\ outputItemsJson row = Some []
        /\ usageJson row = None
        /\ errorJson row
           = Some (ServerError
                     match err with
                     | OtherError message => message
                     | _ => "Internal server error"
                     end)).
Proof.
  intros Habort. unfold streamResponse. cbn [steps outcome].
  destruct (state_after trace)
    as [sq at_ ath fcs noi ru tio moi put w db' dr].
  destruct err as [|message|]; try discriminate Habort.
  all: split.
  all: try (intros Hstore); unfold_stream; rewrite ?Hstore; cbn; split_ifs.
  all: try (eexists; split; [rewrite <- ?app_assoc; reflexivity|];
            repeat split).
  all: match goal with
       | |- context [persistResponse ?a ?b ?c ?d ?e ?f ?g ?h ?i ?j ?k] =>
           destruct (persistResponse_written a b c d e f g h i j k)
             as (row & Hrow & Hstatus & Hout & Husage & Herr & Hdetails)
       end; exists row; repeat split; assumption.
Qed.

#[local] Arguments find_call : simpl never.

(** X18.  A [tool_call_delta] or [tool_call_done] for a call id that no
    [tool_call_start] has announced is ignored: nothing is sent, no sequence
    number is used and the state stays as it is. *)
Theorem X18_events_of_unknown_calls_are_ignored (trace : list Step)
    (callId text : string) (outputIndex : Z) :
  find_call callId (functionCalls (state_after trace)) = None ->
  state_after (trace ++ [Yield (tool_call_delta callId text)])
  = state_after trace
  /\ state_after (trace ++ [Yield (tool_call_done callId text outputIndex)])
     = state_after trace.
Proof.
  intros Hnone. rewrite !streaming_snoc.
  destruct (state_after trace)
    as [sq at_ ath fcs noi ru tio moi put w db' dr].
  cbn in Hnone. split; unfold_stream; cbn.
  - rewrite update_first_absent by exact Hnone. reflexivity.
  - rewrite Hnone. reflexivity.
Qed.

(** The deltas of a call whose entry is the last of [functionCalls] and the
    only one with its id are appended to that entry's arguments; nothing
    else changes. *)
Lemma deltas_accumulate (deltas : list string) (callId : string)
    (fc : FunctionCallEntry) (sq : Z) (at_ ath : string)
    (fcs : list FunctionCallEntry) (noi : Z) (ru : option Usage) (tio : bool)
    (moi : Z) (put : bool) (w : list Sse) (db' : DB) (dr : nat) :
  find_call callId fcs = None ->
  fc_callId fc = callId ->
  snd (for_each (on_step uuid now request created responseId messageId)
         (delta_steps callId deltas)
         (mkState sq at_ ath (fcs ++ [fc]) noi ru tio moi put w db' dr))
  = mkState sq at_ ath
      (fcs ++ [ {| fc_id := fc_id fc; fc_callId := fc_callId fc;
                   fc_name := fc_name fc;
                   fc_arguments := fc_arguments fc +:+ concat_strings deltas;
                   fc_outputIndex := fc_outputIndex fc;
                   fc_done := fc_done fc |} ])
      noi ru tio moi put w db' dr.
Proof.
  intros Hnone Hfc. revert fc Hfc.
  induction deltas as [|d deltas IH]; intros fc Hfc.
  - cbn. rewrite append_empty_r. destruct fc; reflexivity.
  - cbn. rewrite (update_first_last callId _ fcs fc Hnone Hfc).
    fold (delta_steps callId deltas).
    rewrite (IH (append_arguments d fc)) by exact Hfc.
    cbn. rewrite append_assoc. reflexivity.
Qed.

(** X19.  A tool call with a new call id, from [tool_call_start] through its
    deltas to [tool_call_done]: the start announces the item under the next
    free output index with empty arguments, the deltas are accumulated and
    not sent, and [tool_call_done] closes the item under the same index and
    item id with the arguments it carries, which replace the accumulated
    ones. *)
Theorem X19_tool_call_from_start_to_done (trace : list Step)
    (callId name arguments : string) (deltas : list string)
    (startIndex doneIndex : Z) :
  find_call callId (functionCalls (state_after trace)) = None ->
  (wire (state_after
           (trace ++ Yield (tool_call_start callId name startIndex)
                  :: delta_steps callId deltas))
   = wire (state_after trace)
     ++ [sseEvent "response.output_item.added"
           (OutputItemAdded (sequence (state_after trace) + 1)
              (nextOutputIndex (state_after trace))
              (FunctionCallItem ("fc_" +:+ uuid (drawn (state_after trace)))
                 callId ItemInProgress name ""))]
   /\ functionCalls
        (state_after
           (trace ++ Yield (tool_call_start callId name startIndex)
                  :: delta_steps callId deltas))
      = functionCalls (state_after trace)
        ++ [ {| fc_id := "fc_" +:+ uuid (drawn (state_after trace));
                fc_callId := callId;
                fc_name := name;
                fc_arguments := concat_strings deltas;
                fc_outputIndex := nextOutputIndex (state_after trace);
                fc_done := false |} ])
  /\ wire (state_after
             (trace ++ Yield (tool_call_start callId name startIndex)
                    :: delta_steps callId deltas
                    ++ [Yield (tool_call_done callId arguments doneIndex)]))
     = wire (state_after trace)
       ++ [sseEvent "response.output_item.added"
             (OutputItemAdded (sequence (state_after trace) + 1)
                (nextOutputIndex (state_after trace))
                (FunctionCallItem ("fc_" +:+ uuid (drawn (state_after trace)))
                   callId ItemInProgress name ""));
           sseEvent "response.output_item.done"
             (OutputItemDone (sequence (state_after trace) + 2)
                (nextOutputIndex (state_after trace))
                (FunctionCallItem ("fc_" +:+ uuid (drawn (state_after trace)))
                   callId ItemCompleted name arguments))]
  /\ functionCalls
       (state_after
          (trace ++ Yield (tool_call_start callId name startIndex)
                 :: delta_steps callId deltas
                 ++ [Yield (tool_call_done callId arguments doneIndex)]))
     = functionCalls (state_after trace)
       ++ [ {| fc_id := "fc_" +:+ uuid (drawn (state_after trace));
               fc_callId := callId;
               fc_name := name;
               fc_arguments := arguments;
               fc_outputIndex := nextOutputIndex (state_after trace);
               fc_done := true |} ].
Proof.
  intros Hnone.
  assert (Hmid :
    state_after (trace ++ Yield (tool_call_start callId name startIndex)
                       :: delta_steps callId deltas)
    = mkState (sequence (state_after trace) + 1)
        (accumulatedText (state_after trace))
        (accumulatedThinking (state_after trace))
        (functionCalls (state_after trace)
         ++ [ {| fc_id := "fc_" +:+ uuid (drawn (state_after trace));
                 fc_callId := callId;
                 fc_name := name;
                 fc_arguments := concat_strings deltas;
                 fc_outputIndex := nextOutputIndex (state_after trace);
                 fc_done := false |} ])
        (nextOutputIndex (state_after trace) + 1)
        (responseUsage (state_after trace))
        (textItemOpened (state_after trace))
        (messageOutputIndex (state_after trace))
        (partialUpdateTimer (state_after trace))
        (wire (state_after trace)
         ++ [sseEvent "response.output_item.added"
               (OutputItemAdded (sequence (state_after trace) + 1)
                  (nextOutputIndex (state_after trace))
                  (FunctionCallItem
                     ("fc_" +:+ uuid (drawn (state_after trace)))
                     callId ItemInProgress name ""))])
        (database (state_after trace))
        (S (drawn (state_after trace)))).
  { replace (trace ++ Yield (tool_call_start callId name startIndex)
                   :: delta_steps callId deltas)
      with ((trace ++ [Yield (tool_call_start callId name startIndex)])
            ++ delta_steps callId deltas)
      by (rewrite <- app_assoc; reflexivity).
    rewrite streaming_app, streaming_snoc.
    destruct (state_after trace)
      as [sq at_ ath fcs noi ru tio moi put w db' dr].
    cbn in Hnone. unfold_stream. cbn.
    fold (on_step uuid now request created responseId messageId).
    rewrite deltas_accumulate; [reflexivity | exact Hnone | reflexivity]. }
  split; [rewrite Hmid; split; reflexivity|].
  replace (trace ++ Yield (tool_call_start callId name startIndex)
                 :: delta_steps callId deltas
                 ++ [Yield (tool_call_done callId arguments doneIndex)])
    with ((trace ++ Yield (tool_call_start callId name startIndex)
                 :: delta_steps callId deltas)
          ++ [Yield (tool_call_done callId arguments doneIndex)])
    by (rewrite <- app_assoc; reflexivity).
  rewrite streaming_snoc, Hmid.
  destruct (state_after trace)
    as [sq at_ ath fcs noi ru tio moi put w db' dr].
  cbn in Hnone. unfold_stream. cbn.
  rewrite find_call_last; [|exact Hnone|reflexivity]. cbn.
  rewrite update_first_last; [|exact Hnone|reflexivity]. cbn.
  rewrite <- app_assoc. cbn.
  replace (sq + 1 + 1) with (sq + 2) by lia. split; reflexivity.
Qed.

(** X20.  The debounced checkpoint is silent and harmless to statuses: when
    the timeout expires nothing is sent and no sequence number is used, the
    timeout is disarmed, and no row changes its status (only the output of
    the stream's own row, if it is still [in_progress]).  Whatever the
    outcome of the stream, no timeout is left armed at its end. *)
Theorem X20_checkpoints_are_silent (trace : list Step) (run : ProviderRun) :
  wire (state_after (trace ++ [TimerFires])) = wire (state_after trace)
  /\ sequence (state_after (trace ++ [TimerFires]))
     = sequence (state_after trace)
  /\ partialUpdateTimer (state_after (trace ++ [TimerFires])) = false
  /\ (forall id,
        row_status <$> database (state_after (trace ++ [TimerFires])) !! id
        = row_status <$> database (state_after trace) !! id)
  /\ (forall id, id <> responseId ->
        database (state_after (trace ++ [TimerFires])) !! id
        = database (state_after trace) !! id)
  /\ partialUpdateTimer (final_state run) = false.
Proof.
  rewrite streaming_snoc. unfold streamResponse.
  split; [|split; [|split; [|split; [|split]]]].
  - destruct (state_after trace)
      as [sq at_ ath fcs noi ru tio moi put w db' dr].
    unfold_stream; cbn; split_ifs; reflexivity.
  - destruct (state_after trace)
      as [sq at_ ath fcs noi ru tio moi put w db' dr].
    unfold_stream; cbn; split_ifs; reflexivity.
  - destruct (state_after trace)
      as [sq at_ ath fcs noi ru tio moi put w db' dr].
    unfold_stream; cbn; split_ifs; reflexivity.
  - intros id.
    destruct (state_after trace)
      as [sq at_ ath fcs noi ru tio moi put w db' dr].
    unfold_stream; cbn; split_ifs;
      rewrite ?persistPartialOutput_status; reflexivity.
  - intros id Hid.
    destruct (state_after trace)
      as [sq at_ ath fcs noi ru tio moi put w db' dr].
    unfold_stream; cbn; split_ifs;
      rewrite ?persistPartialOutput_other by exact Hid; reflexivity.
  - destruct (state_after (steps run))
      as [sq at_ ath fcs noi ru tio moi put w db' dr].
    destruct (outcome run) as [|[]]; unfold_stream; cbn; split_ifs;
      reflexivity.
Qed.

(** One turn of the loop on two states that differ in the table only leaves
    two states that differ in the table only; a call of the cancel endpoint
    changes the table only. *)
Lemma step_ignores_table (x : Step) (s1 s2 : StreamState) :
  set_database ∅ s1 = set_database ∅ s2 ->
  set_database ∅ (step x s1)
  = set_database ∅ (if is_cancel_request x then s1 else step x s2).
Proof.
  destruct s1 as [sq at_ ath fcs noi ru tio moi put w db1 dr].
  destruct s2 as [sq2 at2 ath2 fcs2 noi2 ru2 tio2 moi2 put2 w2 db2 dr2].
  cbn. intros [= <- <- <- <- <- <- <- <- <- <- <-].
  destruct x as [ev| |t]; [destruct ev|..]; unfold_stream; cbn; split_ifs;
    reflexivity.
Qed.

Lemma for_each_cons {A} (f : A -> M unit) (x : A) (l : list A)
    (s : StreamState) :
  snd (for_each f (x :: l) s) = snd (for_each f l (snd (f x s))).
Proof. cbn. unfold bind. destruct (f x s) as [[] s']. reflexivity. Qed.

Lemma steps_ignore_cancels (trace : list Step) (s1 s2 : StreamState) :
  set_database ∅ s1 = set_database ∅ s2 ->
  set_database ∅
    (snd (for_each (on_step uuid now request created responseId messageId)
            trace s1))
  = set_database ∅
      (snd (for_each (on_step uuid now request created responseId messageId)
              (List.filter (fun x => negb (is_cancel_request x)) trace) s2)).
Proof.
  revert s1 s2. induction trace as [|x trace IH]; intros s1 s2 Hsame.
  - exact Hsame.
  - rewrite for_each_cons. cbn [List.filter].
    pose proof (step_ignores_table x s1 s2 Hsame) as Hstep.
    destruct (is_cancel_request x) eqn:Hx; cbn [negb].
    + apply IH. rewrite Hstep. exact Hsame.
    + rewrite for_each_cons. apply IH. exact Hstep.
Qed.

Lemma outcome_ignores_table (o : Outcome) (s1 s2 : StreamState) :
  set_database ∅ s1 = set_database ∅ s2 ->
  wire (finish o s1) = wire (finish o s2).
Proof.
  destruct s1 as [sq at_ ath fcs noi ru tio moi put w db1 dr].
  destruct s2 as [sq2 at2 ath2 fcs2 noi2 ru2 tio2 moi2 put2 w2 db2 dr2].
  cbn. intros [= <- <- <- <- <- <- <- <- <- <- <-].
  destruct o as [|[]]; unfold_stream; cbn; split_ifs; reflexivity.
Qed.

(** X21.  Calls of the cancel endpoint are invisible to the stream: what is
    sent is what would have been sent had the calls not been made. *)
Theorem X21_cancel_does_not_reach_the_wire (run : ProviderRun) :
  wire (final_state run)
  = wire (final_state
            {| steps := List.filter (fun x => negb (is_cancel_request x))
                          (steps run);
               outcome := outcome run |}).
Proof.
  unfold streamResponse. cbn [steps outcome].
  apply outcome_ignores_table.
  unfold streaming, consume, bind.
  destruct (emit_in_progress responseId _) as [[] s0].
  apply steps_ignore_cancels. reflexivity.
Qed.

End StreamingMore.

Lemma X10_stream_touches_only_its_row_witness :
  database
    (streamResponse hex 1700000009 (example_request true) [] 1700000000
       finished_after_cancel {[ "resp_1" := example_row InProgress true ]})
  !! "resp_1"
  = ({[ "resp_1" := example_row InProgress true ]} : DB) !! "resp_1".
Proof.
  apply (X10_stream_touches_only_its_row hex 1700000009
           (example_request true) [] 1700000000
           {[ "resp_1" := example_row InProgress true ]}
           finished_after_cancel "resp_1").
  discriminate.
Defined.

Lemma X11_unstored_stream_writes_nothing_witness :
  database
    (streamResponse hex 1700000009 (example_request false) [] 1700000000
       finished_after_cancel {[ "resp_1" := example_row InProgress true ]})
  = {[ "resp_1" := example_row InProgress true ]}
  /\ partialUpdateTimer
       (streamResponse hex 1700000009 (example_request false) [] 1700000000
          finished_after_cancel {[ "resp_1" := example_row InProgress true ]})
     = false
  /\ forall trace,
       partialUpdateTimer
         (streaming hex 1700000009 (example_request false) [] 1700000000
            trace {[ "resp_1" := example_row InProgress true ]})
       = false.
Proof.
  apply (X11_unstored_stream_writes_nothing hex 1700000009
           (example_request false) [] 1700000000
           {[ "resp_1" := example_row InProgress true ]}
           finished_after_cancel).
  - reflexivity.
  - vm_compute. reflexivity.
Defined.

Lemma X13_event_line_names_the_type_witness :
  "response.in_progress" = payload_type (ResponseInProgress 1 "resp_0").
Proof.
  apply (X13_event_line_names_the_type hex 1700000009 (example_request true)
           [] 1700000000 ∅ aborted_mid_text "response.in_progress"
           (ResponseInProgress 1 "resp_0")).
  apply list_elem_of_here.
Defined.

Lemma X15_stored_usage_adds_up_witness :
  usage_adds_up
    (usageJson
       (default (example_row Completed true)
          (database
             (streamResponse hex 1700000009 (example_request true) []
                1700000000 finished_after_cancel ∅) !! ("resp_" +:+ hex 0)))).
Proof.
  apply (X15_stored_usage_adds_up hex 1700000009 (example_request true) []
           1700000000 ∅ finished_after_cancel).
  - reflexivity.
  - vm_compute. reflexivity.
Defined.

Lemma X16_returned_stream_is_stored_completed_witness :
  wire (streamResponse hex 1700000009 (example_request true) [] 1700000000
          {| steps := steps pure_tool_call; outcome := Returns |} ∅)
  = wire (streaming hex 1700000009 (example_request true) [] 1700000000
            (steps pure_tool_call) ∅)
    ++ [sseDone].
Proof.
  apply (proj1 (proj2
    (X16_returned_stream_is_stored_completed hex 1700000009
       (example_request true) [] 1700000000 ∅ (steps pure_tool_call)
       eq_refl))).
Defined.

Lemma X17_failed_stream_witness :
  exists row,
    database
      (streamResponse hex 1700000009 (example_request true) [] 1700000000
         {| steps := steps failed_mid_text;
            outcome := Throws (OtherError "upstream unavailable") |} ∅)
    !! ("resp_" +:+ hex 0) = Some row
    /\ row_status row = Failed
    /\ outputItemsJson row = Some []
    /\ usageJson row = None
    /\ errorJson row = Some (ServerError "upstream unavailable").
Proof.
  apply (proj2
    (X17_failed_stream hex 1700000009 (example_request true) [] 1700000000 ∅
       (steps failed_mid_text) (OtherError "upstream unavailable") eq_refl)
    eq_refl).
Defined.

Lemma X18_events_of_unknown_calls_are_ignored_witness :
  streaming hex 1700000009 (example_request true) [] 1700000000
    ([Yield (text_delta "Hello")] ++ [Yield (tool_call_delta "call_x" "{")]) ∅
  = streaming hex 1700000009 (example_request true) [] 1700000000
      [Yield (text_delta "Hello")] ∅
  /\ streaming hex 1700000009 (example_request true) [] 1700000000
       ([Yield (text_delta "Hello")]
        ++ [Yield (tool_call_done "call_x" "{" 0)]) ∅
     = streaming hex 1700000009 (example_request true) [] 1700000000
         [Yield (text_delta "Hello")] ∅.
Proof.
  apply (X18_events_of_unknown_calls_are_ignored hex 1700000009
           (example_request true) [] 1700000000 ∅
           [Yield (text_delta "Hello")] "call_x" "{" 0).
  reflexivity.
Defined.

Lemma X19_tool_call_from_start_to_done_witness :
  wire (streaming hex 1700000009 (example_request false) [] 1700000000
          ([Yield (text_delta "Hello")]
           ++ Yield (tool_call_start "call_abc" "get_weather" 7)
           :: delta_steps "call_abc" ["{"; "}"]
           ++ [Yield (tool_call_done "call_abc" "{}" 9)]) ∅)
  = wire (streaming hex 1700000009 (example_request false) [] 1700000000
            [Yield (text_delta "Hello")] ∅)
    ++ [sseEvent "response.output_item.added"
          (OutputItemAdded
             (sequence
                (streaming hex 1700000009 (example_request false) []
                   1700000000 [Yield (text_delta "Hello")] ∅) + 1)
             (nextOutputIndex
                (streaming hex 1700000009 (example_request false) []
                   1700000000 [Yield (text_delta "Hello")] ∅))
             (FunctionCallItem
                ("fc_" +:+ hex
                   (drawn
                      (streaming hex 1700000009 (example_request false) []
                         1700000000 [Yield (text_delta "Hello")] ∅)))
                "call_abc" ItemInProgress "get_weather" ""));
        sseEvent "response.output_item.done"
          (OutputItemDone
             (sequence
                (streaming hex 1700000009 (example_request false) []
                   1700000000 [Yield (text_delta "Hello")] ∅) + 2)
             (nextOutputIndex
                (streaming hex 1700000009 (example_request false) []
                   1700000000 [Yield (text_delta "Hello")] ∅))
             (FunctionCallItem
                ("fc_" +:+ hex
                   (drawn
                      (streaming hex 1700000009 (example_request false) []
                         1700000000 [Yield (text_delta "Hello")] ∅)))
                "call_abc" ItemCompleted "get_weather" "{}"))].
Proof.
  apply (proj1 (proj2
    (X19_tool_call_from_start_to_done hex 1700000009 (example_request false)
       [] 1700000000 ∅ [Yield (text_delta "Hello")] "call_abc" "get_weather"
       "{}" ["{"; "}"] 7 9 eq_refl))).
Defined.

(** ** The handlers that do not stream *)

Section HandlersProperties.

Variable uuid : nat -> string.
Variable now : Z.

Ltac unfold_handlers :=
  unfold nonStreamResponse, backgroundResponse, background_task,
    push_result, push_background_result, createFunctionCallItem,
    createResponseObject, createTextMessageItem, newId, modify, get, bind,
    ret.

Lemma fold_items_cons {A B} (f : B -> A -> M B) (x : A) (l : list A)
    (acc : B) (s : StreamState) :
  fold_items f (x :: l) acc s
  = fold_items f l (fst (f acc x s)) (snd (f acc x s)).
Proof. cbn. unfold bind. destruct (f acc x s). reflexivity. Qed.

(** What the loop of [nonStreamResponse] makes of the provider's messages,
    from any list of items already built. *)
Lemma fold_push_result (msgs : list ProviderOutputItem)
    (acc : list OutputItem) (s : StreamState) :
  reasoning_first acc ->
  reasoning_first (fst (fold_items (push_result uuid) msgs acc s))
  /\ reasoning_texts (fst (fold_items (push_result uuid) msgs acc s))
     = rev (thinking_texts msgs) ++ reasoning_texts acc
  /\ item_bodies (fst (fold_items (push_result uuid) msgs acc s))
     = item_bodies acc ++ result_bodies msgs
  /\ database (snd (fold_items (push_result uuid) msgs acc s)) = database s.
Proof.
  revert acc s. induction msgs as [|m msgs IH]; intros acc s Hacc.
  - cbn. rewrite app_nil_r. auto.
  - rewrite fold_items_cons.
    destruct (push_result uuid acc m s) as [acc' s'] eqn:Hpush.
    cbn [fst snd].
    assert (Hstep :
              reasoning_first acc'
              /\ reasoning_texts acc'
                 = rev (thinking_texts [m]) ++ reasoning_texts acc
              /\ item_bodies acc' = item_bodies acc ++ result_bodies [m]
              /\ database s' = database s).
    { destruct s as [sq at_ ath fcs noi ru tio moi put w db dr].
      unfold reasoning_first, reasoning_texts, item_bodies in *.
      destruct m; unfold_handlers; cbn in Hpush;
        injection Hpush as <- <-; cbn;
        rewrite ?List.filter_app, ?omap_app, ?app_nil_r; cbn;
        rewrite ?app_nil_r; repeat split; try reflexivity.
      - rewrite Hacc at 1. rewrite <- app_assoc. reflexivity.
      - rewrite Hacc at 1. rewrite <- app_assoc. reflexivity.
      - exact Hacc.
      - rewrite Hacc at 1. reflexivity. }
    destruct Hstep as (Hfirst & Htexts & Hbodies & Hdb).
    destruct (IH acc' s' Hfirst) as (H1 & H2 & H3 & H4).
    split; [exact H1|]. split; [|split].
    + rewrite H2, Htexts. unfold thinking_texts. cbn [omap].
      destruct m; cbn; rewrite ?app_nil_r; try reflexivity.
      rewrite <- app_assoc. reflexivity.
    + rewrite H3, Hbodies. unfold result_bodies. cbn [omap].
      destruct m; cbn; rewrite ?app_nil_r, <- ?app_assoc; reflexivity.
    + rewrite H4. exact Hdb.
Qed.


Lemma fold_push_background_result (msgs : list ProviderOutputItem)
    (acc : list OutputItem) (s : StreamState) :
  reasoning_texts
    (fst (fold_items (push_background_result uuid) msgs acc s))
  = reasoning_texts acc
  /\ item_bodies (fst (fold_items (push_background_result uuid) msgs acc s))
     = item_bodies acc ++ result_bodies msgs
  /\ database (snd (fold_items (push_background_result uuid) msgs acc s))
     = database s.
Proof.
  revert acc s. induction msgs as [|m msgs IH]; intros acc s.
  - cbn. rewrite app_nil_r. auto.
  - rewrite fold_items_cons.
    destruct (IH (fst (push_background_result uuid acc m s))
                (snd (push_background_result uuid acc m s)))
      as (H1 & H2 & H3).
    rewrite H1, H2, H3.
    destruct s as [sq at_ ath fcs noi ru tio moi put w db dr].
    unfold reasoning_texts, item_bodies, result_bodies.
    destruct m; unfold_handlers; cbn;
      rewrite ?omap_app, ?app_nil_r, <- ?app_assoc; repeat split.
Qed.

Section OneRequest.

Variable request : ResponsesRequest.
Variable inputItems : list Item.
Variable created : Z.

(** [nonStreamResponse] on a successful call, spelled out. *)
Lemma nonStreamResponse_resolves (result : ProviderFinalResult)
    (s : StreamState) :
  nonStreamResponse uuid now request inputItems created (ChatResolves result)
    s
  = (Replied
       (response_of_args
          ("resp_" +:+ uuid
             (drawn (snd (fold_items (push_result uuid)
                            (result_messages result) [] s))))
          now
          (response_args request
             (fst (fold_items (push_result uuid) (result_messages result)
                     [] s))
             (Some (usage_of (result_usage result))) Completed
             (background request))),
     if store request then
       set_database
         (persistResponse now
            ("resp_" +:+ uuid
               (drawn (snd (fold_items (push_result uuid)
                              (result_messages result) [] s))))
            request inputItems Completed
            (fst (fold_items (push_result uuid) (result_messages result)
                    [] s))
            (Some (usage_of (result_usage result))) created None None
            (database (snd (fold_items (push_result uuid)
                              (result_messages result) [] s))))
         (set_drawn
            (S (drawn (snd (fold_items (push_result uuid)
                              (result_messages result) [] s))))
            (snd (fold_items (push_result uuid) (result_messages result)
                    [] s)))
     else
       set_drawn
         (S (drawn (snd (fold_items (push_result uuid)
                           (result_messages result) [] s))))
         (snd (fold_items (push_result uuid) (result_messages result)
                 [] s))).
Proof.
  unfold nonStreamResponse, bind.
  destruct (fold_items (push_result uuid) (result_messages result) [] s)
    as [out s1].
  destruct s1 as [sq at_ ath fcs noi ru tio moi put w db1 dr].
  unfold_handlers. cbn. destruct (store request); reflexivity.
Qed.

(** The deferred task on a successful call, spelled out. *)
Lemma background_task_resolves (responseId : string)
    (result : ProviderFinalResult) (s : StreamState) :
  database
    (snd (background_task uuid now request inputItems created responseId
            (ChatResolves result) s))
  = persistResponse now responseId request inputItems Completed
      (fst (fold_items (push_background_result uuid)
              (result_messages result) [] s))
      (Some (usage_of (result_usage result))) created None None
      (database (snd (fold_items (push_background_result uuid)
                        (result_messages result) [] s))).
Proof.
  unfold background_task, bind.
  destruct (fold_items (push_background_result uuid)
              (result_messages result) [] s) as [out s1].
  destruct s1 as [sq at_ ath fcs noi ru tio moi put w db1 dr].
  reflexivity.
Qed.

(** X22.  [nonStreamResponse] answers with status [completed] and an output
    in which the reasoning items come first, the last thinking block of the
    provider's result foremost, followed by one message per text part and
    one function call per tool call in the provider's order, with the call
    ids, names and arguments unchanged; image parts are left out. *)
Theorem X22_one_shot_output_order (result : ProviderFinalResult) (db : DB)
    (n : nat) :
  exists body,
    fst (nonStreamResponse uuid now request inputItems created
           (ChatResolves result) (initial_state db n)) = Replied body
    /\ resp_status body = Completed
    /\ reasoning_first (resp_output body)
    /\ reasoning_texts (resp_output body)
       = rev (thinking_texts (result_messages result))
    /\ item_bodies (resp_output body)
       = result_bodies (result_messages result).
Proof.
  rewrite nonStreamResponse_resolves. cbn [fst].
  destruct (fold_push_result (result_messages result) [] (initial_state db n)
              eq_refl) as (Hfirst & Htexts & Hbodies & _).
  rewrite app_nil_r in Htexts.
  eexists. split; [reflexivity|]. cbn. repeat split; assumption.
Qed.

(** X23.  With [store] set, what [nonStreamResponse] answers is what a
    [GET] on the id it answers with returns afterwards: status [completed],
    the same output and the same usage, whose totals add up; no other row
    is touched.  With [store] unset, or when the adapter's call fails,
    nothing is written; in the latter case the handler throws. *)
Theorem X23_one_shot_response_is_stored_as_answered (chat : ChatOutcome)
    (db : DB) (n : nat) :
  (forall result, chat = ChatResolves result -> store request = true ->
   exists body got,
     fst (nonStreamResponse uuid now request inputItems created chat
            (initial_state db n)) = Replied body
     /\ GET_response (resp_id body)
          (database
             (snd (nonStreamResponse uuid now request inputItems created chat
                     (initial_state db n)))) = Ok got
     /\ resp_status got = Completed
     /\ resp_output got = resp_output body
     /\ resp_usage got = resp_usage body
     /\ usage_adds_up (resp_usage body)
     /\ forall k, k <> resp_id body ->
          database
            (snd (nonStreamResponse uuid now request inputItems created chat
                    (initial_state db n))) !! k = db !! k)
  /\ (store request = false ->
      database
        (snd (nonStreamResponse uuid now request inputItems created chat
                (initial_state db n))) = db)
  /\ ((forall result, chat <> ChatResolves result) ->
      nonStreamResponse uuid now request inputItems created chat
        (initial_state db n) = (Threw, initial_state db n)).
Proof.
  split; [|split].
  - intros result -> Hstore. rewrite nonStreamResponse_resolves, Hstore.
    cbn [fst snd].
    destruct (fold_push_result (result_messages result) []
                (initial_state db n) eq_refl) as (_ & _ & _ & Hdb).
    destruct (fold_items (push_result uuid) (result_messages result) []
                (initial_state db n)) as [out s1].
    cbn [fst snd] in *.
    destruct s1 as [sq at_ ath fcs noi ru tio moi put w db1 dr].
    cbn in Hdb. subst db1. cbn.
    match goal with
    | |- context [persistResponse ?a ?b ?c ?d ?e ?f ?g ?h ?i ?j ?k] =>
        destruct (persistResponse_written a b c d e f g h i j k)
          as (row & Hrow & Hstatus & Hout & Husage & _)
    end.
    eexists. eexists. split; [reflexivity|]. cbn.
    unfold GET_response. rewrite Hrow.
    split; [reflexivity|]. cbn. rewrite Hstatus, Hout, Husage.
    repeat split.
    intros k Hk. apply persistResponse_other. exact Hk.
  - intros Hstore. destruct chat; try reflexivity.
    rewrite nonStreamResponse_resolves, Hstore. cbn [snd].
    destruct (fold_push_result (result_messages result) []
                (initial_state db n) eq_refl) as (_ & _ & _ & Hdb).
    destruct (fold_items (push_result uuid) (result_messages result) []
                (initial_state db n)) as [out s1].
    cbn [fst snd] in *.
    destruct s1 as [sq at_ ath fcs noi ru tio moi put w db1 dr].
    exact Hdb.
  - intros Hfails. destruct chat; try reflexivity.
    exfalso. exact (Hfails result eq_refl).
Qed.

(** X24.  [backgroundResponse] answers at once with a response object in
    status [in_progress], with empty output, no usage, [background: true]
    and the given creation time, under the id it has just drawn; the row it
    has written under that id is [in_progress] with empty output, so that a
    [GET] shows the same, and no other row is touched. *)
Theorem X24_background_answers_in_progress (db : DB) (n : nat) :
  resp_id (fst (backgroundResponse uuid now request inputItems created
                  (initial_state db n))) = "resp_" +:+ uuid n
  /\ resp_status (fst (backgroundResponse uuid now request inputItems created
                         (initial_state db n))) = InProgress
  /\ resp_output (fst (backgroundResponse uuid now request inputItems created
                         (initial_state db n))) = []
  /\ resp_usage (fst (backgroundResponse uuid now request inputItems created
                        (initial_state db n))) = None
  /\ resp_background
       (fst (backgroundResponse uuid now request inputItems created
               (initial_state db n))) = true
  /\ resp_created_at
       (fst (backgroundResponse uuid now request inputItems created
               (initial_state db n))) = created
  /\ (exists got,
        GET_response ("resp_" +:+ uuid n)
          (database (snd (backgroundResponse uuid now request inputItems
                            created (initial_state db n)))) = Ok got
        /\ resp_status got = InProgress
        /\ resp_output got = []
        /\ resp_usage got = None)
  /\ forall k, k <> "resp_" +:+ uuid n ->
       database (snd (backgroundResponse uuid now request inputItems created
                        (initial_state db n))) !! k = db !! k.
Proof.
  unfold_handlers. cbn.
  destruct (persistResponse_written now ("resp_" +:+ uuid n) request
              inputItems InProgress [] None created None None db)
    as (row & Hrow & Hstatus & Hout & Husage & _).
  repeat split.
  - unfold GET_response. rewrite Hrow. eexists. split; [reflexivity|].
    cbn. rewrite Hstatus, Hout, Husage. repeat split.
  - intros k Hk. apply persistResponse_other. exact Hk.
Qed.

(** X25.  The deferred task of [backgroundResponse] ends the row it is
    given.  When the adapter's call succeeds the row is [completed] with a
    usage whose totals add up and an output of one message per text part
    and one function call per tool call, in order; thinking and image parts
    are left out, so the output holds no reasoning item.  When the call
    fails the row is [failed] with empty output, no usage and the error's
    message, or "Background task failed" if what was thrown is no [Error].
    No other row is touched. *)
Theorem X25_background_task_ends_the_row (responseId : string)
    (chat : ChatOutcome) (db : DB) (n : nat) :
  (exists got,
     GET_response responseId
       (database (snd (background_task uuid now request inputItems created
                         responseId chat (initial_state db n)))) = Ok got
     /\ match chat with
        | ChatResolves result =>
            resp_status got = Completed
            /\ reasoning_texts (resp_output got) = []
            /\ item_bodies (resp_output got)
               = result_bodies (result_messages result)
            /\ resp_usage got = Some (usage_of (result_usage result))
            /\ usage_adds_up (resp_usage got)
            /\ resp_error got = None
        | ChatRejects message =>
            resp_status got = Failed
            /\ resp_output got = []
            /\ resp_usage got = None
            /\ resp_error got = Some (ServerError message)
        | ChatRejectsOther =>
            resp_status got = Failed
            /\ resp_output got = []
            /\ resp_usage got = None
            /\ resp_error got = Some (ServerError "Background task failed")
        end)
  /\ forall k, k <> responseId ->
       database (snd (background_task uuid now request inputItems created
                        responseId chat (initial_state db n))) !! k
       = db !! k.
Proof.
  destruct chat as [result|message|].
  - rewrite background_task_resolves.
    destruct (fold_push_background_result (result_messages result) []
                (initial_state db n)) as (Htexts & Hbodies & Hdb).
    rewrite Hdb. cbn [database initial_state].
    match goal with
    | |- context [persistResponse ?a ?b ?c ?d ?e ?f ?g ?h ?i ?j ?k] =>
        destruct (persistResponse_written a b c d e f g h i j k)
          as (row & Hrow & Hstatus & Hout & Husage & Herr & _)
    end.
    split; [|intros k Hk; apply persistResponse_other; exact Hk].
    unfold GET_response. rewrite Hrow. eexists. split; [reflexivity|].
    cbn. rewrite Hstatus, Hout, Husage, Herr. cbn. repeat split; assumption.
  - unfold background_task, modify. cbn.
    match goal with
    | |- context [persistResponse ?a ?b ?c ?d ?e ?f ?g ?h ?i ?j ?k] =>
        destruct (persistResponse_written a b c d e f g h i j k)
          as (row & Hrow & Hstatus & Hout & Husage & Herr & _)
    end.
    split; [|intros k Hk; apply persistResponse_other; exact Hk].
    unfold GET_response. rewrite Hrow. eexists. split; [reflexivity|].
    cbn. rewrite Hstatus, Hout, Husage, Herr. repeat split.
  - unfold background_task, modify. cbn.
    match goal with
    | |- context [persistResponse ?a ?b ?c ?d ?e ?f ?g ?h ?i ?j ?k] =>
        destruct (persistResponse_written a b c d e f g h i j k)
          as (row & Hrow & Hstatus & Hout & Husage & Herr & _)
    end.
    split; [|intros k Hk; apply persistResponse_other; exact Hk].
    unfold GET_response. rewrite Hrow. eexists. split; [reflexivity|].
    cbn. rewrite Hstatus, Hout, Husage, Herr. repeat split.
Qed.

End OneRequest.

End HandlersProperties.

(** ** Conversion to provider messages *)

Lemma strip_prefix_spec (p s r : string) :
  strip_prefix p s = Some r <-> s = p +:+ r.
Proof.
  revert s. induction p as [|a p IH]; intros s; cbn.
  - split; [intros [= ->]; reflexivity | intros ->; reflexivity].
  - destruct s as [|b s]; [split; discriminate|].
    unfold String.append; fold String.append.
    destruct (Ascii.eqb_spec a b) as [<-|Hne].
    + rewrite IH. split; [intros ->; reflexivity | intros [= ->]; reflexivity].
    + split; [discriminate | intros [= <- _]; contradiction].
Qed.

Lemma split_at_semicolon_spec (s before after : string) :
  split_at_semicolon s = Some (before, after)
  <-> s = before +:+ ";" +:+ after /\ has_semicolon before = false.
Proof.
  revert before. induction s as [|a s IH]; intros before; cbn.
  - split; [discriminate|]. intros [H _]. destruct before; discriminate H.
  - destruct (Ascii.eqb_spec a ";"%char) as [->|Hne].
    + split.
      * intros [= <- <-]. split; reflexivity.
      * intros [H Hno]. destruct before as [|b before].
        -- cbn in H. injection H as ->. reflexivity.
        -- unfold String.append in H; fold String.append in H.
           injection H as <- _. cbn in Hno. discriminate.
    + destruct (split_at_semicolon s) as [[b' a']|] eqn:Hs.
      * split.
        -- intros [= <- <-]. destruct (proj1 (IH b') eq_refl) as [-> Hno].
           split; [reflexivity|]. cbn.
           rewrite (proj2 (Ascii.eqb_neq _ _) Hne). exact Hno.
        -- intros [H Hno]. destruct before as [|b before].
           ++ cbn in H. injection H as -> _. contradiction.
           ++ unfold String.append in H; fold String.append in H.
              injection H as <- ->. cbn in Hno.
              apply orb_false_iff in Hno as [_ Hno].
              pose proof (proj2 (IH before) (conj eq_refl Hno)) as Heq.
              injection Heq as -> ->. reflexivity.
      * split; [discriminate|]. intros [H Hno].
        destruct before as [|b before].
        -- cbn in H. injection H as -> _. contradiction.
        -- unfold String.append in H; fold String.append in H.
           injection H as <- ->. cbn in Hno.
           apply orb_false_iff in Hno as [_ Hno].
           pose proof (proj2 (IH before) (conj eq_refl Hno)) as Habs.
           discriminate Habs.
Qed.

Lemma match_data_url_spec (url mediaType data : string) :
  match_data_url url = Some (mediaType, data)
  <-> url = "data:" +:+ mediaType +:+ ";base64," +:+ data
      /\ mediaType <> "" /\ has_semicolon mediaType = false
      /\ data <> "" /\ has_line_terminator data = false.
Proof.
  unfold match_data_url. split.
  - destruct (strip_prefix "data:" url) as [rest|] eqn:Hrest; [|discriminate].
    apply strip_prefix_spec in Hrest. subst url.
    destruct (split_at_semicolon rest) as [[m after]|] eqn:Hsplit;
      [|discriminate].
    apply split_at_semicolon_spec in Hsplit as [-> Hno].
    destruct (strip_prefix "base64," after) as [d|] eqn:Hd; [|discriminate].
    apply strip_prefix_spec in Hd. subst after.
    destruct (String.eqb_spec m ""); [discriminate|].
    destruct (String.eqb_spec d ""); [discriminate|]. cbn.
    destruct (has_line_terminator d) eqn:Hlt; [discriminate|].
    intros [= <- <-]. repeat split; assumption.
  - intros (-> & Hm & Hno & Hd & Hlt).
    rewrite (proj2 (strip_prefix_spec "data:" _ _) eq_refl).
    assert (split_at_semicolon (mediaType +:+ ";base64," +:+ data)
            = Some (mediaType, "base64," +:+ data)) as ->
      by (apply split_at_semicolon_spec; split; [reflexivity | exact Hno]).
    rewrite (proj2 (strip_prefix_spec "base64," _ _) eq_refl).
    rewrite (proj2 (String.eqb_neq _ _) Hm), (proj2 (String.eqb_neq _ _) Hd),
      Hlt.
    reflexivity.
Qed.

Lemma prefix_append (p r : string) : String.prefix p (p +:+ r) = true.
Proof.
  induction p as [|a p IH]; [unfold String.append; destruct r; reflexivity|].
  unfold String.append; fold String.append. cbn [String.prefix].
  destruct (ascii_dec a a); [exact IH | contradiction].
Qed.

Lemma join_merge (s t : string) (rest : list string) :
  join LF ((s +:+ LF +:+ t) :: rest) = join LF (s :: t :: rest).
Proof.
  destruct rest as [|r rest]; [reflexivity|].
  cbn [join]. rewrite !append_assoc. reflexivity.
Qed.

Section ConversionProperties.

Variable J : Type.
Variable JSON_parse : string -> option J.
Variable of_string : string -> J.

Local Abbreviation item_step := (convert_item J JSON_parse of_string).
Local Abbreviation convert :=
  (convertToProviderMessages J JSON_parse of_string).

Local Abbreviation tool_use := (tool_use_part J JSON_parse of_string).
Local Abbreviation tool_result := (tool_result_part J).

Lemma merge_or_push_snoc merge fresh (l : list (ProviderMessage J)) m :
  merge_or_push J merge fresh (l ++ [m])
  = l ++ match merge m with Some m' => [m'] | None => [m; fresh] end.
Proof.
  induction l as [|a l IH]; [reflexivity|].
  cbn [app merge_or_push].
  destruct (l ++ [m]) as [|b rest] eqn:Hl.
  - destruct l; discriminate Hl.
  - rewrite IH. reflexivity.
Qed.

Lemma merge_or_push_Forall (P : ProviderMessage J -> Prop) merge fresh l :
  Forall P l -> P fresh ->
  (forall m m', P m -> merge m = Some m' -> P m') ->
  Forall P (merge_or_push J merge fresh l).
Proof.
  intros Hl Hfresh Hmerge.
  destruct l as [|a l] using rev_ind; [repeat constructor; exact Hfresh|].
  clear IHl. rewrite merge_or_push_snoc.
  apply Forall_app in Hl as [Hl Ha]. apply Forall_app. split; [exact Hl|].
  apply Forall_cons_1 in Ha as [Ha _].
  destruct (merge a) as [m'|] eqn:Hm.
  - repeat constructor. exact (Hmerge _ _ Ha Hm).
  - repeat constructor; assumption.
Qed.

Lemma convert_fold_app items1 items2 c :
  fold_left item_step (items1 ++ items2) c
  = fold_left item_step items2 (fold_left item_step items1 c).
Proof. apply fold_left_app. Qed.

(** X26. No message handed to the provider has the role [system], and
    none has an empty content: system and developer messages only feed
    the system prompt, and a message whose content converts to no part is
    left out. *)
Theorem X26_messages_are_never_system_nor_empty
    (inputItems : list Item) (instructions : option string) :
  Forall (fun m => msg_role m <> RoleSystem /\ msg_content m <> [])
    (messages (convert inputItems instructions)).
Proof.
  unfold convertToProviderMessages.
  set (c0 := {| messages := []; system := _ |}).
  assert (H0 : Forall (fun m : ProviderMessage J =>
                         msg_role m <> RoleSystem /\ msg_content m <> [])
                 (messages c0)) by constructor.
  clearbody c0. revert c0 H0.
  induction inputItems as [|item items IH]; intros c Hc; [exact Hc|].
  cbn [fold_left]. apply IH. clear IH.
  destruct item as [[role content| id callId name args | callId output | id]
                   |[id st content | id callId st name args | id text]];
    cbn; try exact Hc.
  - destruct role; cbn; try exact Hc;
      (destruct (convertContentToParts J (raw_content content)) eqn:Hparts;
       [exact Hc|];
       apply Forall_app; split; [exact Hc|];
       repeat constructor; cbn; discriminate).
  - apply merge_or_push_Forall; [exact Hc | split; cbn; discriminate|].
    intros m m' [Hrole Hcontent] Hm. destruct (decide _); [|discriminate].
    injection Hm as <-. split; cbn; [exact Hrole|].
    intros Habs. apply app_eq_nil in Habs as [_ Habs]. discriminate.
  - apply merge_or_push_Forall; [exact Hc | split; cbn; discriminate|].
    intros m m' [Hrole Hcontent] Hm. destruct (_ && _); [|discriminate].
    injection Hm as <-. split; cbn; [exact Hrole|].
    intros Habs. apply app_eq_nil in Habs as [_ Habs]. discriminate.
  - destruct (concat _) eqn:Hparts; [exact Hc|].
    apply Forall_app; split; [exact Hc|].
    repeat constructor; cbn; discriminate.
  - apply merge_or_push_Forall; [exact Hc | split; cbn; discriminate|].
    intros m m' [Hrole Hcontent] Hm. destruct (decide _); [|discriminate].
    injection Hm as <-. split; cbn; [exact Hrole|].
    intros Habs. apply app_eq_nil in Habs as [_ Habs]. discriminate.
Qed.

Lemma system_of_item (c : Conversation J) (item : Item) :
  system (item_step c item)
  = match system_texts [item] with
    | [] => system c
    | text :: _ =>
        if truthy (system c)
        then Some (default "" (system c) +:+ LF +:+ text)
        else Some text
    end.
Proof.
  destruct item as [[role content| id callId name args | callId output | id]
                   |[id st content | id callId st name args | id text]];
    try reflexivity.
  destruct role; reflexivity.
Qed.

Lemma system_texts_cons (item : Item) (items : list Item) :
  system_texts (item :: items) = system_texts [item] ++ system_texts items.
Proof. apply (omap_app _ [item] items). Qed.

Lemma system_texts_single (item : Item) :
  system_texts [item] = [] \/ exists text, system_texts [item] = [text].
Proof.
  destruct item as [[role content| id callId name args | callId output | id]
                   |[id st content | id callId st name args | id text]];
    try (left; reflexivity).
  destruct role; (left; reflexivity) || (right; eexists; reflexivity).
Qed.

Lemma system_after_prompt (items : list Item) (c : Conversation J) (s : string) :
  system c = Some s -> s <> "" ->
  system (fold_left item_step items c)
  = Some (join LF (s :: system_texts items)).
Proof.
  revert c s. induction items as [|item items IH]; intros c s Hs Hne;
    [exact Hs|].
  cbn [fold_left]. rewrite system_texts_cons.
  pose proof (system_of_item c item) as Hitem.
  destruct (system_texts_single item) as [Hnone | [text Hone]].
  - rewrite Hnone in *. apply IH; [|exact Hne]. rewrite Hitem. exact Hs.
  - rewrite Hone in *. rewrite Hs in Hitem. cbn in Hitem.
    rewrite (proj2 (String.eqb_neq _ _) Hne) in Hitem. cbn in Hitem.
    rewrite (IH _ _ Hitem).
    + cbn [app]. rewrite join_merge. reflexivity.
    + destruct s; [contradiction | discriminate].
Qed.

Lemma system_without_prompt (items : list Item) (c : Conversation J) :
  truthy (system c) = false ->
  system (fold_left item_step items c)
  = match system_texts items with
    | [] => system c
    | _ :: _ => Some (join LF (drop_leading_empty (system_texts items)))
    end.
Proof.
  revert c. induction items as [|item items IH]; intros c Hc;
    [reflexivity|].
  cbn [fold_left]. rewrite system_texts_cons.
  pose proof (system_of_item c item) as Hitem.
  destruct (system_texts_single item) as [Hnone | [text Hone]].
  - rewrite Hnone in *. cbn [app]. rewrite IH; rewrite Hitem; [|exact Hc].
    reflexivity.
  - rewrite Hone in *. rewrite Hc in Hitem. cbn [app drop_leading_empty].
    destruct (String.eqb_spec text "") as [->|Hne].
    + rewrite IH by (rewrite Hitem; reflexivity). rewrite Hitem.
      destruct (system_texts items); reflexivity.
    + rewrite (system_after_prompt items _ text Hitem Hne). reflexivity.
Qed.

(** X27. The system prompt is the instructions followed by the texts of
    the system and developer messages, in the order of the items, one per
    line. Without instructions it is these texts alone, the empty ones
    before the first text left out; with neither there is no system
    prompt. *)
Theorem X27_system_prompt
    (inputItems : list Item) (instructions : option string) :
  system (convert inputItems instructions)
  = if truthy instructions
    then Some (join LF (default "" instructions :: system_texts inputItems))
    else match system_texts inputItems with
         | [] => None
         | _ :: _ =>
             Some (join LF (drop_leading_empty (system_texts inputItems)))
         end.
Proof.
  unfold convertToProviderMessages.
  destruct (truthy instructions) eqn:Hi.
  - destruct instructions as [s|]; [|discriminate].
    apply (system_after_prompt inputItems _ s); [reflexivity|].
    intros ->. discriminate.
  - rewrite system_without_prompt by reflexivity. reflexivity.
Qed.

(** X28. Item references and reasoning items are not replayed to the
    provider: the conversion of a list of items is that of the list
    without them. *)
Theorem X28_references_and_reasoning_are_not_replayed
    (inputItems : list Item) (instructions : option string) :
  convert (List.filter (fun i => negb (is_silent i)) inputItems) instructions
  = convert inputItems instructions.
Proof.
  unfold convertToProviderMessages.
  generalize ({| messages := @nil (ProviderMessage J);
                 system := if truthy instructions then instructions
                           else None |}).
  induction inputItems as [|item items IH]; intros c; [reflexivity|].
  cbn [List.filter fold_left].
  destruct item as [[role content| id callId name args | callId output | id]
                   |[id st content | id callId st name args | id text]];
    cbn [is_silent negb fold_left]; rewrite IH; reflexivity.
Qed.

Lemma call_joins_the_assistant_message l parts s (fc : FunctionCallEntry) :
  item_step
    {| messages := l ++ [ {| msg_role := RoleAssistant;
                             msg_content := parts |} ];
       system := s |}
    (FromOutput (function_call_item fc))
  = {| messages := l ++ [ {| msg_role := RoleAssistant;
                             msg_content := parts ++ [tool_use fc] |} ];
       system := s |}.
Proof.
  unfold function_call_item, convert_item, push_tool_use.
  cbn [messages system]. rewrite merge_or_push_snoc. reflexivity.
Qed.

Lemma calls_join_the_assistant_message l parts s (fcs : list FunctionCallEntry) :
  fold_left item_step (FromOutput <$> (function_call_item <$> fcs))
    {| messages := l ++ [ {| msg_role := RoleAssistant;
                             msg_content := parts |} ];
       system := s |}
  = {| messages := l ++ [ {| msg_role := RoleAssistant;
                             msg_content := parts ++ (tool_use <$> fcs) |} ];
       system := s |}.
Proof.
  revert parts. induction fcs as [|fc fcs IH]; intros parts.
  - cbn. rewrite app_nil_r. reflexivity.
  - rewrite !fmap_cons. cbn [fold_left].
    rewrite call_joins_the_assistant_message, IH, <- app_assoc.
    reflexivity.
Qed.

Lemma result_joins_the_user_message l parts s (r : string * string) :
  existsb (is_tool_result J) parts = true ->
  item_step
    {| messages := l ++ [ {| msg_role := RoleUser; msg_content := parts |} ];
       system := s |}
    (result_item r)
  = {| messages := l ++ [ {| msg_role := RoleUser;
                             msg_content := parts ++ [tool_result r] |} ];
       system := s |}.
Proof.
  intros Hparts.
  unfold result_item, convert_item, push_tool_result.
  cbn [messages system]. rewrite merge_or_push_snoc.
  cbn [msg_role msg_content]. rewrite Hparts. reflexivity.
Qed.

Lemma result_follows_the_assistant_message l parts s (r : string * string) :
  item_step
    {| messages := l ++ [ {| msg_role := RoleAssistant;
                             msg_content := parts |} ];
       system := s |}
    (result_item r)
  = {| messages := (l ++ [ {| msg_role := RoleAssistant;
                              msg_content := parts |} ])
                   ++ [ {| msg_role := RoleUser;
                           msg_content := [tool_result r] |} ];
       system := s |}.
Proof.
  unfold result_item, convert_item, push_tool_result.
  cbn [messages system]. rewrite merge_or_push_snoc.
  cbn [msg_role msg_content]. rewrite <- app_assoc. reflexivity.
Qed.

Lemma results_join_the_user_message l parts s (results : list (string * string)) :
  existsb (is_tool_result J) parts = true ->
  fold_left item_step (result_item <$> results)
    {| messages := l ++ [ {| msg_role := RoleUser; msg_content := parts |} ];
       system := s |}
  = {| messages := l ++ [ {| msg_role := RoleUser;
                             msg_content := parts ++ (tool_result <$> results) |} ];
       system := s |}.
Proof.
  revert parts. induction results as [|r results IH]; intros parts Hparts.
  - cbn. rewrite app_nil_r. reflexivity.
  - rewrite fmap_cons. cbn [fold_left].
    rewrite result_joins_the_user_message by exact Hparts.
    rewrite IH, <- app_assoc; [reflexivity|].
    rewrite existsb_app, Hparts. reflexivity.
Qed.

Lemma output_text_parts (content : list OutputTextPart) :
  convertContentToParts J
    (RawArray ((fun p => RawOutputText (part_text p)) <$> content))
  = (fun p => PartText (part_text p)) <$> content.
Proof.
  unfold convertContentToParts.
  induction content as [|p content IH]; [reflexivity|].
  rewrite !fmap_cons. cbn [concat convert_part app]. rewrite IH.
  reflexivity.
Qed.

(** X29. A turn that is replayed (the message of a stored response, its
    function calls, then the results of the tools) becomes two messages
    after those of the items before it: one assistant message holding the
    text parts followed by one tool use per call, and, when there are
    results, one user message holding all of them, both in the order of the
    items. The system prompt is not affected. *)
Theorem X29_replayed_tool_turn
    (inputItems : list Item) (instructions : option string)
    (id : string) (status : ItemStatus) (content : list OutputTextPart)
    (fcs : list FunctionCallEntry) (results : list (string * string)) :
  content <> [] ->
  let before := convert inputItems instructions in
  let after :=
    convert (inputItems
             ++ (FromOutput <$> (MessageItem id status content
                                 :: (function_call_item <$> fcs)))
             ++ (result_item <$> results)) instructions in
  messages after
  = messages before
    ++ [ {| msg_role := RoleAssistant;
            msg_content := ((fun p => PartText (part_text p)) <$> content)
                           ++ (tool_use <$> fcs) |} ]
    ++ match results with
       | [] => []
       | _ :: _ => [ {| msg_role := RoleUser;
                        msg_content := tool_result <$> results |} ]
       end
  /\ system after = system before.
Proof.
  intros Hcontent before after. subst before after.
  unfold convertToProviderMessages.
  rewrite !convert_fold_app.
  set (c := fold_left item_step inputItems _).
  destruct c as [l s]. cbn [messages system].
  rewrite (fmap_cons FromOutput). cbn [fold_left].
  assert (Hmsg : item_step {| messages := l; system := s |}
                   (FromOutput (MessageItem id status content))
                 = {| messages := l ++ [ {| msg_role := RoleAssistant;
                                            msg_content :=
                                              (fun p => PartText (part_text p))
                                                <$> content |} ];
                      system := s |}).
  { unfold convert_item, push_message.
    rewrite output_text_parts. cbn [messages system].
    destruct content as [|p content]; [contradiction|]. reflexivity. }
  rewrite Hmsg. rewrite calls_join_the_assistant_message.
  destruct results as [|r results].
  - cbn. split; reflexivity.
  - rewrite fmap_cons. cbn [fold_left].
    rewrite result_follows_the_assistant_message.
    rewrite (results_join_the_user_message _ [tool_result r] _ results eq_refl).
    cbn [messages system]. rewrite <- app_assoc. split; reflexivity.
Qed.

(** X30. What an [input_image] part becomes. It is a base64 image exactly
    when its URL reads [data:<media type>;base64,<data>] with a media type
    that is not empty and holds no [;] and data that are not empty and
    hold no line terminator, and then with this media type and these data;
    it is an image by URL exactly when the URL is not empty and does not
    start with [data:], and then with the URL itself. *)
Theorem X30_image_parts (url mediaType data : string) :
  (convert_part J (RawInputImage (Some url)) = [PartImageBase64 mediaType data]
   <-> url = "data:" +:+ mediaType +:+ ";base64," +:+ data
       /\ mediaType <> "" /\ has_semicolon mediaType = false
       /\ data <> "" /\ has_line_terminator data = false)
  /\ (forall url', convert_part J (RawInputImage (Some url)) = [PartImageUrl url']
      <-> url' = url /\ url <> "" /\ String.prefix "data:" url = false).
Proof.
  unfold convert_part. cbn [truthy default from_option id].
  split.
  - rewrite <- match_data_url_spec. split.
    + destruct (String.eqb url ""); cbn [negb]; [discriminate|].
      destruct (String.prefix "data:" url); [|discriminate].
      destruct (match_data_url url) as [[m d]|]; [|discriminate].
      intros [= -> ->]. reflexivity.
    + intros Hmatch.
      pose proof (proj1 (match_data_url_spec _ _ _) Hmatch) as (-> & _).
      rewrite Hmatch, prefix_append. reflexivity.
  - intros url'. split.
    + destruct (String.eqb_spec url ""); cbn [negb]; [discriminate|].
      destruct (String.prefix "data:" url).
      * destruct (match_data_url url) as [[m d]|]; discriminate.
      * intros [= <-]. auto.
    + intros (-> & Hne & Hprefix).
      rewrite (proj2 (String.eqb_neq _ _) Hne), Hprefix. reflexivity.
Qed.

End ConversionProperties.

Lemma X29_replayed_tool_turn_witness :
  messages
    (convertToProviderMessages string (fun _ => None) (fun s => s)
       ([FromInput (InputMessage User (ContentString "weather?"))]
        ++ (FromOutput <$> (MessageItem "msg_1" ItemCompleted
                              [ {| part_text := "Let me look." |} ]
                            :: (function_call_item <$>
                                  [ {| fc_id := "fc_1"; fc_callId := "call_1";
                                       fc_name := "get_weather";
                                       fc_arguments := "{}";
                                       fc_outputIndex := 1;
                                       fc_done := true |} ])))
        ++ (result_item <$> [("call_1", "sunny")])) None)
  = [ {| msg_role := RoleUser; msg_content := [PartText "weather?"] |};
      {| msg_role := RoleAssistant;
         msg_content := [PartText "Let me look.";
                         PartToolUse "call_1" "get_weather" "{}"] |};
      {| msg_role := RoleUser;
         msg_content := [PartToolResult "call_1" "sunny"] |} ].
Proof.
  refine (proj1 (X29_replayed_tool_turn string (fun _ => None) (fun s => s)
                   [FromInput (InputMessage User (ContentString "weather?"))]
                   None "msg_1" ItemCompleted
                   [ {| part_text := "Let me look." |} ]
                   [ {| fc_id := "fc_1"; fc_callId := "call_1";
                        fc_name := "get_weather"; fc_arguments := "{}";
                        fc_outputIndex := 1; fc_done := true |} ]
                   [("call_1", "sunny")] _)).
  discriminate.
Defined.

Lemma X30_image_parts_witness :
  convert_part unit (RawInputImage (Some "data:image/png;base64,AAAA"))
  = [PartImageBase64 "image/png" "AAAA"].
Proof.
  apply (proj1 (X30_image_parts unit "data:image/png;base64,AAAA"
                  "image/png" "AAAA")).
  repeat split; (reflexivity || discriminate).
Defined.

Lemma X2_get_returns_what_was_persisted_witness :
  exists body,
    GET_response "resp_1"
      (persistResponse 1700000009 "resp_1" (example_request true) []
         Completed [] None 1700000000 None None ∅) = Ok body
    /\ resp_status body = Completed
    /\ resp_created_at body = 1700000000.
Proof.
  destruct (X2_get_returns_what_was_persisted 1700000009 "resp_1"
              (example_request true) [] Completed [] None 1700000000
              None None ∅)
    as (body & Hget & _ & Hstatus & _ & _ & _ & _ & _ & _ & Hnew).
  exists body. split; [exact Hget|]. split; [exact Hstatus|].
  destruct (Hnew eq_refl) as (_ & _ & Hcreated & _). exact Hcreated.
Defined.

Lemma X3_delete_removes_one_row_witness :
  fst (DELETE_response "resp_1"
         {[ "resp_1" := example_row Completed true ]})
  = Ok {| deleted_id := "resp_1"; deleted := true |}.
Proof.
  apply (proj2 (X3_delete_removes_one_row "resp_1"
                  {[ "resp_1" := example_row Completed true ]})).
  exists (example_row Completed true). reflexivity.
Defined.

Lemma X14_ids_are_stable_witness :
  is_Some
    (database
       (streamResponse hex 1700000009 (example_request true) [] 1700000000
          pure_tool_call ∅)
     !! ("resp_" +:+ hex 0)).
Proof.
  apply (proj2 (X14_ids_are_stable hex 1700000009 (example_request true) []
                  1700000000 ∅ pure_tool_call)).
  reflexivity.
Defined.

Lemma X20_checkpoints_are_silent_witness :
  database
    (streaming hex 1700000009 (example_request true) [] 1700000000
       ([Yield (text_delta "Hello")] ++ [TimerFires])
       {[ "resp_1" := example_row InProgress true ]})
  !! "resp_1"
  = database
      (streaming hex 1700000009 (example_request true) [] 1700000000
         [Yield (text_delta "Hello")]
         {[ "resp_1" := example_row InProgress true ]})
    !! "resp_1".
Proof.
  apply (X20_checkpoints_are_silent hex 1700000009 (example_request true) []
           1700000000 {[ "resp_1" := example_row InProgress true ]}
           [Yield (text_delta "Hello")] pure_tool_call).
  discriminate.
Defined.

Lemma X23_one_shot_response_is_stored_as_answered_witness :
  database
    (snd (nonStreamResponse hex 1700000009 (example_request false) []
            1700000000
            (ChatResolves {| result_messages := [OutText "Hello"];
                             result_stopReason := end_turn;
                             result_usage := example_usage |})
            (initial_state {[ "resp_1" := example_row InProgress true ]} 0)))
  = {[ "resp_1" := example_row InProgress true ]}.
Proof.
  apply (X23_one_shot_response_is_stored_as_answered hex 1700000009
           (example_request false) [] 1700000000
           (ChatResolves {| result_messages := [OutText "Hello"];
                            result_stopReason := end_turn;
                            result_usage := example_usage |})
           {[ "resp_1" := example_row InProgress true ]} 0).
  reflexivity.
Defined.

Lemma X24_background_answers_in_progress_witness :
  database
    (snd (backgroundResponse hex 1700000009 (example_request true) []
            1700000000
            (initial_state {[ "resp_1" := example_row Completed true ]} 0)))
  !! "resp_1"
  = ({[ "resp_1" := example_row Completed true ]} : DB) !! "resp_1".
Proof.
  apply (X24_background_answers_in_progress hex 1700000009
           (example_request true) [] 1700000000
           {[ "resp_1" := example_row Completed true ]} 0).
  discriminate.
Defined.

Lemma X25_background_task_ends_the_row_witness :
  database
    (snd (background_task hex 1700000009 (example_request true) []
            1700000000 "resp_2" (ChatRejects "upstream unavailable")
            (initial_state {[ "resp_1" := example_row Completed true ]} 0)))
  !! "resp_1"
  = ({[ "resp_1" := example_row Completed true ]} : DB) !! "resp_1".
Proof.
  apply (X25_background_task_ends_the_row hex 1700000009
           (example_request true) [] 1700000000 "resp_2"
           (ChatRejects "upstream unavailable")
           {[ "resp_1" := example_row Completed true ]} 0).
  discriminate.
Defined.
